(** * SNAPLib/TenXAligner.cpp: the 10x (linked-read) paired-end aligner driver

    A shallow embedding of [TenXAlignerOptions::parse] and of
    [TenXAlignerContext::runIterationThread], with the properties of the
    design document stated against it.

    Conventions.
    - C integers are [Z]; where the source multiplies an [_int64] the
      two's-complement wrap-around is written out ([wrap64]), the byte count
      of a resized buffer is computed in [size_t], and [atoi] gives an
      [int].
    - A heap array is a list of cells.  A cell the program has not written
      yet holds [None]; reading it, or indexing outside the array, is
      undefined behaviour in C++ and is the outcome [Fault] here.
    - Code that lives in other translation units ([AlignerOptions],
      [TenXClusterAligner], [Read], the filter predicate, the writer) is a
      [Variable] of the enclosing [Section].
    - The histograms of [TenXAlignerStats] are modelled on their own, apart
      from the counters the worker thread increments.
    - Left out: the [_ASSERT]s (compiled out of a release build), the canary
      checks of the arena, the profiling timers and the Hadoop progress
      line. *)

From Stdlib Require Import ZArith Lia Bool String Ascii List.
From stdpp Require Import base option list.
Import ListNotations.
Open Scope Z_scope.

(** ** C library: [strcmp] and [atoi] *)

(** [strcmp(a, b) == 0] *)
Definition streq (a b : string) : bool := String.eqb a b.

Definition isspace (c : ascii) : bool :=
  let n := Z.of_nat (nat_of_ascii c) in
  (n =? 32) || ((9 <=? n) && (n <=? 13)).

Definition digit_of (c : ascii) : option Z :=
  let n := Z.of_nat (nat_of_ascii c) in
  if (48 <=? n) && (n <=? 57) then Some (n - 48) else None.

Fixpoint skip_spaces (s : string) : string :=
  match s with
  | String c s' => if isspace c then skip_spaces s' else s
  | EmptyString => s
  end.

Fixpoint atoi_digits (s : string) (acc : Z) : Z :=
  match s with
  | String c s' =>
      match digit_of c with
      | Some d => atoi_digits s' (10 * acc + d)
      | None => acc
      end
  | EmptyString => acc
  end.

(** The value the digits denote: leading white space, an optional sign, then
    decimal digits up to the first other character. *)
Definition decimal_value (s : string) : Z :=
  match skip_spaces s with
  | String "-"%char s' => - atoi_digits s' 0
  | String "+"%char s' => atoi_digits s' 0
  | s' => atoi_digits s' 0
  end.

(** A [long] converted to [int]: the low 32 bits, two's complement. *)
Definition int_of_long (z : Z) : Z := (z + 2 ^ 31) mod 2 ^ 32 - 2 ^ 31.

(** [atoi].  The result is an [int].  For a value outside [int] the C
    standard leaves the behaviour undefined; the model takes what the GNU C
    library does, [(int) strtol(s, NULL, 10)]: the value saturates at the
    ends of [long] and the conversion keeps its low 32 bits. *)
Definition atoi (s : string) : Z :=
  int_of_long (Z.max (- 2 ^ 63) (Z.min (2 ^ 63 - 1) (decimal_value s))).

(** ** Options *)

Definition DEFAULT_MIN_SPACING : Z := 50.
Definition DEFAULT_MAX_SPACING : Z := 1000.
Definition DEFAULT_MAX_BARCODE_SIZE : Z := 60000.
Definition DEFAULT_MIN_PAIRS_PER_CLUSTER : Z := 10.
Definition DEFAULT_MAX_CLUSTER_SPAN : Z := 100000.

(** [TenXAlignerOptions], with the one member of its base class
    [AlignerOptions] that [parse] writes ([filterFlags]). *)
Record TenXAlignerOptions : Type := mkOptions {
  filterFlags : Z;
  minSpacing : Z;
  maxSpacing : Z;
  maxBarcodeSize : Z;
  minPairsPerCluster : Z;
  maxClusterSpan : Z;
  forceSpacing : bool;
  intersectingAlignerMaxHits : Z;
  maxCandidatePoolSize : Z;
  quicklyDropUnpairedReads : bool
}.

Definition set_filterFlags (v : Z) (o : TenXAlignerOptions) :=
  mkOptions v (minSpacing o) (maxSpacing o) (maxBarcodeSize o)
    (minPairsPerCluster o) (maxClusterSpan o) (forceSpacing o)
    (intersectingAlignerMaxHits o) (maxCandidatePoolSize o)
    (quicklyDropUnpairedReads o).
Definition set_spacing (lo hi : Z) (o : TenXAlignerOptions) :=
  mkOptions (filterFlags o) lo hi (maxBarcodeSize o)
    (minPairsPerCluster o) (maxClusterSpan o) (forceSpacing o)
    (intersectingAlignerMaxHits o) (maxCandidatePoolSize o)
    (quicklyDropUnpairedReads o).
Definition set_maxBarcodeSize (v : Z) (o : TenXAlignerOptions) :=
  mkOptions (filterFlags o) (minSpacing o) (maxSpacing o) v
    (minPairsPerCluster o) (maxClusterSpan o) (forceSpacing o)
    (intersectingAlignerMaxHits o) (maxCandidatePoolSize o)
    (quicklyDropUnpairedReads o).
Definition set_minPairsPerCluster (v : Z) (o : TenXAlignerOptions) :=
  mkOptions (filterFlags o) (minSpacing o) (maxSpacing o) (maxBarcodeSize o)
    v (maxClusterSpan o) (forceSpacing o)
    (intersectingAlignerMaxHits o) (maxCandidatePoolSize o)
    (quicklyDropUnpairedReads o).
Definition set_forceSpacing (v : bool) (o : TenXAlignerOptions) :=
  mkOptions (filterFlags o) (minSpacing o) (maxSpacing o) (maxBarcodeSize o)
    (minPairsPerCluster o) (maxClusterSpan o) v
    (intersectingAlignerMaxHits o) (maxCandidatePoolSize o)
    (quicklyDropUnpairedReads o).
Definition set_intersectingAlignerMaxHits (v : Z) (o : TenXAlignerOptions) :=
  mkOptions (filterFlags o) (minSpacing o) (maxSpacing o) (maxBarcodeSize o)
    (minPairsPerCluster o) (maxClusterSpan o) (forceSpacing o)
    v (maxCandidatePoolSize o) (quicklyDropUnpairedReads o).
Definition set_maxCandidatePoolSize (v : Z) (o : TenXAlignerOptions) :=
  mkOptions (filterFlags o) (minSpacing o) (maxSpacing o) (maxBarcodeSize o)
    (minPairsPerCluster o) (maxClusterSpan o) (forceSpacing o)
    (intersectingAlignerMaxHits o) v (quicklyDropUnpairedReads o).
Definition set_quicklyDropUnpairedReads (v : bool) (o : TenXAlignerOptions) :=
  mkOptions (filterFlags o) (minSpacing o) (maxSpacing o) (maxBarcodeSize o)
    (minPairsPerCluster o) (maxClusterSpan o) (forceSpacing o)
    (intersectingAlignerMaxHits o) (maxCandidatePoolSize o) v.

(** What one call of [parse] leaves behind: the options object, the cursor
    [n] (passed by reference), [*done], and the returned flag. *)
Record Parsed : Type := mkParsed {
  p_options : TenXAlignerOptions;
  p_n : Z;
  p_done : bool;
  p_ok : bool
}.

(** [argv[k]]; [None] outside [0 .. argc-1]. *)
Definition arg (argv : list string) (k : Z) : option string :=
  if 0 <=? k then argv !! Z.to_nat k else None.

Definition argc (argv : list string) : Z := Z.of_nat (length argv).

(** [filterFlags & FilterBothMatesMatch], as a C condition. *)
Definition bothMatesMatch (FilterBothMatesMatch flags : Z) : bool :=
  negb (Z.land flags FilterBothMatesMatch =? 0).

Section Options.

(** Declared in AlignerOptions.h. *)
Variable FilterBothMatesMatch : Z.
Variable DEFAULT_INTERSECTING_ALIGNER_MAX_HITS : Z.
Variable DEFAULT_MAX_CANDIDATE_POOL_SIZE : Z.

(** [AlignerOptions::parse], the base-class parser the last line of
    [TenXAlignerOptions::parse] delegates to. *)
Variable AlignerOptions_parse :
  TenXAlignerOptions -> list string -> Z -> option Parsed.

(** Modelled from the spec: the constructor of the base class
    [AlignerOptions] is not part of the sources; section 6.2 gives
    [filterFlags.matchBoth] the default false, and the usage text of this
    file says of [-F b] that the default is just one mate.  The base
    constructor leaves no filter flag set. *)
Definition AlignerOptions_filterFlags_default : Z := 0.

(** The constructor [TenXAlignerOptions::TenXAlignerOptions]. *)
Definition TenXAlignerOptions_new : TenXAlignerOptions :=
  {| filterFlags := AlignerOptions_filterFlags_default;
     minSpacing := DEFAULT_MIN_SPACING;
     maxSpacing := DEFAULT_MAX_SPACING;
     maxBarcodeSize := DEFAULT_MAX_BARCODE_SIZE;
     minPairsPerCluster := DEFAULT_MIN_PAIRS_PER_CLUSTER;
     maxClusterSpan := DEFAULT_MAX_CLUSTER_SPAN;
     forceSpacing := false;
     intersectingAlignerMaxHits := DEFAULT_INTERSECTING_ALIGNER_MAX_HITS;
     maxCandidatePoolSize := DEFAULT_MAX_CANDIDATE_POOL_SIZE;
     quicklyDropUnpairedReads := true |}.

Definition accepted (o : TenXAlignerOptions) (n : Z) : option Parsed :=
  Some (mkParsed o n false true).
Definition rejected (o : TenXAlignerOptions) (n : Z) : option Parsed :=
  Some (mkParsed o n false false).

(** [TenXAlignerOptions::parse(argv, argc, n, done)].  [None]: the source
    reads [argv[n]] outside the argument vector. *)
Definition parse (o : TenXAlignerOptions) (argv : list string) (n : Z)
  : option Parsed :=
  a ← arg argv n;
  if streq a "-s" then
    if n + 2 <? argc argv then
      a1 ← arg argv (n + 1);
      a2 ← arg argv (n + 2);
      accepted (set_spacing (atoi a1) (atoi a2) o) (n + 2)
    else rejected o n
  else if streq a "-H" then
    if n + 1 <? argc argv then
      a1 ← arg argv (n + 1);
      accepted (set_intersectingAlignerMaxHits (atoi a1) o) (n + 1)
    else rejected o n
  else if streq a "-fs" then
    accepted (set_forceSpacing true o) n
  else if streq a "-ku" then
    accepted (set_quicklyDropUnpairedReads false o) n
  else if streq a "-mcp" then
    if n + 1 <? argc argv then
      a1 ← arg argv (n + 1);
      accepted (set_maxCandidatePoolSize (atoi a1) o) (n + 1)
    else rejected o n
  else if streq a "-F" && (n + 1 <? argc argv)
          && from_option (fun a1 => streq a1 "b") false (arg argv (n + 1)) then
    accepted (set_filterFlags (Z.lor (filterFlags o) FilterBothMatesMatch) o)
             (n + 1)
  else if streq a "-maxBar" then
    if n + 1 <? argc argv then
      a1 ← arg argv (n + 1);
      accepted (set_maxBarcodeSize (atoi a1) o) (n + 1)
    else rejected o n
  else if streq a "-minCluster" then
    if n + 1 <? argc argv then
      a1 ← arg argv (n + 1);
      accepted (set_minPairsPerCluster (atoi a1) o) (n + 1)
    else rejected o n
  else if streq a "-maxClusterSpan" then
    if n + 1 <? argc argv then
      a1 ← arg argv (n + 1);
      accepted (set_minPairsPerCluster (atoi a1) o) (n + 1)
    else rejected o n
  else AlignerOptions_parse o argv n.

(** The option names this class handles itself; every other argument goes
    to [AlignerOptions::parse]. *)
Definition own_option (argv : list string) (n : Z) : bool :=
  match arg argv n with
  | None => false
  | Some a =>
      streq a "-s" || streq a "-H" || streq a "-fs" || streq a "-ku"
      || streq a "-mcp"
      || (streq a "-F" && (n + 1 <? argc argv)
          && from_option (fun a1 => streq a1 "b") false (arg argv (n + 1)))
      || streq a "-maxBar" || streq a "-minCluster"
      || streq a "-maxClusterSpan"
  end.


End Options.

(** ** Data of the aligner *)

(** [AlignmentResult] (AlignmentResult.h); the enumerators the design
    document lists. *)
Inductive AlignmentResult : Type := NotFound | SingleHit | MultipleHits.

Definition AlignmentResult_eqb (a b : AlignmentResult) : bool :=
  match a, b with
  | NotFound, NotFound | SingleHit, SingleHit | MultipleHits, MultipleHits => true
  | _, _ => false
  end.

(** Modelled from the spec: the enumeration is declared in AlignmentResult.h,
    which is not part of the sources, so the value of each enumerator is not
    visible.  The fast path fills its result record with zero bytes and, by
    section 4.3, "emits every pair as NotFound": the enumerator whose value is
    0 is [NotFound]. *)
Definition AlignmentResult_of_zero : AlignmentResult := NotFound.

(** Modelled from the spec: [isOneLocation] is an inline function of
    AlignmentResult.h, not part of the sources; section 3 says
    [isOneLocation(s)] is true iff [s = SingleHit]. *)
Definition isOneLocation (s : AlignmentResult) : bool :=
  AlignmentResult_eqb s SingleHit.

(** What this file uses of a [Read]: its identifier, [getDataLength()] and
    [countOfNs()]. *)
Record Read : Type := mkRead {
  getId : string;
  getDataLength : Z;
  countOfNs : Z
}.

(** [PairedAlignmentResult]: the members this file reads or writes; the
    two-element arrays are pairs (read 0, read 1). *)
Record PairedAlignmentResult : Type := mkPaired {
  status : AlignmentResult * AlignmentResult;
  location : Z * Z;
  direction : Z * Z;
  score : Z * Z;
  mapq : Z * Z;
  clippingForReadAdjustment : Z * Z;
  fromAlignTogether : bool;
  alignedAsPair : bool
}.

Definition set_status v (r : PairedAlignmentResult) :=
  mkPaired v (location r) (direction r) (score r) (mapq r)
    (clippingForReadAdjustment r) (fromAlignTogether r) (alignedAsPair r).
Definition set_location v (r : PairedAlignmentResult) :=
  mkPaired (status r) v (direction r) (score r) (mapq r)
    (clippingForReadAdjustment r) (fromAlignTogether r) (alignedAsPair r).
Definition set_clippingForReadAdjustment v (r : PairedAlignmentResult) :=
  mkPaired (status r) (location r) (direction r) (score r) (mapq r)
    v (fromAlignTogether r) (alignedAsPair r).

Record SingleAlignmentResult : Type := mkSingle {
  s_status : AlignmentResult;
  s_location : Z
}.

(** The counters of [AlignerStats] / [TenXAlignerStats] that
    [runIterationThread] and [updateStats] increment.  The histograms and the
    profiling timers are left out. *)
Record Stats : Type := mkStats {
  totalReads : Z;
  uselessReads : Z;
  filtered : Z;
  notFound : Z;
  singleHits : Z;
  multiHits : Z;
  extraAlignments : Z;
  alignedAsPairs : Z;
  sameComplement : Z
}.

Definition stats0 : Stats := mkStats 0 0 0 0 0 0 0 0 0.

Definition add_totalReads k (s : Stats) :=
  mkStats (totalReads s + k) (uselessReads s) (filtered s) (notFound s)
    (singleHits s) (multiHits s) (extraAlignments s) (alignedAsPairs s)
    (sameComplement s).
Definition add_uselessReads k (s : Stats) :=
  mkStats (totalReads s) (uselessReads s + k) (filtered s) (notFound s)
    (singleHits s) (multiHits s) (extraAlignments s) (alignedAsPairs s)
    (sameComplement s).
Definition add_filtered k (s : Stats) :=
  mkStats (totalReads s) (uselessReads s) (filtered s + k) (notFound s)
    (singleHits s) (multiHits s) (extraAlignments s) (alignedAsPairs s)
    (sameComplement s).
Definition add_notFound k (s : Stats) :=
  mkStats (totalReads s) (uselessReads s) (filtered s) (notFound s + k)
    (singleHits s) (multiHits s) (extraAlignments s) (alignedAsPairs s)
    (sameComplement s).
Definition add_singleHits k (s : Stats) :=
  mkStats (totalReads s) (uselessReads s) (filtered s) (notFound s)
    (singleHits s + k) (multiHits s) (extraAlignments s) (alignedAsPairs s)
    (sameComplement s).
Definition add_multiHits k (s : Stats) :=
  mkStats (totalReads s) (uselessReads s) (filtered s) (notFound s)
    (singleHits s) (multiHits s + k) (extraAlignments s) (alignedAsPairs s)
    (sameComplement s).
Definition add_extraAlignments k (s : Stats) :=
  mkStats (totalReads s) (uselessReads s) (filtered s) (notFound s)
    (singleHits s) (multiHits s) (extraAlignments s + k) (alignedAsPairs s)
    (sameComplement s).
Definition add_alignedAsPairs k (s : Stats) :=
  mkStats (totalReads s) (uselessReads s) (filtered s) (notFound s)
    (singleHits s) (multiHits s) (extraAlignments s) (alignedAsPairs s + k)
    (sameComplement s).
Definition add_sameComplement k (s : Stats) :=
  mkStats (totalReads s) (uselessReads s) (filtered s) (notFound s)
    (singleHits s) (multiHits s) (extraAlignments s) (alignedAsPairs s)
    (sameComplement s + k).

(** What the worker does to the outside: a line on the error stream, or one
    call of [readWriter->writePairs(readerContext, reads, results, nResults,
    singleResults, nSingleResults, firstIsPrimary)].  [w_results] is the
    buffer [results] points at, [w_singleResults] the single-end buffer with
    the offset at which read 1's results start ([None] for a NULL pointer). *)
Inductive Event : Type :=
| WriteErrorMessage (msg : string)
| writePairs (w_reads : Read * Read)
             (w_results : list PairedAlignmentResult)
             (w_nResults : Z)
             (w_singleResults : option (list SingleAlignmentResult * Z))
             (w_nSingleResults : Z * Z)
             (w_firstIsPrimary : bool).

(** ** Outcomes of a run *)

Inductive Outcome (A : Type) : Type :=
| Done (a : A)                              (* ran to the end *)
| Exited (code : Z) (printed : list Event)  (* soft_exit(code) *)
| Fault (what : string)                     (* undefined behaviour *)
| OutOfFuel.                                (* the model's loop bound *)
Arguments Done {A} a.
Arguments Exited {A} code printed.
Arguments Fault {A} what.
Arguments OutOfFuel {A}.

#[global] Instance Outcome_ret : MRet Outcome := fun A a => Done a.
#[global] Instance Outcome_bind : MBind Outcome := fun A B k m =>
  match m with
  | Done a => k a
  | Exited code printed => Exited code printed
  | Fault what => Fault what
  | OutOfFuel => OutOfFuel
  end.

(** ** Memory *)

(** [a[i]] of an array of [length a] cells. *)
Definition rd {A} (what : string) (a : list (option A)) (i : Z) : Outcome A :=
  if i <? 0 then Fault what
  else match a !! Z.to_nat i with
       | Some (Some v) => Done v
       | _ => Fault what
       end.

(** [a[i] = v] *)
Definition wr {A} (what : string) (a : list (option A)) (i : Z) (v : A)
  : Outcome (list (option A)) :=
  if (0 <=? i) && (i <? Z.of_nat (length a))
  then Done (<[Z.to_nat i := Some v]> a)
  else Fault what.

(** A block returned by [BigAlloc] and used as a flat array. *)
Record Arr (A : Type) : Type := mkArr {
  blk : nat;
  cells : list (option A)
}.
Arguments mkArr {A} blk cells.
Arguments blk {A} a.
Arguments cells {A} a.

(** A per-pair result buffer: the block, the byte count it was requested
    with, and the records stored in it so far, from index 0 on.  Reading a
    record that was never stored is reading indeterminate memory. *)
Record Buf (A : Type) : Type := mkBuf {
  b_blk : nat;
  b_nbytes : Z;
  b_recs : list A
}.
Arguments mkBuf {A} b_blk b_nbytes b_recs.
Arguments b_blk {A} b.
Arguments b_nbytes {A} b.
Arguments b_recs {A} b.

Definition rec_at {A} (what : string) (recs : list A) (i : Z) : Outcome A :=
  if i <? 0 then Fault what
  else match recs !! Z.to_nat i with
       | Some v => Done v
       | None => Fault what
       end.

(** The heap of [BigAlloc]: the next block number and the live blocks. *)
Record Heap : Type := mkHeap {
  heap_next : nat;
  heap_live : list nat
}.

Definition BigAlloc (h : Heap) : nat * Heap :=
  (heap_next h, mkHeap (S (heap_next h)) (heap_next h :: heap_live h)).

Definition BigDealloc (b : nat) (h : Heap) : Heap :=
  mkHeap (heap_next h) (filter (fun x => x <> b) (heap_live h)).

(** The members of [TenXAlignerContext] (and of its base [AlignerContext])
    that [runIterationThread] consults. *)
Record Context : Type := mkContext {
  c_filterFlags : Z;
  c_ignoreMismatchedIDs : bool;
  c_forceSpacing : bool;
  c_minReadLength : Z;
  c_maxDist : Z;
  c_maxBarcodeSize : Z;
  c_maxSecondaryAlignmentAdditionalEditDistance : Z;
  c_readWriter : bool            (* [NULL != readWriter] *)
}.

(** [_int64] arithmetic. *)
Definition wrap64 (z : Z) : Z := (z + 2 ^ 63) mod 2 ^ 64 - 2 ^ 63.

(** [size_t] arithmetic: the byte count handed to [BigAlloc] is computed
    modulo 2^64 (an [_int64] operand is converted to [size_t] first, which
    gives the same residue). *)
Definition size_t (z : Z) : Z := z mod 2 ^ 64.

(** A [for] loop whose bound the body does not change. *)
Fixpoint for_each {S : Type} (body : S -> Z -> Outcome S) (idxs : list Z)
  (s : S) : Outcome S :=
  match idxs with
  | [] => Done s
  | i :: rest => s' ← body s i; for_each body rest s'
  end.

(** [0, 1, ..., n-1] *)
Definition upto (n : Z) : list Z := seqZ 0 n.

Section Thread.

(** The state of the [TenXClusterAligner] and of the [TenXSingleAligner]s it
    drives; they live in the arena and only the three stage calls touch
    them. *)
Context {TenXClusterAligner : Type}.

(** The worker thread's state inside [runIterationThread]: who is still
    allocated, what was written out, and the per-barcode arrays, each under
    the name of the local variable that points at it.
    [nSecondaryResults_off] is where the pointer variable [nSecondaryResults]
    points, counted in elements from the start of its block. *)
Record Worker : Type := mkWorker {
  heap : Heap;
  allocator : bool;
  supplier : bool;
  out : list Event;
  stats : Stats;
  aligner : TenXClusterAligner;
  tenXSingleTrackerArray : nat;
  reads : Arr Read;
  results : Arr (Buf PairedAlignmentResult);
  singleSecondaryResults : Arr (Buf SingleAlignmentResult);
  nSecondaryResults : Arr Z;
  nSecondaryResults_off : Z;
  nSingleSecondaryResults : Arr Z;
  maxPairedSecondaryHits : Arr Z;
  maxSingleSecondaryHits : Arr Z;
  popularSeedsSkipped : Arr Z;
  pairNotFinished : Arr bool;
  useful0 : Arr bool;
  useful1 : Arr bool;
  totalPairsForBarcode : Z
}.

Definition set_heap v (w : Worker) : Worker :=
  mkWorker v (allocator w) (supplier w) (out w) (stats w) (aligner w)
    (tenXSingleTrackerArray w) (reads w) (results w)
    (singleSecondaryResults w) (nSecondaryResults w)
    (nSecondaryResults_off w) (nSingleSecondaryResults w)
    (maxPairedSecondaryHits w) (maxSingleSecondaryHits w)
    (popularSeedsSkipped w) (pairNotFinished w) (useful0 w) (useful1 w)
    (totalPairsForBarcode w).
Definition set_allocator v (w : Worker) : Worker :=
  mkWorker (heap w) v (supplier w) (out w) (stats w) (aligner w)
    (tenXSingleTrackerArray w) (reads w) (results w)
    (singleSecondaryResults w) (nSecondaryResults w)
    (nSecondaryResults_off w) (nSingleSecondaryResults w)
    (maxPairedSecondaryHits w) (maxSingleSecondaryHits w)
    (popularSeedsSkipped w) (pairNotFinished w) (useful0 w) (useful1 w)
    (totalPairsForBarcode w).
Definition set_supplier v (w : Worker) : Worker :=
  mkWorker (heap w) (allocator w) v (out w) (stats w) (aligner w)
    (tenXSingleTrackerArray w) (reads w) (results w)
    (singleSecondaryResults w) (nSecondaryResults w)
    (nSecondaryResults_off w) (nSingleSecondaryResults w)
    (maxPairedSecondaryHits w) (maxSingleSecondaryHits w)
    (popularSeedsSkipped w) (pairNotFinished w) (useful0 w) (useful1 w)
    (totalPairsForBarcode w).
Definition set_out v (w : Worker) : Worker :=
  mkWorker (heap w) (allocator w) (supplier w) v (stats w) (aligner w)
    (tenXSingleTrackerArray w) (reads w) (results w)
    (singleSecondaryResults w) (nSecondaryResults w)
    (nSecondaryResults_off w) (nSingleSecondaryResults w)
    (maxPairedSecondaryHits w) (maxSingleSecondaryHits w)
    (popularSeedsSkipped w) (pairNotFinished w) (useful0 w) (useful1 w)
    (totalPairsForBarcode w).
Definition set_stats v (w : Worker) : Worker :=
  mkWorker (heap w) (allocator w) (supplier w) (out w) v (aligner w)
    (tenXSingleTrackerArray w) (reads w) (results w)
    (singleSecondaryResults w) (nSecondaryResults w)
    (nSecondaryResults_off w) (nSingleSecondaryResults w)
    (maxPairedSecondaryHits w) (maxSingleSecondaryHits w)
    (popularSeedsSkipped w) (pairNotFinished w) (useful0 w) (useful1 w)
    (totalPairsForBarcode w).
Definition set_reads v (w : Worker) : Worker :=
  mkWorker (heap w) (allocator w) (supplier w) (out w) (stats w) (aligner w)
    (tenXSingleTrackerArray w) v (results w) (singleSecondaryResults w)
    (nSecondaryResults w) (nSecondaryResults_off w)
    (nSingleSecondaryResults w) (maxPairedSecondaryHits w)
    (maxSingleSecondaryHits w) (popularSeedsSkipped w) (pairNotFinished w)
    (useful0 w) (useful1 w) (totalPairsForBarcode w).
Definition set_results v (w : Worker) : Worker :=
  mkWorker (heap w) (allocator w) (supplier w) (out w) (stats w) (aligner w)
    (tenXSingleTrackerArray w) (reads w) v (singleSecondaryResults w)
    (nSecondaryResults w) (nSecondaryResults_off w)
    (nSingleSecondaryResults w) (maxPairedSecondaryHits w)
    (maxSingleSecondaryHits w) (popularSeedsSkipped w) (pairNotFinished w)
    (useful0 w) (useful1 w) (totalPairsForBarcode w).
Definition set_singleSecondaryResults v (w : Worker) : Worker :=
  mkWorker (heap w) (allocator w) (supplier w) (out w) (stats w) (aligner w)
    (tenXSingleTrackerArray w) (reads w) (results w) v (nSecondaryResults w)
    (nSecondaryResults_off w) (nSingleSecondaryResults w)
    (maxPairedSecondaryHits w) (maxSingleSecondaryHits w)
    (popularSeedsSkipped w) (pairNotFinished w) (useful0 w) (useful1 w)
    (totalPairsForBarcode w).
Definition set_nSecondaryResults_off v (w : Worker) : Worker :=
  mkWorker (heap w) (allocator w) (supplier w) (out w) (stats w) (aligner w)
    (tenXSingleTrackerArray w) (reads w) (results w)
    (singleSecondaryResults w) (nSecondaryResults w) v
    (nSingleSecondaryResults w) (maxPairedSecondaryHits w)
    (maxSingleSecondaryHits w) (popularSeedsSkipped w) (pairNotFinished w)
    (useful0 w) (useful1 w) (totalPairsForBarcode w).
Definition set_nSingleSecondaryResults v (w : Worker) : Worker :=
  mkWorker (heap w) (allocator w) (supplier w) (out w) (stats w) (aligner w)
    (tenXSingleTrackerArray w) (reads w) (results w)
    (singleSecondaryResults w) (nSecondaryResults w)
    (nSecondaryResults_off w) v (maxPairedSecondaryHits w)
    (maxSingleSecondaryHits w) (popularSeedsSkipped w) (pairNotFinished w)
    (useful0 w) (useful1 w) (totalPairsForBarcode w).
Definition set_maxPairedSecondaryHits v (w : Worker) : Worker :=
  mkWorker (heap w) (allocator w) (supplier w) (out w) (stats w) (aligner w)
    (tenXSingleTrackerArray w) (reads w) (results w)
    (singleSecondaryResults w) (nSecondaryResults w)
    (nSecondaryResults_off w) (nSingleSecondaryResults w) v
    (maxSingleSecondaryHits w) (popularSeedsSkipped w) (pairNotFinished w)
    (useful0 w) (useful1 w) (totalPairsForBarcode w).
Definition set_maxSingleSecondaryHits v (w : Worker) : Worker :=
  mkWorker (heap w) (allocator w) (supplier w) (out w) (stats w) (aligner w)
    (tenXSingleTrackerArray w) (reads w) (results w)
    (singleSecondaryResults w) (nSecondaryResults w)
    (nSecondaryResults_off w) (nSingleSecondaryResults w)
    (maxPairedSecondaryHits w) v (popularSeedsSkipped w) (pairNotFinished w)
    (useful0 w) (useful1 w) (totalPairsForBarcode w).
Definition set_useful0 v (w : Worker) : Worker :=
  mkWorker (heap w) (allocator w) (supplier w) (out w) (stats w) (aligner w)
    (tenXSingleTrackerArray w) (reads w) (results w)
    (singleSecondaryResults w) (nSecondaryResults w)
    (nSecondaryResults_off w) (nSingleSecondaryResults w)
    (maxPairedSecondaryHits w) (maxSingleSecondaryHits w)
    (popularSeedsSkipped w) (pairNotFinished w) v (useful1 w)
    (totalPairsForBarcode w).
Definition set_useful1 v (w : Worker) : Worker :=
  mkWorker (heap w) (allocator w) (supplier w) (out w) (stats w) (aligner w)
    (tenXSingleTrackerArray w) (reads w) (results w)
    (singleSecondaryResults w) (nSecondaryResults w)
    (nSecondaryResults_off w) (nSingleSecondaryResults w)
    (maxPairedSecondaryHits w) (maxSingleSecondaryHits w)
    (popularSeedsSkipped w) (pairNotFinished w) (useful0 w) v
    (totalPairsForBarcode w).
Definition set_totalPairsForBarcode v (w : Worker) : Worker :=
  mkWorker (heap w) (allocator w) (supplier w) (out w) (stats w) (aligner w)
    (tenXSingleTrackerArray w) (reads w) (results w)
    (singleSecondaryResults w) (nSecondaryResults w)
    (nSecondaryResults_off w) (nSingleSecondaryResults w)
    (maxPairedSecondaryHits w) (maxSingleSecondaryHits w)
    (popularSeedsSkipped w) (pairNotFinished w) (useful0 w) (useful1 w) v.

Definition emit (e : Event) (w : Worker) : Worker := set_out (out w ++ [e]) w.

(** What is left when [runIterationThread] returns. *)
Record Returned : Type := mkReturned {
  ret_out : list Event;
  ret_stats : Stats;
  ret_heap : Heap;
  ret_allocator : bool;      (* the [BigAllocator] still exists *)
  ret_supplier : bool        (* the read supplier still exists *)
}.

Definition returned (w : Worker) : Returned :=
  mkReturned (out w) (stats w) (heap w) (allocator w) (supplier w).

(** *** Collaborators *)

Variable InvalidGenomeLocation : Z.
Variable FilterBothMatesMatch : Z.
Variable sizeof_pointer : Z.
Variable sizeof_PairedAlignmentResult : Z.
Variable sizeof_SingleAlignmentResult : Z.

(** [options->passFilter(read, result, tooShort, secondaryAlignment)] *)
Variable passFilter : Read -> AlignmentResult -> bool -> bool -> bool.

(** [readIdsMatch(read0, read1)] of Read.h *)
Variable readIdsMatch : Read -> Read -> bool.

(** What an automatic [PairedAlignmentResult] holds before any member is
    assigned. *)
Variable indeterminate : PairedAlignmentResult.

Variable TenXClusterAligner_new : Context -> TenXClusterAligner.

(** The three stage calls on [aligner].  Each receives the arrays by pointer
    and returns [barcodeFinished]. *)
Variable align_first_stage : Worker -> Worker * bool.
Variable align_second_stage : Worker -> Worker * bool.
Variable align_third_stage : Worker -> Worker * bool.

(** *** Pieces shared by the paths *)

Definition newline : string := String (ascii_of_nat 10) EmptyString.

(** The first [min(getIdLength(), 200u)] characters of the identifier. *)
Definition id_prefix (r : Read) : string := substring 0 200 (getId r).

Definition unmatched_message (r0 r1 : Read) : string :=
  String.append "Unmatched read IDs '"
    (String.append (id_prefix r0)
       (String.append "' and '"
          (String.append (id_prefix r1)
             (String.append "'.  Use the -I option to ignore this." newline)))).

(** [getDataLength() >= minReadLength && (int)countOfNs() <= maxDist] *)
Definition useful (c : Context) (r : Read) : bool :=
  (c_minReadLength c <=? getDataLength r) && (countOfNs r <=? c_maxDist c).

(** [(filterFlags & FilterBothMatesMatch) ? (pass0 && pass1) : (pass0 || pass1)] *)
Definition pairPass (c : Context) (pass0 pass1 : bool) : bool :=
  if bothMatesMatch FilterBothMatesMatch (c_filterFlags c)
  then pass0 && pass1 else pass0 || pass1.

(** Modelled from the spec: [Read::checkIdMatch] is declared in Read.h, which
    is not part of the sources.  By sections 6.2 and 7 and scenario S6,
    mismatched pair IDs are fatal with exit code 1 and a message that names
    both IDs; the text is the one the fast path of this file prints.
    [None]: the call returns. *)
Definition checkIdMatch (r0 r1 : Read) : option string :=
  if readIdsMatch r0 r1 then None else Some (unmatched_message r0 r1).

(** *** The path without an index (lines 398-437) *)

(** [memset(&result, 0, sizeof(result))], then both locations invalid. *)
Definition fast_result : PairedAlignmentResult :=
  mkPaired (AlignmentResult_of_zero, AlignmentResult_of_zero)
    (InvalidGenomeLocation, InvalidGenomeLocation)
    (0, 0) (0, 0) (0, 0) (0, 0) false false.

(** The decision of the fast path for one pair. *)
Definition fast_pass (c : Context) (r0 r1 : Read) : bool :=
  let pass0 := passFilter r0 (fst (status fast_result)) (useful c r0) false in
  let pass1 := passFilter r1 (snd (status fast_result)) (useful c r1) false in
  pairPass c pass0 pass1.

Fixpoint fast_path (c : Context) (supply : list (Read * Read))
  (o : list Event) (s : Stats) : Outcome (list Event * Stats) :=
  match supply with
  | [] => Done (o, s)
  | (r0, r1) :: rest =>
      if negb (c_ignoreMismatchedIDs c) && negb (readIdsMatch r0 r1) then
        Exited 1 (o ++ [WriteErrorMessage (unmatched_message r0 r1)])
      else
        let s1 := add_totalReads 2 s in
        if fast_pass c r0 r1 then
          let s2 := add_notFound 1 s1 in
          let o2 :=
            if c_readWriter c
            then o ++ [writePairs (r0, r1) [fast_result] 1 None (0, 0) true]
            else o in
          fast_path c rest o2 s2
        else
          fast_path c rest o (add_uselessReads 1 s1)
  end.

(** *** Allocation and initialisation (lines 444-570) *)

Definition maxSecondaryHits_ref (c : Context) : Z :=
  if c_maxSecondaryAlignmentAdditionalEditDistance c <? 0 then 0 else 32.

Definition alloc_arr {A : Type} (n : Z) (h : Heap) : Arr A * Heap :=
  let (b, h') := BigAlloc h in (mkArr b (replicate (Z.to_nat n) None), h').

(** The loop of lines 532-536: for each pair a paired and a single result
    buffer, the byte counts as the source computes them
    (the [sizeof] there is applied to a dereferenced [results], a pointer). *)
Fixpoint alloc_pair_buffers (n : nat) (ref : Z) (h : Heap)
  : list (option (Buf PairedAlignmentResult))
    * list (option (Buf SingleAlignmentResult)) * Heap :=
  match n with
  | O => ([], [], h)
  | S n' =>
      let (b1, h1) := BigAlloc h in
      let (b2, h2) := BigAlloc h1 in
      let '(rs, ss, h3) := alloc_pair_buffers n' ref h2 in
      (Some (mkBuf b1 ((1 + ref) * sizeof_pointer) []) :: rs,
       Some (mkBuf b2 (ref * sizeof_pointer) []) :: ss,
       h3)
  end.

Definition allocate (c : Context) (h0 : Heap) (o : list Event) (s : Stats)
  : Worker :=
  let N := c_maxBarcodeSize c in
  let ref := maxSecondaryHits_ref c in
  let (tracker, h1) := BigAlloc h0 in
  let (a_reads, h2) := alloc_arr (2 * N) h1 in
  let (b_results, h3) := BigAlloc h2 in
  let (b_single, h4) := BigAlloc h3 in
  let '(rs, ss, h5) := alloc_pair_buffers (Z.to_nat N) ref h4 in
  let (a_nSec, h6) := alloc_arr N h5 in
  let (a_nSingle, h7) := alloc_arr (2 * N) h6 in
  let (b_maxPaired, h8) := BigAlloc h7 in
  let (b_maxSingle, h9) := BigAlloc h8 in
  let (a_popular, h10) := alloc_arr (2 * N) h9 in
  let (b_notFinished, h11) := BigAlloc h10 in
  let (a_useful0, h12) := alloc_arr N h11 in
  let (a_useful1, h13) := alloc_arr N h12 in
  {| heap := h13;
     allocator := true;
     supplier := true;
     out := o;
     stats := s;
     aligner := TenXClusterAligner_new c;
     tenXSingleTrackerArray := tracker;
     reads := a_reads;
     results := mkArr b_results rs;
     singleSecondaryResults := mkArr b_single ss;
     nSecondaryResults := a_nSec;
     nSecondaryResults_off := 0;
     nSingleSecondaryResults := a_nSingle;
     maxPairedSecondaryHits :=
       mkArr b_maxPaired (replicate (Z.to_nat N) (Some ref));
     maxSingleSecondaryHits :=
       mkArr b_maxSingle (replicate (Z.to_nat N) (Some ref));
     popularSeedsSkipped := a_popular;
     pairNotFinished :=
       mkArr b_notFinished (replicate (Z.to_nat N) (Some true));
     useful0 := a_useful0;
     useful1 := a_useful1;
     totalPairsForBarcode := 0 |}.

(** *** Buffering the reads of the barcode (lines 609-652) *)

(** The automatic [result] of the loop body after lines 626-631. *)
Definition unmapped_result : PairedAlignmentResult :=
  set_clippingForReadAdjustment (0, 0)
    (set_location (InvalidGenomeLocation, InvalidGenomeLocation)
       (set_status (NotFound, NotFound) indeterminate)).

(** Lines 633-636: the filter decision for a pair with no useful read. *)
Definition unmapped_pass (c : Context) (r0 r1 : Read) : bool :=
  let pass0 := passFilter r0 (fst (status unmapped_result)) true false in
  let pass1 := passFilter r1 (snd (status unmapped_result)) true false in
  pairPass c pass0 pass1.

(** The state after the stores of one turn, before the branch. *)
Definition stored (c : Context) (w : Worker) (p : Read * Read) (a b : Read) : Worker :=
  let t := totalPairsForBarcode w in
  set_useful1
    (mkArr (blk (useful1 w))
       (<[Z.to_nat t := Some (useful c b)]> (cells (useful1 w))))
    (set_useful0
       (mkArr (blk (useful0 w))
          (<[Z.to_nat t := Some (useful c a)]> (cells (useful0 w))))
       (set_stats (add_totalReads 2 (stats w))
          (set_reads
             (mkArr (blk (reads w))
                (<[Z.to_nat (t * 2 + 1) := Some p.2]>
                   (<[Z.to_nat (t * 2) := Some p.1]> (cells (reads w)))))
             w))).

(** One turn of the [while] loop: the supplier has stored the next pair in
    [reads[2t]] and [reads[2t+1]], [t] being [totalPairsForBarcode].  The ID
    check, both usefulness tests, the filter and the writer are handed
    [reads[0]] and [reads[1]]. *)
Definition buffer_pair (c : Context) (w : Worker) (p : Read * Read)
  : Outcome Worker :=
  let t := totalPairsForBarcode w in
  rs1 ← wr "reads" (cells (reads w)) (t * 2) (fst p);
  rs2 ← wr "reads" rs1 (t * 2 + 1) (snd p);
  let w1 := set_reads (mkArr (blk (reads w)) rs2) w in
  r0 ← rd "reads" rs2 0;
  r1 ← rd "reads" rs2 1;
  match (if c_ignoreMismatchedIDs c then None else checkIdMatch r0 r1) with
  | Some msg => Exited 1 (out w1 ++ [WriteErrorMessage msg])
  | None =>
      let w2 := set_stats (add_totalReads 2 (stats w1)) w1 in
      u0 ← wr "useful0" (cells (useful0 w2)) t (useful c r0);
      u1 ← wr "useful1" (cells (useful1 w2)) t (useful c r1);
      let w3 :=
        set_useful1 (mkArr (blk (useful1 w2)) u1)
          (set_useful0 (mkArr (blk (useful0 w2)) u0) w2) in
      if negb (useful c r0) && negb (useful c r1) then
        if unmapped_pass c r0 r1 then
          let w4 :=
            if c_readWriter c
            then emit (writePairs (r0, r1) [unmapped_result] 1 None (0, 0) true) w3
            else w3 in
          Done (set_stats (add_uselessReads 2 (stats w4)) w4)
        else
          Done (set_stats (add_filtered 2 (stats w3)) w3)
      else
        Done (set_totalPairsForBarcode (t + 1) w3)
  end.

Fixpoint buffer_reads (c : Context) (supply : list (Read * Read)) (w : Worker)
  : Outcome Worker :=
  match supply with
  | [] => Done w
  | p :: rest => w' ← buffer_pair c w p; buffer_reads c rest w'
  end.

(** What the flag arrays say about the batch: the count is within the
    arrays, and each pair of the batch has one of its two flags set. *)
Definition batch_flags (w : Worker) : Prop :=
  0 <= totalPairsForBarcode w
  /\ totalPairsForBarcode w <= Z.of_nat (length (cells (useful0 w)))
  /\ forall i, 0 <= i < totalPairsForBarcode w ->
       exists a b : bool,
         cells (useful0 w) !! Z.to_nat i = Some (Some a)
         /\ cells (useful1 w) !! Z.to_nat i = Some (Some b)
         /\ a || b = true.

(** The reading of section 3 of the design document for a pair with no
    useful read: it stays out of the batch, goes to the writer as unmapped,
    and its two reads are counted in [uselessReads]. *)
Definition useless_pair_unmapped (c : Context) (w : Worker) (p : Read * Read)
  : Prop :=
  useful c p.1 = false ->
  useful c p.2 = false ->
  exists w',
    buffer_pair c w p = Done w'
    /\ totalPairsForBarcode w' = totalPairsForBarcode w
    /\ (exists r,
          out w' = out w ++ [writePairs p [r] 1 None (0, 0) true]
          /\ status r = (NotFound, NotFound)
          /\ location r = (InvalidGenomeLocation, InvalidGenomeLocation))
    /\ uselessReads (stats w') = uselessReads (stats w) + 2.

(** *** The retry loops of stages 2 and 3 (lines 669-701) *)

(** Body of the [for] loop at lines 675-683. *)
Definition grow_paired (w : Worker) (pairIdx : Z) : Outcome Worker :=
  notFinished ← rd "pairNotFinished" (cells (pairNotFinished w)) pairIdx;
  if notFinished : bool then
    old ← rd "results" (cells (results w)) pairIdx;
    let h1 := BigDealloc (b_blk old) (heap w) in
    cap ← rd "maxPairedSecondaryHits" (cells (maxPairedSecondaryHits w)) pairIdx;
    let cap' := wrap64 (cap * 2) in
    caps ← wr "maxPairedSecondaryHits" (cells (maxPairedSecondaryHits w)) pairIdx cap';
    let (b, h2) := BigAlloc h1 in
    rs ← wr "results" (cells (results w)) pairIdx
           (mkBuf b (size_t ((cap' + 1) * sizeof_PairedAlignmentResult)) []);
    Done (set_heap h2
            (set_maxPairedSecondaryHits (mkArr (blk (maxPairedSecondaryHits w)) caps)
               (set_results (mkArr (blk (results w)) rs) w)))
  else Done w.

(** Body of the [for] loop at lines 692-700. *)
Definition grow_single (w : Worker) (pairIdx : Z) : Outcome Worker :=
  notFinished ← rd "pairNotFinished" (cells (pairNotFinished w)) pairIdx;
  if notFinished : bool then
    old ← rd "singleSecondaryResults" (cells (singleSecondaryResults w)) pairIdx;
    let h1 := BigDealloc (b_blk old) (heap w) in
    cap ← rd "maxSingleSecondaryHits" (cells (maxSingleSecondaryHits w)) pairIdx;
    let cap' := wrap64 (cap * 2) in
    caps ← wr "maxSingleSecondaryHits" (cells (maxSingleSecondaryHits w)) pairIdx cap';
    let (b, h2) := BigAlloc h1 in
    rs ← wr "singleSecondaryResults" (cells (singleSecondaryResults w)) pairIdx
           (mkBuf b (size_t (cap' * sizeof_SingleAlignmentResult)) []);
    Done (set_heap h2
            (set_maxSingleSecondaryHits (mkArr (blk (maxSingleSecondaryHits w)) caps)
               (set_singleSecondaryResults (mkArr (blk (singleSecondaryResults w)) rs) w)))
  else Done w.




(** A stage call.  The stage is handed the arrays and works on the aligner;
    it is handed neither the heap bookkeeping, nor the supplier, nor the
    writer, nor the statistics, which stay as the caller has them. *)
Definition stage_call (stage : Worker -> Worker * bool) (w : Worker)
  : Worker * bool :=
  let (w', barcodeFinished) := stage w in
  (set_heap (heap w) (set_allocator (allocator w) (set_supplier (supplier w)
     (set_out (out w) (set_stats (stats w) w')))),
   barcodeFinished).

(** [while (true) { finished = stage(...); if (finished) break; for ... }] *)
Fixpoint retry_loop (stage : Worker -> Worker * bool)
  (grow : Worker -> Z -> Outcome Worker) (fuel : nat) (w : Worker)
  : Outcome Worker :=
  match fuel with
  | O => OutOfFuel
  | S fuel' =>
      let (w1, barcodeFinished) := stage_call stage w in
      if barcodeFinished then Done w1
      else
        w2 ← for_each grow (upto (totalPairsForBarcode w1)) w1;
        retry_loop stage grow fuel' w2
  end.

Definition second_stage_loop : nat -> Worker -> Outcome Worker :=
  retry_loop align_second_stage grow_paired.
Definition third_stage_loop : nat -> Worker -> Outcome Worker :=
  retry_loop align_third_stage grow_single.


(** *** Output of the results (lines 716-785) *)

Definition demote (r : PairedAlignmentResult) : PairedAlignmentResult :=
  set_location (InvalidGenomeLocation, InvalidGenomeLocation)
    (set_status (NotFound, NotFound) r).

(** Lines 726-730, on the buffer of one pair. *)
Definition apply_forceSpacing (c : Context) (recs : list PairedAlignmentResult)
  : Outcome (list PairedAlignmentResult) :=
  if c_forceSpacing c then
    r ← rec_at "results[pairIdx][0]" recs 0;
    if negb (Bool.eqb (isOneLocation (fst (status r)))
                      (isOneLocation (snd (status r))))
    then Done (<[0%nat := demote r]> recs)
    else Done recs
  else Done recs.

(** The spacing policy in the words of the design document: with
    [forceSpacing] enabled and one mate a [SingleHit] while the other is not,
    both mates are demoted; otherwise the result is left as it is. *)
Definition spaced (c : Context) (r : PairedAlignmentResult)
  : PairedAlignmentResult :=
  if c_forceSpacing c
     && xorb (isOneLocation (fst (status r))) (isOneLocation (snd (status r)))
  then demote r else r.

(** The context with [forceSpacing] off. *)
Definition without_forceSpacing (c : Context) : Context :=
  mkContext (c_filterFlags c) (c_ignoreMismatchedIDs c) false
    (c_minReadLength c) (c_maxDist c) (c_maxBarcodeSize c)
    (c_maxSecondaryAlignmentAdditionalEditDistance c) (c_readWriter c).

(** The worker with [recs] as the results of pair [pairIdx], in the block
    of [buf]. *)
Definition with_results (w : Worker) (pairIdx : Z)
  (buf : Buf PairedAlignmentResult) (recs : list PairedAlignmentResult)
  : Worker :=
  set_results
    (mkArr (blk (results w))
       (<[Z.to_nat pairIdx := Some (mkBuf (b_blk buf) (b_nbytes buf) recs)]>
          (cells (results w))))
    w.

(** Lines 734-737: does one paired record pass the read filter? *)
Definition paired_pass (c : Context) (r0 r1 : Read) (u0 u1 : bool)
  (rec : PairedAlignmentResult) (secondary : bool) : bool :=
  let pass0 := passFilter r0 (fst (status rec)) (negb u0) secondary in
  let pass1 := passFilter r1 (snd (status rec)) (negb u1) secondary in
  pairPass c pass0 pass1.

(** The [for] loop of lines 733-750 for pair [pairIdx].  [off] is the pointer
    variable [nSecondaryResults], [i] the loop counter at the test
    [i <= nSecondaryResults[pairIdx]].  On a record that fails the filter the
    source executes [nSecondaryResults--]: the pointer moves back by one
    element; the array is not written. *)
Fixpoint filter_paired (fuel : nat) (c : Context) (w : Worker) (pairIdx : Z)
  (recs : list PairedAlignmentResult) (off : Z) (firstIsPrimary : bool) (i : Z)
  : Outcome (list PairedAlignmentResult * Z * bool) :=
  match fuel with
  | O => OutOfFuel
  | S fuel' =>
      n ← rd "nSecondaryResults" (cells (nSecondaryResults w)) (off + pairIdx);
      if i <=? n then
        r0 ← rd "reads" (cells (reads w)) (2 * pairIdx);
        r ← rec_at "results[pairIdx][i]" recs i;
        u0 ← rd "useful0" (cells (useful0 w)) pairIdx;
        r1 ← rd "reads" (cells (reads w)) (2 * pairIdx + 1);
        u1 ← rd "useful1" (cells (useful1 w)) pairIdx;
        let secondary := negb (i =? 0) || negb firstIsPrimary in
        if negb (paired_pass c r0 r1 u0 u1 r secondary) then
          last ← rec_at "results[pairIdx][nSecondaryResults[pairIdx]]" recs n;
          let recs' := <[Z.to_nat i := last]> recs in
          let off' := off - 1 in
          let firstIsPrimary' := if i =? 0 then false else firstIsPrimary in
          filter_paired fuel' c w pairIdx recs' off' firstIsPrimary' (i - 1 + 1)
        else
          filter_paired fuel' c w pairIdx recs off firstIsPrimary (i + 1)
      else Done (recs, off, firstIsPrimary)
  end.

(** The inner [for] loop of lines 758-764 for one read: [base] is where
    [singleResults[whichRead]] points inside the single-end buffer, [n] the
    cell [nSingleSecondaryResults[globalIdx]]. *)
Fixpoint filter_single (fuel : nat) (w : Worker) (globalIdx : Z) (base : Z)
  (srecs : list SingleAlignmentResult) (n : Z) (whichAlignment : Z)
  : Outcome (list SingleAlignmentResult * Z) :=
  match fuel with
  | O => OutOfFuel
  | S fuel' =>
      if whichAlignment <? n then
        r ← rd "reads" (cells (reads w)) globalIdx;
        a ← rec_at "singleResults[whichRead][whichAlignment]" srecs
              (base + whichAlignment);
        if negb (passFilter r (s_status a) false true) then
          last ← rec_at "singleResults[whichRead][n - 1]" srecs (base + (n - 1));
          filter_single fuel' w globalIdx base
            (<[Z.to_nat (base + whichAlignment) := last]> srecs)
            (n - 1) (whichAlignment - 1 + 1)
        else
          filter_single fuel' w globalIdx base srecs n (whichAlignment + 1)
      else Done (srecs, n)
  end.

(** [updateStats] (lines 833-879), the counters. *)
Definition updateStats_read (useful_r : bool) (st : AlignmentResult) (s : Stats)
  : Stats :=
  if useful_r then
    if isOneLocation st then add_singleHits 1 s
    else if AlignmentResult_eqb st MultipleHits then add_multiHits 1 s
    else add_notFound 1 s
  else add_uselessReads 1 s.

Definition updateStats (s : Stats) (result : PairedAlignmentResult)
  (useful0 useful1 : bool) : Stats :=
  let s1 := updateStats_read useful0 (fst (status result)) s in
  let s2 := updateStats_read useful1 (snd (status result)) s1 in
  let s3 :=
    if fst (direction result) =? snd (direction result)
    then add_sameComplement 1 s2 else s2 in
  if alignedAsPair result then add_alignedAsPairs 2 s3 else s3.

(** The body of the output loop for pair [pairIdx]. *)
Definition emit_pair (fuel : nat) (c : Context) (w : Worker) (pairIdx : Z)
  : Outcome Worker :=
  buf ← rd "results" (cells (results w)) pairIdx;
  recs1 ← apply_forceSpacing c (b_recs buf);
  '(recs2, off, firstIsPrimary) ←
     filter_paired fuel c w pairIdx recs1 (nSecondaryResults_off w) true 0;
  rs ← wr "results" (cells (results w)) pairIdx
         (mkBuf (b_blk buf) (b_nbytes buf) recs2);
  let w1 :=
    set_nSecondaryResults_off off (set_results (mkArr (blk (results w)) rs) w) in
  sbuf ← rd "singleSecondaryResults" (cells (singleSecondaryResults w1)) pairIdx;
  base1 ← rd "nSingleSecondaryResults" (cells (nSingleSecondaryResults w1))
            (2 * pairIdx);
  '(srecs1, n0) ← filter_single fuel w1 (2 * pairIdx) 0 (b_recs sbuf) base1 0;
  n1 ← rd "nSingleSecondaryResults" (cells (nSingleSecondaryResults w1))
         (2 * pairIdx + 1);
  '(srecs2, n1') ← filter_single fuel w1 (2 * pairIdx + 1) base1 srecs1 n1 0;
  ns1 ← wr "nSingleSecondaryResults" (cells (nSingleSecondaryResults w1))
          (2 * pairIdx) n0;
  ns2 ← wr "nSingleSecondaryResults" ns1 (2 * pairIdx + 1) n1';
  ss ← wr "singleSecondaryResults" (cells (singleSecondaryResults w1)) pairIdx
         (mkBuf (b_blk sbuf) (b_nbytes sbuf) srecs2);
  let w2 :=
    set_nSingleSecondaryResults (mkArr (blk (nSingleSecondaryResults w1)) ns2)
      (set_singleSecondaryResults (mkArr (blk (singleSecondaryResults w1)) ss)
         w1) in
  n ← rd "nSecondaryResults" (cells (nSecondaryResults w2)) (off + pairIdx);
  w3 ← (if c_readWriter c then
          r0 ← rd "reads" (cells (reads w2)) (2 * pairIdx);
          r1 ← rd "reads" (cells (reads w2)) (2 * pairIdx + 1);
          Done (emit (writePairs (r0, r1) recs2 (n + 1) (Some (srecs2, base1))
                        (n0, n1') firstIsPrimary) w2)
        else Done w2);
  let s1 :=
    add_extraAlignments (n + (if firstIsPrimary : bool then 0 else 1))
      (stats w3) in
  if firstIsPrimary : bool then
    primary ← rec_at "results[pairIdx]" recs2 0;
    u0 ← rd "useful0" (cells (useful0 w3)) pairIdx;
    u1 ← rd "useful1" (cells (useful1 w3)) pairIdx;
    Done (set_stats (updateStats s1 primary u0 u1) w3)
  else
    Done (set_stats (add_filtered 2 s1) w3).

Definition emit_all (fuel : nat) (c : Context) (w : Worker) : Outcome Worker :=
  for_each (emit_pair fuel c) (upto (totalPairsForBarcode w)) w.

(** *** Clean-up (lines 795-829) *)

Definition free (b : nat) (w : Worker) : Worker :=
  set_heap (BigDealloc b (heap w)) w.

(** Body of the loop at lines 808-814. *)
Definition free_pair_buffers (w : Worker) (pairIdx : Z) : Outcome Worker :=
  b ← rd "results" (cells (results w)) pairIdx;
  s ← rd "singleSecondaryResults" (cells (singleSecondaryResults w)) pairIdx;
  Done (free (b_blk s) (free (b_blk b) w)).

Definition cleanup (c : Context) (w : Worker) : Outcome Worker :=
  let w1 :=
    free (blk (useful1 w)) (free (blk (useful0 w))
      (free (blk (pairNotFinished w)) (free (blk (popularSeedsSkipped w))
        (free (blk (maxSingleSecondaryHits w))
          (free (blk (maxPairedSecondaryHits w)) (free (blk (reads w)) w)))))) in
  w2 ← for_each free_pair_buffers (upto (c_maxBarcodeSize c)) w1;
  if nSecondaryResults_off w2 =? 0 then
    let w3 :=
      free (blk (singleSecondaryResults w2)) (free (blk (results w2))
        (free (blk (nSingleSecondaryResults w2))
          (free (blk (nSecondaryResults w2)) w2))) in
    Done (set_allocator false (set_supplier false w3))
  else Fault "BigDealloc(nSecondaryResults)".

(** *** The thread *)

(** What the thread finds when it starts: the supplier the generator hands
    out ([None]: NULL; otherwise the pairs it will deliver, in order),
    whether the extension takes the work over, and whether there is an
    index. *)
Record Input : Type := mkInput {
  i_supplier : option (list (Read * Read));
  i_extension : bool;
  i_index : bool
}.

Definition runIterationThread (fuel : nat) (c : Context) (inp : Input)
  (h0 : Heap) (s0 : Stats) : Outcome Returned :=
  match i_supplier inp with
  | None => Done (mkReturned [] s0 h0 false false)
  | Some supply =>
      if i_extension inp then Done (mkReturned [] s0 h0 false false)
      else if negb (i_index inp) then
        '(o, s) ← fast_path c supply [] s0;
        Done (mkReturned o s h0 false false)
      else
        let w0 := allocate c h0 [] s0 in
        w1 ← buffer_reads c supply w0;
        let (w2, barcodeFinished) := stage_call align_first_stage w1 in
        if barcodeFinished then Done (returned w2)
        else
          w3 ← second_stage_loop fuel w2;
          w4 ← third_stage_loop fuel w3;
          w5 ← emit_all fuel c w4;
          w6 ← cleanup c w5;
          Done (returned w6)
  end.

End Thread.

Arguments Worker : clear implicits.

(** ** What a run leaves on the outside *)

(** The events of a run: those of the final state, or those printed before
    the exit. *)
Definition written {A : Type} (get : A -> list Event) (o : Outcome A)
  : list Event :=
  match o with
  | Done a => get a
  | Exited _ printed => printed
  | Fault _ | OutOfFuel => []
  end.

(** A call of the writer that hands over one pair as unmapped: exactly one
    paired result, both statuses [NotFound], both locations invalid, no
    single-end results, and the first result primary. *)
Definition unmapped_call (InvalidGenomeLocation : Z) (e : Event) : Prop :=
  match e with
  | WriteErrorMessage _ => True
  | writePairs _ rs n singles nSingle firstIsPrimary =>
      n = 1
      /\ (exists r, rs = [r]
                    /\ status r = (NotFound, NotFound)
                    /\ location r = (InvalidGenomeLocation, InvalidGenomeLocation))
      /\ singles = None
      /\ nSingle = (0, 0)
      /\ firstIsPrimary = true
  end.

(** ** Concrete collaborators and inputs, to run the model on *)

(** A read filter in the manner of [-F a]: a read passes iff it is aligned. *)
Definition filter_aligned (r : Read) (st : AlignmentResult)
  (tooShort secondary : bool) : bool :=
  negb (AlignmentResult_eqb st NotFound).

(** No filtering at all. *)
Definition filter_off (r : Read) (st : AlignmentResult)
  (tooShort secondary : bool) : bool := true.

(** Identifiers of the form [foo/1], [foo/2] match when the part before the
    slash is the same. *)
Fixpoint id_stem (s : string) : string :=
  match s with
  | String c s' => if Ascii.eqb c "/" then EmptyString else String c (id_stem s')
  | EmptyString => EmptyString
  end.

Definition ids_match_by_stem (r0 r1 : Read) : bool :=
  String.eqb (id_stem (getId r0)) (id_stem (getId r1)).

Definition read_abc_1 : Read := mkRead "abc/1" 100 0.
Definition read_abc_2 : Read := mkRead "abc/2" 100 0.
Definition read_xyz_2 : Read := mkRead "xyz/2" 100 0.
(** Two reads of 10 bases, shorter than any [minReadLength] used below. *)
Definition read_short_1 : Read := mkRead "tiny/1" 10 0.
Definition read_short_2 : Read := mkRead "tiny/2" 10 0.

Definition stack_garbage : PairedAlignmentResult :=
  mkPaired (MultipleHits, SingleHit) (17, 42) (1, 0) (3, 5) (60, 2) (9, 9)
    true true.

(** [minReadLength] 50, [maxDist] 14, room for [maxBarcodeSize] pairs, no
    secondary alignments, a writer present. *)
Definition context_with (flags : Z) (ignoreIDs fs : bool) (maxBarcodeSize : Z)
  : Context :=
  mkContext flags ignoreIDs fs 50 14 maxBarcodeSize (-1) true.

(** The same with secondary alignments enabled, identifiers not compared. *)
Definition emission_context : Context := mkContext 0 true false 50 14 2 2 true.

Definition empty_heap : Heap := mkHeap 0 [].

(** Stage functions over an aligner without state: the first stage reports
    the barcode finished when the batch is empty; the later stages find no
    overflow. *)
Definition first_stage_idle (w : Worker unit) : Worker unit * bool :=
  (w, totalPairsForBarcode w =? 0).
Definition stage_done (w : Worker unit) : Worker unit * bool := (w, true).

(** A second stage for pairs that need [needs] secondary slots: it flags the
    pairs whose capacity is smaller and reports the barcode finished when
    none is. *)
Definition stage_needing (needs : list Z) (w : Worker unit)
  : Worker unit * bool :=
  let flags :=
    zip_with (fun need cap => (fun c : Z => c <? need) <$> cap)
      needs (cells (maxPairedSecondaryHits w)) in
  (mkWorker (heap w) (allocator w) (supplier w) (out w) (stats w)
     (aligner w) (tenXSingleTrackerArray w) (reads w) (results w)
     (singleSecondaryResults w) (nSecondaryResults w)
     (nSecondaryResults_off w) (nSingleSecondaryResults w)
     (maxPairedSecondaryHits w) (maxSingleSecondaryHits w)
     (popularSeedsSkipped w)
     (mkArr (blk (pairNotFinished w)) flags)
     (useful0 w) (useful1 w) (totalPairsForBarcode w),
   forallb (fun f => bool_decide (f = Some false)) flags).

Definition aligned (s0 s1 : AlignmentResult) (l0 l1 : Z) : PairedAlignmentResult :=
  mkPaired (s0, s1) (l0, l1) (0, 1) (0, 0) (70, 70) (0, 0) true true.

(** The state of a barcode of two pairs after stage 3, with secondary
    alignments enabled (capacity 32 each).  Pair 0 has a primary and one
    secondary placement, both aligned.  Pair 1 has a primary result with
    neither mate placed and one aligned secondary. *)
Definition after_stage3 : Worker unit :=
  {| heap := mkHeap 16 (rev (seq 0 16));
     allocator := true;
     supplier := true;
     out := [];
     stats := stats0;
     aligner := tt;
     tenXSingleTrackerArray := 0%nat;
     reads := mkArr 1%nat [Some read_abc_1; Some read_abc_2;
                           Some read_abc_1; Some read_abc_2];
     results :=
       mkArr 2%nat
         [Some (mkBuf 4%nat 264
                  [aligned SingleHit SingleHit 1000 1300;
                   aligned MultipleHits MultipleHits 5000 5300]);
          Some (mkBuf 6%nat 264
                  [aligned NotFound NotFound (-1) (-1);
                   aligned SingleHit SingleHit 2000 2300])];
     singleSecondaryResults :=
       mkArr 3%nat [Some (mkBuf 5%nat 256 []); Some (mkBuf 7%nat 256 [])];
     nSecondaryResults := mkArr 8%nat [Some 1; Some 1];
     nSecondaryResults_off := 0;
     nSingleSecondaryResults := mkArr 9%nat [Some 0; Some 0; Some 0; Some 0];
     maxPairedSecondaryHits := mkArr 10%nat [Some 32; Some 32];
     maxSingleSecondaryHits := mkArr 11%nat [Some 32; Some 32];
     popularSeedsSkipped := mkArr 12%nat [Some 0; Some 0; Some 0; Some 0];
     pairNotFinished := mkArr 13%nat [Some false; Some false];
     useful0 := mkArr 14%nat [Some true; Some true];
     useful1 := mkArr 15%nat [Some true; Some true];
     totalPairsForBarcode := 2 |}.

(** The state of a barcode of two pairs after stage 3, secondary alignments
    disabled: pair 0 is aligned, pair 1 is not. *)
Definition after_stage3_plain : Worker unit :=
  {| heap := mkHeap 16 (rev (seq 0 16));
     allocator := true;
     supplier := true;
     out := [];
     stats := stats0;
     aligner := tt;
     tenXSingleTrackerArray := 0%nat;
     reads := mkArr 1%nat [Some read_abc_1; Some read_abc_2;
                           Some read_abc_1; Some read_abc_2];
     results :=
       mkArr 2%nat
         [Some (mkBuf 4%nat 8 [aligned SingleHit SingleHit 1000 1300]);
          Some (mkBuf 6%nat 8 [aligned NotFound NotFound (-1) (-1)])];
     singleSecondaryResults :=
       mkArr 3%nat [Some (mkBuf 5%nat 0 []); Some (mkBuf 7%nat 0 [])];
     nSecondaryResults := mkArr 8%nat [Some 0; Some 0];
     nSecondaryResults_off := 0;
     nSingleSecondaryResults := mkArr 9%nat [Some 0; Some 0; Some 0; Some 0];
     maxPairedSecondaryHits := mkArr 10%nat [Some 0; Some 0];
     maxSingleSecondaryHits := mkArr 11%nat [Some 0; Some 0];
     popularSeedsSkipped := mkArr 12%nat [Some 0; Some 0; Some 0; Some 0];
     pairNotFinished := mkArr 13%nat [Some false; Some false];
     useful0 := mkArr 14%nat [Some true; Some true];
     useful1 := mkArr 15%nat [Some true; Some true];
     totalPairsForBarcode := 2 |}.

(** [after_stage3_plain] with one mate of pair 0 placed once and the other
    not placed. *)
Definition one_mate_placed : Worker unit :=
  with_results after_stage3_plain 0 (mkBuf 4%nat 8 [])
    [aligned SingleHit NotFound 1000 (-1)].

(** A worker right after allocation, for an aligner without state. *)
Definition fresh_worker (c : Context) : Worker unit :=
  allocate 8 (fun _ => tt) c empty_heap [] stats0.

(** [after_stage3] when stage 2 has just reported an overflow for pair 0. *)
Definition overflowed : Worker unit :=
  mkWorker (heap after_stage3) (allocator after_stage3) (supplier after_stage3)
    (out after_stage3) (stats after_stage3) (aligner after_stage3)
    (tenXSingleTrackerArray after_stage3) (reads after_stage3)
    (results after_stage3) (singleSecondaryResults after_stage3)
    (nSecondaryResults after_stage3) (nSecondaryResults_off after_stage3)
    (nSingleSecondaryResults after_stage3)
    (maxPairedSecondaryHits after_stage3) (maxSingleSecondaryHits after_stage3)
    (popularSeedsSkipped after_stage3)
    (mkArr 13%nat [Some true; Some false])
    (useful0 after_stage3) (useful1 after_stage3)
    (totalPairsForBarcode after_stage3).

(** ** The histograms of [TenXAlignerStats] (lines 61-223) *)

Definition MAX_DISTANCE : Z := 1000.
Definition MAX_SCORE : Z := 15.
Definition maxMapq : Z := 70.
Definition nTimeBuckets : Z := 32.
Definition nHitsBuckets : Z := 32.
Definition nLVCallsBuckets : Z := 32.

(** The arrays the structure adds to [AlignerStats]; the two-dimensional ones
    row by row, as they lie in memory.  The counts are kept as mathematical
    integers: they stay far from the ends of [_int64]. *)
Record TenXAlignerStats : Type := mkTenXAlignerStats {
  distanceCounts : list Z;
  scoreCounts : list Z;
  alignTogetherByMapqHistogram : list Z;
  totalTimeByMapqHistogram : list Z;
  nSmallHitsByTimeHistogram : list Z;
  nLVCallsByTimeHistogram : list Z;
  mapqByNLVCallsHistogram : list Z;
  mapqByNSmallHitsHistogram : list Z
}.

(** The constructor: every array allocated and set to zero. *)
Definition TenXAlignerStats_new : TenXAlignerStats :=
  {| distanceCounts := replicate (Z.to_nat (MAX_DISTANCE + 1)) 0;
     scoreCounts := replicate (Z.to_nat ((MAX_SCORE + 1) * (MAX_SCORE + 1))) 0;
     alignTogetherByMapqHistogram :=
       replicate (Z.to_nat ((maxMapq + 1) * nTimeBuckets)) 0;
     totalTimeByMapqHistogram :=
       replicate (Z.to_nat ((maxMapq + 1) * nTimeBuckets)) 0;
     nSmallHitsByTimeHistogram :=
       replicate (Z.to_nat (nHitsBuckets * nTimeBuckets)) 0;
     nLVCallsByTimeHistogram :=
       replicate (Z.to_nat (nLVCallsBuckets * nTimeBuckets)) 0;
     mapqByNLVCallsHistogram :=
       replicate (Z.to_nat ((maxMapq + 1) * nLVCallsBuckets)) 0;
     mapqByNSmallHitsHistogram :=
       replicate (Z.to_nat ((maxMapq + 1) * nHitsBuckets)) 0 |}.

(** The arrays have the sizes the constructor gives them. *)
Definition histograms_sized (s : TenXAlignerStats) : Prop :=
  length (distanceCounts s) = Z.to_nat (MAX_DISTANCE + 1)
  /\ length (scoreCounts s) = Z.to_nat ((MAX_SCORE + 1) * (MAX_SCORE + 1))
  /\ length (alignTogetherByMapqHistogram s)
     = Z.to_nat ((maxMapq + 1) * nTimeBuckets)
  /\ length (totalTimeByMapqHistogram s)
     = Z.to_nat ((maxMapq + 1) * nTimeBuckets)
  /\ length (nSmallHitsByTimeHistogram s)
     = Z.to_nat (nHitsBuckets * nTimeBuckets)
  /\ length (nLVCallsByTimeHistogram s)
     = Z.to_nat (nLVCallsBuckets * nTimeBuckets)
  /\ length (mapqByNLVCallsHistogram s)
     = Z.to_nat ((maxMapq + 1) * nLVCallsBuckets)
  /\ length (mapqByNSmallHitsHistogram s)
     = Z.to_nat ((maxMapq + 1) * nHitsBuckets).

(** [a[i] += k] on an array of [length a] counts. *)
Definition bump (what : string) (a : list Z) (i k : Z) : Outcome (list Z) :=
  if (0 <=? i) && (i <? Z.of_nat (length a)) then
    match a !! Z.to_nat i with
    | Some v => Done (<[Z.to_nat i := v + k]> a)
    | None => Fault what
    end
  else Fault what.

(** [a[i][j] += k] on an array declared [a[rows][cols]]. *)
Definition bump2 (what : string) (rows cols : Z) (a : list Z) (i j k : Z)
  : Outcome (list Z) :=
  if (0 <=? i) && (i <? rows) && (0 <=? j) && (j <? cols)
  then bump what a (i * cols + j) k
  else Fault what.

(** The sum of all counts of an array. *)
Definition total (a : list Z) : Z := foldr Z.add 0 a.

(** [max(0, min(MAX_DISTANCE, distance))] *)
Definition distance_cell (distance : Z) : Z :=
  Z.max 0 (Z.min MAX_DISTANCE distance).

Definition incrementDistance (s : TenXAlignerStats) (distance : Z)
  : Outcome TenXAlignerStats :=
  d ← bump "distanceCounts" (distanceCounts s) (distance_cell distance) 1;
  Done (mkTenXAlignerStats d (scoreCounts s)
          (alignTogetherByMapqHistogram s) (totalTimeByMapqHistogram s)
          (nSmallHitsByTimeHistogram s) (nLVCallsByTimeHistogram s)
          (mapqByNLVCallsHistogram s) (mapqByNSmallHitsHistogram s)).

(** The index [s0*(MAX_SCORE + 1) + s1] once both scores are clamped to
    [0 .. MAX_SCORE] and put in order. *)
Definition score_cell (s0 s1 : Z) : Z :=
  let s0 := Z.max 0 (Z.min MAX_SCORE s0) in
  let s1 := Z.max 0 (Z.min MAX_SCORE s1) in
  if s1 <? s0 then s1 * (MAX_SCORE + 1) + s0 else s0 * (MAX_SCORE + 1) + s1.

Definition incrementScore (s : TenXAlignerStats) (s0 s1 : Z)
  : Outcome TenXAlignerStats :=
  c ← bump "scoreCounts" (scoreCounts s) (score_cell s0 s1) 1;
  Done (mkTenXAlignerStats (distanceCounts s) c
          (alignTogetherByMapqHistogram s) (totalTimeByMapqHistogram s)
          (nSmallHitsByTimeHistogram s) (nLVCallsByTimeHistogram s)
          (mapqByNLVCallsHistogram s) (mapqByNSmallHitsHistogram s)).

(** [for (b = 0; b < limit; b++) { if (v == 0) break; v /= 2; }]: the value
    of [b] after the loop.  C++ division truncates towards zero. *)
Fixpoint halvings (limit : nat) (v : Z) : Z :=
  match limit with
  | O => 0
  | S limit' => if v =? 0 then 0 else 1 + halvings limit' (Z.quot v 2)
  end.

(** An [unsigned] stored in an [int]. *)
Definition int_of_unsigned (u : Z) : Z :=
  if u <? 2 ^ 31 then u else u - 2 ^ 32.

Definition recordAlignTogetherMapqAndTime (s : TenXAlignerStats)
  (mapq timeInNanos nSmallHits nLVCalls : Z) : Outcome TenXAlignerStats :=
  let timeBucket := halvings (Z.to_nat (nTimeBuckets - 1)) timeInNanos in
  byMapq ← bump2 "alignTogetherByMapqHistogram" (maxMapq + 1) nTimeBuckets
             (alignTogetherByMapqHistogram s) mapq timeBucket 1;
  time ← bump2 "totalTimeByMapqHistogram" (maxMapq + 1) nTimeBuckets
           (totalTimeByMapqHistogram s) mapq timeBucket timeInNanos;
  let nHitsBucket :=
    halvings (Z.to_nat nHitsBuckets) (int_of_unsigned nSmallHits) in
  hits ← bump2 "nSmallHitsByTimeHistogram" nHitsBuckets nTimeBuckets
           (nSmallHitsByTimeHistogram s) nHitsBucket timeBucket 1;
  let nLVCallsBucket :=
    halvings (Z.to_nat nLVCallsBuckets) (int_of_unsigned nLVCalls) in
  calls ← bump2 "nLVCallsByTimeHistogram" nLVCallsBuckets nTimeBuckets
            (nLVCallsByTimeHistogram s) nLVCallsBucket timeBucket 1;
  byCalls ← bump2 "mapqByNLVCallsHistogram" (maxMapq + 1) nLVCallsBuckets
              (mapqByNLVCallsHistogram s) mapq nLVCallsBucket 1;
  byHits ← bump2 "mapqByNSmallHitsHistogram" (maxMapq + 1) nHitsBuckets
             (mapqByNSmallHitsHistogram s) mapq nHitsBucket 1;
  Done (mkTenXAlignerStats (distanceCounts s) (scoreCounts s)
          byMapq time hits calls byCalls byHits).

(** [for (i = 0; i < n; i++) a[i] += b[i]] *)
Definition add_counts (what : string) (n : Z) (a b : list Z)
  : Outcome (list Z) :=
  if (n <=? Z.of_nat (length a)) && (n <=? Z.of_nat (length b))
  then Done (zip_with Z.add (take (Z.to_nat n) a) (take (Z.to_nat n) b)
             ++ drop (Z.to_nat n) a)
  else Fault what.

(** [TenXAlignerStats::add], the part after the call of the base class. *)
Definition TenXAlignerStats_add (s other : TenXAlignerStats)
  : Outcome TenXAlignerStats :=
  d ← add_counts "distanceCounts" (MAX_DISTANCE + 1)
        (distanceCounts s) (distanceCounts other);
  c ← add_counts "scoreCounts" ((MAX_SCORE + 1) * (MAX_SCORE + 1))
        (scoreCounts s) (scoreCounts other);
  byMapq ← add_counts "alignTogetherByMapqHistogram"
             ((maxMapq + 1) * nTimeBuckets)
             (alignTogetherByMapqHistogram s)
             (alignTogetherByMapqHistogram other);
  time ← add_counts "totalTimeByMapqHistogram" ((maxMapq + 1) * nTimeBuckets)
           (totalTimeByMapqHistogram s) (totalTimeByMapqHistogram other);
  byHits ← add_counts "mapqByNSmallHitsHistogram" ((maxMapq + 1) * nHitsBuckets)
             (mapqByNSmallHitsHistogram s) (mapqByNSmallHitsHistogram other);
  byCalls ← add_counts "mapqByNLVCallsHistogram"
              ((maxMapq + 1) * nLVCallsBuckets)
              (mapqByNLVCallsHistogram s) (mapqByNLVCallsHistogram other);
  hits ← add_counts "nSmallHitsByTimeHistogram" (nHitsBuckets * nTimeBuckets)
           (nSmallHitsByTimeHistogram s) (nSmallHitsByTimeHistogram other);
  calls ← add_counts "nLVCallsByTimeHistogram" (nLVCallsBuckets * nTimeBuckets)
            (nLVCallsByTimeHistogram s) (nLVCallsByTimeHistogram other);
  Done (mkTenXAlignerStats d c byMapq time hits calls byCalls byHits).

(** ** Accounting *)

(** The reads the statistics have put in one of the five classes a read ends
    in: filtered out, placed once, placed more than once, not placed, or not
    worth aligning. *)
Definition classified (s : Stats) : Z :=
  filtered s + singleHits s + multiHits s + notFound s + uselessReads s.

(** The calls of [writePairs] among the events. *)
Definition pairs_written (o : list Event) : Z :=
  Z.of_nat (length (List.filter (fun e => match e with
                                     | writePairs _ _ _ _ _ _ => true
                                     | WriteErrorMessage _ => false
                                     end) o)).

(** A second stage that finds one placement for the only pair of a batch
    and needs no more room. *)
Definition second_stage_places_one (w : Worker unit) : Worker unit * bool :=
  (mkWorker (heap w) (allocator w) (supplier w) (out w) (stats w)
     (aligner w) (tenXSingleTrackerArray w) (reads w)
     (mkArr (blk (results w))
        [Some (mkBuf 4%nat 8 [aligned SingleHit SingleHit 1000 1300])])
     (singleSecondaryResults w) (mkArr (blk (nSecondaryResults w)) [Some 0])
     (nSecondaryResults_off w)
     (mkArr (blk (nSingleSecondaryResults w)) [Some 0; Some 0])
     (maxPairedSecondaryHits w) (maxSingleSecondaryHits w)
     (popularSeedsSkipped w)
     (mkArr (blk (pairNotFinished w)) [Some false])
     (useful0 w) (useful1 w) (totalPairsForBarcode w),
   true).

(** Three single-end results of one read: placed once, not placed, placed
    more than once. *)
Definition three_singles : list SingleAlignmentResult :=
  [mkSingle SingleHit 10; mkSingle NotFound 0; mkSingle MultipleHits 5].

(** * Properties *)

(** ** The option parser *)

Lemma arg_Some_lt (argv : list string) (k : Z) (v : string) :
  arg argv k = Some v -> 0 <= k < argc argv.
Proof.
  unfold arg, argc. destruct (0 <=? k) eqn:E; [|discriminate].
  intros H. apply lookup_lt_Some in H. lia.
Qed.

Lemma streq_true (a b : string) : streq a b = true -> a = b.
Proof. apply String.eqb_eq. Qed.

Ltac by_option_name a :=
  repeat match goal with
    | |- context [streq a ?s] =>
        let E := fresh "E" in
        destruct (streq a s) eqn:E;
        [apply streq_true in E; subst a; simpl in * | simpl in *]
    end.

Section OptionsFacts.

Variable FilterBothMatesMatch : Z.
Variable DEFAULT_INTERSECTING_ALIGNER_MAX_HITS : Z.
Variable DEFAULT_MAX_CANDIDATE_POOL_SIZE : Z.
Variable AlignerOptions_parse :
  TenXAlignerOptions -> list string -> Z -> option Parsed.


(** What [parse] does at [-maxClusterSpan <value>], at any position. *)
Lemma parse_maxClusterSpan (o : TenXAlignerOptions) (argv : list string)
  (n : Z) (v : string) :
  arg argv n = Some "-maxClusterSpan"%string ->
  arg argv (n + 1) = Some v ->
  parse FilterBothMatesMatch AlignerOptions_parse o argv n
  = Some (mkParsed (set_minPairsPerCluster (atoi v) o) (n + 1) false true).
Proof.
  intros Hn Hv. unfold parse. rewrite Hn. simpl.
  apply arg_Some_lt in Hv as Hlt.
  assert (Hc : (n + 1 <? argc argv) = true) by (apply Z.ltb_lt; lia).
  rewrite Hc, Hv. reflexivity.
Qed.

(** What [parse] does at [-minCluster <value>]: the same assignment. *)
Lemma parse_minCluster (o : TenXAlignerOptions) (argv : list string)
  (n : Z) (v : string) :
  arg argv n = Some "-minCluster"%string ->
  arg argv (n + 1) = Some v ->
  parse FilterBothMatesMatch AlignerOptions_parse o argv n
  = Some (mkParsed (set_minPairsPerCluster (atoi v) o) (n + 1) false true).
Proof.
  intros Hn Hv. unfold parse. rewrite Hn. simpl.
  apply arg_Some_lt in Hv as Hlt.
  assert (Hc : (n + 1 <? argc argv) = true) by (apply Z.ltb_lt; lia).
  rewrite Hc, Hv. reflexivity.
Qed.

(** No option that this class parses itself writes [maxClusterSpan]. *)
Lemma parse_own_keeps_maxClusterSpan (o : TenXAlignerOptions)
  (argv : list string) (n : Z) (p : Parsed) :
  own_option argv n = true ->
  parse FilterBothMatesMatch AlignerOptions_parse o argv n = Some p ->
  maxClusterSpan (p_options p) = maxClusterSpan o.
Proof.
  unfold own_option, parse.
  destruct (arg argv n) as [a|]; [|discriminate]. simpl.
  by_option_name a;
    repeat match goal with
      | |- context [?x <? ?y] => destruct (x <? y); simpl
      | |- context [arg argv ?k] => destruct (arg argv k); simpl
      | |- context [streq ?x ?y] => destruct (streq x y); simpl
      end;
    unfold accepted, rejected; intros; simplify_eq; try reflexivity;
    try discriminate.
Qed.




Lemma bothMatesMatch_default :
  bothMatesMatch FilterBothMatesMatch
    (filterFlags (TenXAlignerOptions_new DEFAULT_INTERSECTING_ALIGNER_MAX_HITS
                    DEFAULT_MAX_CANDIDATE_POOL_SIZE)) = false.
Proof. reflexivity. Qed.

(** C3: at [-maxClusterSpan <value>] the parser accepts the option, moves
    the cursor past the value, stores [atoi(value)] in [minPairsPerCluster]
    and leaves [maxClusterSpan] as it was. *)
Theorem maxClusterSpan_option_sets_minPairsPerCluster
  (o : TenXAlignerOptions) (argv : list string) (n : Z) (v : string) :
  arg argv n = Some "-maxClusterSpan"%string ->
  arg argv (n + 1) = Some v ->
  exists p,
    parse FilterBothMatesMatch AlignerOptions_parse o argv n = Some p
    /\ p_ok p = true
    /\ p_n p = n + 1
    /\ minPairsPerCluster (p_options p) = atoi v
    /\ maxClusterSpan (p_options p) = maxClusterSpan o.
Proof.
  intros Hn Hv. eexists. split; [apply parse_maxClusterSpan; eassumption|].
  repeat split.
Qed.

End OptionsFacts.

(** ** The worker thread *)

(** Memory accesses either succeed or fault. *)
Lemma rd_cases {A : Type} (what : string) (a : list (option A)) (i : Z) :
  (exists v, rd what a i = Done v) \/ rd what a i = Fault what.
Proof.
  unfold rd. destruct (i <? 0); [right; reflexivity|].
  destruct (a !! Z.to_nat i) as [[v|]|]; eauto.
Qed.

Lemma wr_cases {A : Type} (what : string) (a : list (option A)) (i : Z) (v : A) :
  (exists a', wr what a i v = Done a') \/ wr what a i v = Fault what.
Proof.
  unfold wr. destruct ((0 <=? i) && (i <? Z.of_nat (length a))); eauto.
Qed.

Lemma rec_at_cases {A : Type} (what : string) (recs : list A) (i : Z) :
  (exists v, rec_at what recs i = Done v) \/ rec_at what recs i = Fault what.
Proof.
  unfold rec_at. destruct (i <? 0); [right; reflexivity|].
  destruct (recs !! Z.to_nat i) as [v|]; eauto.
Qed.

Lemma bind_Done {A B : Type} (a : A) (k : A -> Outcome B) :
  (Done a ≫= k) = k a.
Proof. reflexivity. Qed.

Lemma bind_Fault {A B : Type} (what : string) (k : A -> Outcome B) :
  (Fault what ≫= k) = Fault what.
Proof. reflexivity. Qed.

Lemma bind_Done_inv {A B : Type} (m : Outcome A) (k : A -> Outcome B) (b : B) :
  (m ≫= k) = Done b -> exists a, m = Done a /\ k a = Done b.
Proof. destruct m as [a| | |]; try discriminate. intros H. exists a. auto. Qed.

Lemma wr_ok {A : Type} (what : string) (a : list (option A)) (i : Z) (v : A) :
  0 <= i < Z.of_nat (length a) ->
  wr what a i v = Done (<[Z.to_nat i := Some v]> a).
Proof.
  intros [H1 H2]. unfold wr.
  apply Z.leb_le in H1. apply Z.ltb_lt in H2. rewrite H1, H2. reflexivity.
Qed.

Lemma wr_out_of_bounds {A : Type} (what : string) (a : list (option A))
  (i : Z) (v : A) :
  Z.of_nat (length a) <= i -> wr what a i v = Fault what.
Proof.
  intros H. unfold wr. apply Z.ltb_ge in H. rewrite H, andb_false_r.
  reflexivity.
Qed.

Lemma rd_ok {A : Type} (what : string) (a : list (option A)) (i : Z) (v : A) :
  0 <= i -> a !! Z.to_nat i = Some (Some v) -> rd what a i = Done v.
Proof.
  intros H1 H2. unfold rd. apply Z.ltb_ge in H1. rewrite H1, H2. reflexivity.
Qed.

Lemma wr_Done {A : Type} (what : string) (a a' : list (option A)) (i : Z)
  (v : A) :
  wr what a i v = Done a' ->
  0 <= i < Z.of_nat (length a) /\ a' = <[Z.to_nat i := Some v]> a.
Proof.
  unfold wr. destruct (0 <=? i) eqn:E1; [|discriminate].
  destruct (i <? Z.of_nat (length a)) eqn:E2; [|discriminate].
  apply Z.leb_le in E1. apply Z.ltb_lt in E2.
  intros H. inversion H. auto.
Qed.

Lemma rd_Done {A : Type} (what : string) (a : list (option A)) (i : Z) (v : A) :
  rd what a i = Done v -> 0 <= i /\ a !! Z.to_nat i = Some (Some v).
Proof.
  unfold rd. destruct (i <? 0) eqn:E; [discriminate|].
  apply Z.ltb_ge in E.
  destruct (a !! Z.to_nat i) as [[x|]|]; intros H; inversion H; auto.
Qed.

(** Unfold one monadic step of an [Outcome] computation. *)
Ltac bind_step :=
  let E := fresh "E" in
  match goal with
  | |- context [mbind _ (rd ?w ?a ?i)] =>
      destruct (rd_cases w a i) as [[? E]|E]; rewrite E; simpl
  | |- context [mbind _ (wr ?w ?a ?i ?v)] =>
      destruct (wr_cases w a i v) as [[? E]|E]; rewrite E; simpl
  | |- context [mbind _ (rec_at ?w ?a ?i)] =>
      destruct (rec_at_cases w a i) as [[? E]|E]; rewrite E; simpl
  | |- context [mbind _ ?m] =>
      destruct m eqn:E; simpl
  end.

Section ThreadFacts.

Context {TenXClusterAligner : Type}.
Variable InvalidGenomeLocation : Z.
Variable FilterBothMatesMatch : Z.
Variable sizeof_pointer : Z.
Variable sizeof_PairedAlignmentResult : Z.
Variable sizeof_SingleAlignmentResult : Z.
Variable passFilter : Read -> AlignmentResult -> bool -> bool -> bool.
Variable readIdsMatch : Read -> Read -> bool.
Variable indeterminate : PairedAlignmentResult.
Variable TenXClusterAligner_new : Context -> TenXClusterAligner.
Variable align_first_stage :
  Worker TenXClusterAligner -> Worker TenXClusterAligner * bool.
Variable align_second_stage :
  Worker TenXClusterAligner -> Worker TenXClusterAligner * bool.
Variable align_third_stage :
  Worker TenXClusterAligner -> Worker TenXClusterAligner * bool.

#[local] Abbreviation Wk := (Worker TenXClusterAligner).
#[local] Abbreviation pairPass' := (pairPass FilterBothMatesMatch).
#[local] Abbreviation fast_pass' :=
  (fast_pass InvalidGenomeLocation FilterBothMatesMatch passFilter).
#[local] Abbreviation unmapped_pass' :=
  (unmapped_pass InvalidGenomeLocation FilterBothMatesMatch passFilter
     indeterminate).
#[local] Abbreviation paired_pass' :=
  (paired_pass FilterBothMatesMatch passFilter).
#[local] Abbreviation fast_path' :=
  (fast_path InvalidGenomeLocation FilterBothMatesMatch passFilter
     readIdsMatch).
#[local] Abbreviation buffer_pair' :=
  (buffer_pair (TenXClusterAligner := TenXClusterAligner)
     InvalidGenomeLocation FilterBothMatesMatch passFilter readIdsMatch
     indeterminate).
#[local] Abbreviation buffer_reads' :=
  (buffer_reads (TenXClusterAligner := TenXClusterAligner)
     InvalidGenomeLocation FilterBothMatesMatch passFilter readIdsMatch
     indeterminate).
#[local] Abbreviation allocate' :=
  (allocate sizeof_pointer TenXClusterAligner_new).
#[local] Abbreviation runIterationThread' :=
  (runIterationThread InvalidGenomeLocation FilterBothMatesMatch
     sizeof_pointer sizeof_PairedAlignmentResult sizeof_SingleAlignmentResult
     passFilter readIdsMatch indeterminate TenXClusterAligner_new
     align_first_stage align_second_stage align_third_stage).

(** *** The filter decision *)

Lemma pairPass_both (c : Context) (pass0 pass1 : bool) :
  bothMatesMatch FilterBothMatesMatch (c_filterFlags c) = true ->
  (pairPass' c pass0 pass1 = true <-> pass0 = true /\ pass1 = true).
Proof.
  intros H. unfold pairPass. rewrite H. apply andb_true_iff.
Qed.

Lemma pairPass_either (c : Context) (pass0 pass1 : bool) :
  bothMatesMatch FilterBothMatesMatch (c_filterFlags c) = false ->
  (pairPass' c pass0 pass1 = true <-> pass0 = true \/ pass1 = true).
Proof.
  intros H. unfold pairPass. rewrite H. apply orb_true_iff.
Qed.

(** *** The spacing policy *)

Lemma isOneLocation_SingleHit (s : AlignmentResult) :
  isOneLocation s = true <-> s = SingleHit.
Proof. destruct s; simpl; split; congruence. Qed.

Lemma demote_fields (r : PairedAlignmentResult) :
  status (demote InvalidGenomeLocation r) = (NotFound, NotFound)
  /\ location (demote InvalidGenomeLocation r)
     = (InvalidGenomeLocation, InvalidGenomeLocation)
  /\ direction (demote InvalidGenomeLocation r) = direction r
  /\ score (demote InvalidGenomeLocation r) = score r
  /\ mapq (demote InvalidGenomeLocation r) = mapq r
  /\ clippingForReadAdjustment (demote InvalidGenomeLocation r)
     = clippingForReadAdjustment r
  /\ fromAlignTogether (demote InvalidGenomeLocation r) = fromAlignTogether r
  /\ alignedAsPair (demote InvalidGenomeLocation r) = alignedAsPair r.
Proof. repeat split. Qed.

(** *** Pairs handed over without alignment *)

Lemma fast_result_unmapped :
  status (fast_result InvalidGenomeLocation) = (NotFound, NotFound)
  /\ location (fast_result InvalidGenomeLocation)
     = (InvalidGenomeLocation, InvalidGenomeLocation).
Proof. split; reflexivity. Qed.

Lemma unmapped_result_unmapped :
  status (unmapped_result InvalidGenomeLocation indeterminate)
  = (NotFound, NotFound)
  /\ location (unmapped_result InvalidGenomeLocation indeterminate)
     = (InvalidGenomeLocation, InvalidGenomeLocation).
Proof. split; reflexivity. Qed.

Lemma fast_path_written (c : Context) (supply : list (Read * Read)) :
  forall (o : list Event) (s : Stats),
    Forall (unmapped_call InvalidGenomeLocation) o ->
    Forall (unmapped_call InvalidGenomeLocation)
      (written fst (fast_path' c supply o s)).
Proof.
  induction supply as [|[r0 r1] rest IH]; intros o s Ho; simpl; [exact Ho|].
  destruct (negb (c_ignoreMismatchedIDs c) && negb (readIdsMatch r0 r1)).
  - simpl. apply Forall_app. split; [exact Ho|]. repeat constructor.
  - destruct (fast_pass' c r0 r1); [|apply IH; exact Ho].
    apply IH. destruct (c_readWriter c); [|exact Ho].
    apply Forall_app. split; [exact Ho|].
    constructor; [|constructor]. simpl.
    repeat split; try reflexivity.
    exists (fast_result InvalidGenomeLocation). repeat split.
Qed.

Lemma buffer_pair_written (c : Context) (w : Wk) (p : Read * Read) :
  Forall (unmapped_call InvalidGenomeLocation) (out w) ->
  Forall (unmapped_call InvalidGenomeLocation)
    (written out (buffer_pair' c w p))
  /\ forall w', buffer_pair' c w p = Done w' ->
                Forall (unmapped_call InvalidGenomeLocation) (out w').
Proof.
  intros Ho.
  assert (G : Forall (unmapped_call InvalidGenomeLocation)
                (written out (buffer_pair' c w p))).
  { unfold buffer_pair, checkIdMatch.
    repeat (bind_step; try constructor).
    all: repeat match goal with
           | |- context [if ?b then _ else _] => destruct b; simpl
           end.
    all: try exact Ho.
    all: try solve [constructor].
    all: apply Forall_app; split; [exact Ho|].
    all: constructor; [|constructor]; simpl; try exact I.
    all: repeat split; try reflexivity.
    all: exists (unmapped_result InvalidGenomeLocation indeterminate).
    all: repeat split. }
  split; [exact G|]. intros w' Hw. rewrite Hw in G. exact G.
Qed.

Lemma buffer_reads_written (c : Context) (supply : list (Read * Read)) :
  forall w : Wk,
    Forall (unmapped_call InvalidGenomeLocation) (out w) ->
    Forall (unmapped_call InvalidGenomeLocation)
      (written out (buffer_reads' c supply w)).
Proof.
  induction supply as [|p rest IH]; intros w Ho; simpl; [exact Ho|].
  destruct (buffer_pair_written c w p Ho) as [G1 G2].
  destruct (buffer_pair' c w p) as [w'| | |] eqn:E; simpl in *;
    try constructor; try exact G1.
  apply IH. apply G2. reflexivity.
Qed.

(** *** The arrays right after allocation *)

Lemma allocate_fields (c : Context) (h : Heap) (o : list Event) (s : Stats) :
  cells (reads (allocate' c h o s))
  = replicate (Z.to_nat (2 * c_maxBarcodeSize c)) None
  /\ cells (useful0 (allocate' c h o s))
     = replicate (Z.to_nat (c_maxBarcodeSize c)) None
  /\ cells (useful1 (allocate' c h o s))
     = replicate (Z.to_nat (c_maxBarcodeSize c)) None
  /\ totalPairsForBarcode (allocate' c h o s) = 0
  /\ out (allocate' c h o s) = o
  /\ stats (allocate' c h o s) = s
  /\ allocator (allocate' c h o s) = true
  /\ supplier (allocate' c h o s) = true
  /\ nSecondaryResults_off (allocate' c h o s) = 0.
Proof.
  unfold allocate. cbv beta iota zeta delta [alloc_arr BigAlloc].
  match goal with
  | |- context [alloc_pair_buffers ?a ?b ?c ?d] =>
      destruct (alloc_pair_buffers a b c d) as [[rs ss] h5]
  end.
  simpl. repeat split.
Qed.

(** *** One turn of the buffering loop *)

(** The turn, when every store is in bounds: [a] and [b] are what
    [reads[0]] and [reads[1]] hold once the pair is stored. *)
Lemma buffer_pair_in_bounds (c : Context) (w : Wk) (p : Read * Read)
  (a b : Read) :
  let t := totalPairsForBarcode w in
  0 <= t ->
  t * 2 + 1 < Z.of_nat (length (cells (reads w))) ->
  t < Z.of_nat (length (cells (useful0 w))) ->
  t < Z.of_nat (length (cells (useful1 w))) ->
  cells (reads (stored c w p a b)) !! 0%nat = Some (Some a) ->
  cells (reads (stored c w p a b)) !! 1%nat = Some (Some b) ->
  buffer_pair' c w p
  = match (if c_ignoreMismatchedIDs c then None
           else checkIdMatch readIdsMatch a b) with
    | Some msg => Exited 1 (out w ++ [WriteErrorMessage msg])
    | None =>
        if negb (useful c a) && negb (useful c b) then
          if unmapped_pass' c a b then
            let w4 :=
              if c_readWriter c
              then emit (writePairs (a, b)
                           [unmapped_result InvalidGenomeLocation indeterminate]
                           1 None (0, 0) true) (stored c w p a b)
              else stored c w p a b in
            Done (set_stats (add_uselessReads 2 (stats w4)) w4)
          else
            Done (set_stats (add_filtered 2 (stats (stored c w p a b)))
                    (stored c w p a b))
        else Done (set_totalPairsForBarcode (t + 1) (stored c w p a b))
    end.
Proof.
  intros t Ht Hr H0 H1 Ha Hb. unfold buffer_pair. fold t.
  rewrite (wr_ok "reads") by lia. simpl.
  rewrite (wr_ok "reads") by (rewrite length_insert; lia). simpl.
  simpl in Ha, Hb. fold t in Ha, Hb.
  rewrite (rd_ok "reads" _ 0 a) by (simpl; auto; lia). simpl.
  rewrite (rd_ok "reads" _ 1 b) by (simpl; auto; lia). simpl.
  destruct (if c_ignoreMismatchedIDs c then None else _); [reflexivity|].
  rewrite (wr_ok "useful0") by lia. simpl.
  rewrite (wr_ok "useful1") by lia. simpl.
  reflexivity.
Qed.

Lemma id_check_passes (c : Context) (a b : Read) :
  c_ignoreMismatchedIDs c = true \/ readIdsMatch a b = true ->
  (if c_ignoreMismatchedIDs c then None else checkIdMatch readIdsMatch a b)
  = None.
Proof.
  unfold checkIdMatch. intros [H|H]; rewrite H; [reflexivity|].
  destruct (c_ignoreMismatchedIDs c); reflexivity.
Qed.

(** A pair that arrives while the batch is empty is judged on its own
    reads. *)
Lemma buffer_pair_empty_batch (c : Context) (w : Wk) (p : Read * Read) :
  totalPairsForBarcode w = 0 ->
  (2 <= length (cells (reads w)))%nat ->
  (1 <= length (cells (useful0 w)))%nat ->
  (1 <= length (cells (useful1 w)))%nat ->
  c_ignoreMismatchedIDs c = true \/ readIdsMatch p.1 p.2 = true ->
  buffer_pair' c w p
  = if negb (useful c p.1) && negb (useful c p.2) then
      if unmapped_pass' c p.1 p.2 then
        let w4 :=
          if c_readWriter c
          then emit (writePairs (p.1, p.2)
                       [unmapped_result InvalidGenomeLocation indeterminate]
                       1 None (0, 0) true) (stored c w p p.1 p.2)
          else stored c w p p.1 p.2 in
        Done (set_stats (add_uselessReads 2 (stats w4)) w4)
      else
        Done (set_stats (add_filtered 2 (stats (stored c w p p.1 p.2)))
                (stored c w p p.1 p.2))
    else Done (set_totalPairsForBarcode 1 (stored c w p p.1 p.2)).
Proof.
  intros Ht Hr H0 H1 Hid.
  rewrite (buffer_pair_in_bounds c w p p.1 p.2); rewrite ?Ht; try lia.
  - rewrite (id_check_passes c _ _ Hid). reflexivity.
  - unfold stored. rewrite Ht. simpl.
    rewrite list_lookup_insert_ne by (simpl; lia).
    apply list_lookup_insert_eq. lia.
  - unfold stored. rewrite Ht. simpl.
    apply list_lookup_insert_eq. rewrite length_insert. lia.
Qed.

(** A pair that arrives when the batch already holds a pair is judged on
    the reads of the first pair of the batch, [reads[0]] and [reads[1]]:
    neither its identifiers nor its own lengths and N counts are looked
    at. *)
Lemma buffer_pair_later (c : Context) (w : Wk) (p : Read * Read) (a b : Read) :
  let t := totalPairsForBarcode w in
  1 <= t ->
  t * 2 + 1 < Z.of_nat (length (cells (reads w))) ->
  t < Z.of_nat (length (cells (useful0 w))) ->
  t < Z.of_nat (length (cells (useful1 w))) ->
  cells (reads w) !! 0%nat = Some (Some a) ->
  cells (reads w) !! 1%nat = Some (Some b) ->
  c_ignoreMismatchedIDs c = true \/ readIdsMatch a b = true ->
  useful c a || useful c b = true ->
  buffer_pair' c w p = Done (set_totalPairsForBarcode (t + 1) (stored c w p a b)).
Proof.
  intros t Ht Hr H0 H1 Ha Hb Hid Hu.
  rewrite (buffer_pair_in_bounds c w p a b); fold t; try lia.
  - rewrite (id_check_passes c _ _ Hid).
    rewrite <- negb_orb, Hu. reflexivity.
  - unfold stored. fold t. simpl.
    rewrite !list_lookup_insert_ne by lia. exact Ha.
  - unfold stored. fold t. simpl.
    rewrite !list_lookup_insert_ne by lia. exact Hb.
Qed.

(** When the slot for the next pair lies past the end of [reads], the store
    of the supplier is out of bounds. *)
Lemma buffer_pair_overflow (c : Context) (w : Wk) (p : Read * Read) :
  Z.of_nat (length (cells (reads w))) <= totalPairsForBarcode w * 2 ->
  buffer_pair' c w p = Fault "reads".
Proof.
  intros H. unfold buffer_pair.
  rewrite (wr_out_of_bounds "reads") by exact H. reflexivity.
Qed.

(** Two pairs offered to a worker with an empty batch, the first with a
    useful read. *)
Lemma buffer_two_pairs_from (c : Context) (p0 p1 : Read * Read) (w0 : Wk) :
  totalPairsForBarcode w0 = 0 ->
  (4 <= length (cells (reads w0)))%nat ->
  (2 <= length (cells (useful0 w0)))%nat ->
  (2 <= length (cells (useful1 w0)))%nat ->
  c_ignoreMismatchedIDs c = true \/ readIdsMatch p0.1 p0.2 = true ->
  useful c p0.1 || useful c p0.2 = true ->
  buffer_reads' c [p0; p1] w0
  = Done (set_totalPairsForBarcode 2
            (stored c (set_totalPairsForBarcode 1 (stored c w0 p0 p0.1 p0.2))
               p1 p0.1 p0.2)).
Proof.
  intros Ht Hr H0 H1 Hid Hu.
  cbn [buffer_reads].
  rewrite buffer_pair_empty_batch by (try lia; assumption).
  rewrite <- negb_orb, Hu. change (negb true) with false. cbv iota.
  rewrite bind_Done.
  rewrite (buffer_pair_later c _ p1 p0.1 p0.2).
  - rewrite bind_Done. reflexivity.
  - simpl. lia.
  - simpl. rewrite ?length_insert. lia.
  - simpl. rewrite ?length_insert. lia.
  - simpl. rewrite ?length_insert. lia.
  - simpl. rewrite Ht. simpl. rewrite list_lookup_insert_ne by lia.
    apply list_lookup_insert_eq. lia.
  - simpl. rewrite Ht. simpl. apply list_lookup_insert_eq.
    rewrite length_insert. lia.
  - exact Hid.
  - exact Hu.
Qed.

Lemma buffer_two_pairs (c : Context) (p0 p1 : Read * Read) (h : Heap)
  (s : Stats) :
  2 <= c_maxBarcodeSize c ->
  c_ignoreMismatchedIDs c = true \/ readIdsMatch p0.1 p0.2 = true ->
  useful c p0.1 || useful c p0.2 = true ->
  buffer_reads' c [p0; p1] (allocate' c h [] s)
  = Done (set_totalPairsForBarcode 2
            (stored c
               (set_totalPairsForBarcode 1
                  (stored c (allocate' c h [] s) p0 p0.1 p0.2))
               p1 p0.1 p0.2)).
Proof.
  intros HN Hid Hu.
  destruct (allocate_fields c h [] s)
    as (Hr & H0 & H1 & Ht & _).
  apply buffer_two_pairs_from; try assumption.
  - rewrite Hr, length_replicate. lia.
  - rewrite H0, length_replicate. lia.
  - rewrite H1, length_replicate. lia.
Qed.

(** *** The retry loops *)







Lemma buffer_two_pairs_overflow (c : Context) (p0 p1 : Read * Read)
  (h : Heap) (s : Stats) :
  c_maxBarcodeSize c = 1 ->
  c_ignoreMismatchedIDs c = true \/ readIdsMatch p0.1 p0.2 = true ->
  useful c p0.1 || useful c p0.2 = true ->
  buffer_reads' c [p0; p1] (allocate' c h [] s) = Fault "reads".
Proof.
  intros HN Hid Hu.
  destruct (allocate_fields c h [] s) as (Hr & H0 & H1 & Ht & _).
  cbn [buffer_reads].
  rewrite buffer_pair_empty_batch;
    rewrite ?Hr, ?H0, ?H1, ?length_replicate, ?HN; try lia; try assumption.
  rewrite <- negb_orb, Hu. change (negb true) with false. cbv iota.
  rewrite bind_Done.
  rewrite buffer_pair_overflow; [reflexivity|].
  simpl. rewrite !length_insert, Hr, length_replicate, HN. simpl. lia.
Qed.

Lemma useful_iff (c : Context) (r : Read) :
  useful c r = true
  <-> c_minReadLength c <= getDataLength r /\ countOfNs r <= c_maxDist c.
Proof.
  unfold useful. rewrite andb_true_iff, !Z.leb_le. reflexivity.
Qed.

(** *** What the buffering loop leaves alone *)

Lemma buffer_pair_resources (c : Context) (w w' : Wk) (p : Read * Read) :
  buffer_pair' c w p = Done w' ->
  heap w' = heap w /\ allocator w' = allocator w /\ supplier w' = supplier w.
Proof.
  unfold buffer_pair, checkIdMatch.
  repeat (bind_step; try discriminate).
  all: repeat match goal with
         | |- context [if ?b then _ else _] => destruct b; simpl
         end.
  all: intros H; inversion H; subst; repeat split.
Qed.

Lemma buffer_reads_resources (c : Context) (supply : list (Read * Read)) :
  forall w w' : Wk,
    buffer_reads' c supply w = Done w' ->
    heap w' = heap w /\ allocator w' = allocator w /\ supplier w' = supplier w.
Proof.
  induction supply as [|p rest IH]; intros w w' H.
  - inversion H. subst. auto.
  - cbn [buffer_reads] in H.
    destruct (buffer_pair' c w p) as [w1| | |] eqn:E; try discriminate.
    rewrite bind_Done in H.
    destruct (buffer_pair_resources c w w1 p E) as (G1 & G2 & G3).
    destruct (IH _ _ H) as (H1 & H2 & H3).
    repeat split; congruence.
Qed.

Lemma alloc_pair_buffers_live (n : nat) (ref : Z) :
  forall h : Heap,
    length (heap_live (alloc_pair_buffers sizeof_pointer n ref h).2)
    = (length (heap_live h) + 2 * n)%nat.
Proof.
  induction n as [|n IH]; intros h; cbn [alloc_pair_buffers].
  - simpl. lia.
  - cbv beta iota zeta delta [BigAlloc].
    specialize (IH (mkHeap (S (S (heap_next h)))
                      (S (heap_next h) :: heap_next h :: heap_live h))).
    cbn [heap_next heap_live] in *.
    destruct (alloc_pair_buffers sizeof_pointer n ref _) as [[rs ss] h3].
    simpl in *. lia.
Qed.

(** Everything [runIterationThread] has allocated when buffering starts: the
    twelve arrays and two result buffers per slot of the barcode. *)
Lemma allocate_live (c : Context) (h : Heap) (o : list Event) (s : Stats) :
  length (heap_live (heap (allocate' c h o s)))
  = (length (heap_live h) + 12 + 2 * Z.to_nat (c_maxBarcodeSize c))%nat.
Proof.
  unfold allocate. cbv beta iota zeta delta [alloc_arr BigAlloc].
  cbn [heap_next heap_live].
  match goal with
  | |- context [alloc_pair_buffers ?a ?b ?c ?d] =>
      pose proof (alloc_pair_buffers_live b c d) as H;
      destruct (alloc_pair_buffers a b c d) as [[rs ss] h5]
  end.
  simpl in *. lia.
Qed.

(** *** The flags of the batch *)

(** The disjunction of the two flags is kept by every turn of the loop that
    runs to its end.  (It is kept for the flags as stored; for a pair
    behind the first they are the flags of the first pair.) *)
Lemma buffer_pair_keeps_flags (c : Context) (w w' : Wk) (p : Read * Read) :
  batch_flags w ->
  buffer_pair' c w p = Done w' ->
  batch_flags w'
  /\ length (cells (useful0 w')) = length (cells (useful0 w)).
Proof.
  intros (Ht0 & Htl & Hflags). unfold buffer_pair, checkIdMatch.
  repeat (bind_step; [|intros ?; discriminate]).
  match goal with
  | |- context [readIdsMatch ?a ?b] =>
      destruct (c_ignoreMismatchedIDs c); [|destruct (readIdsMatch a b)]
  end;
    try (intros ?; discriminate).
  all: repeat (bind_step; [|intros ?; discriminate]).
  all: repeat match goal with
         | E : wr _ _ _ _ = Done _ |- _ =>
             apply wr_Done in E; destruct E as [? ->]
         end.
  all: match goal with
       | |- context [negb (useful _ ?r0) && negb (useful _ ?r1)] =>
           assert (Hold : forall i, 0 <= i < totalPairsForBarcode w ->
                     exists a b : bool,
                       <[Z.to_nat (totalPairsForBarcode w) := Some (useful c r0)]>
                         (cells (useful0 w)) !! Z.to_nat i = Some (Some a)
                       /\ <[Z.to_nat (totalPairsForBarcode w) := Some (useful c r1)]>
                            (cells (useful1 w)) !! Z.to_nat i = Some (Some b)
                       /\ a || b = true);
           [ intros i Hi; destruct (Hflags i Hi) as (a & b & Ha & Hb & Hab);
             exists a, b; rewrite !list_lookup_insert_ne by lia; auto
           | destruct (negb (useful c r0) && negb (useful c r1)) eqn:Hu;
             [ destruct (unmapped_pass' c r0 r1); [destruct (c_readWriter c)|]
             | ] ]
       end.
  all: intros Hdone; inversion Hdone; subst; simpl; rewrite ?length_insert.
  all: split; [|reflexivity].
  all: unfold batch_flags; simpl; rewrite ?length_insert.
  all: try (split; [lia|]; split; [lia|]; exact Hold).
  all: split; [lia|]; split; [lia|]; intros i Hi.
  all: destruct (Z.eq_dec i (totalPairsForBarcode w)) as [->|Hne];
    [|apply Hold; lia].
  all: do 2 eexists.
  all: rewrite !list_lookup_insert_eq by lia.
  all: rewrite <- negb_orb in Hu; apply negb_false_iff in Hu; auto.
Qed.

Lemma buffer_reads_keeps_flags (c : Context) (supply : list (Read * Read)) :
  forall w w' : Wk,
    batch_flags w ->
    buffer_reads' c supply w = Done w' ->
    batch_flags w'
    /\ length (cells (useful0 w')) = length (cells (useful0 w)).
Proof.
  induction supply as [|p rest IH]; intros w w' Hw H.
  - inversion H. subst. auto.
  - cbn [buffer_reads] in H.
    destruct (buffer_pair' c w p) as [w1| | |] eqn:E; try discriminate.
    rewrite bind_Done in H.
    destruct (buffer_pair_keeps_flags c w w1 p Hw E) as [Hw1 Hl1].
    destruct (IH w1 w' Hw1 H) as [Hw' Hl']. split; [exact Hw'|congruence].
Qed.

(** When buffering runs to its end, each pair of the batch has a flag set
    and the batch is no larger than [maxBarcodeSize]. *)
Lemma buffered_batch_flags (c : Context) (supply : list (Read * Read))
  (h : Heap) (s : Stats) (w' : Wk) :
  buffer_reads' c supply (allocate' c h [] s) = Done w' ->
  batch_flags w'
  /\ totalPairsForBarcode w' <= Z.max 0 (c_maxBarcodeSize c).
Proof.
  intros H.
  destruct (allocate_fields c h [] s) as (_ & H0 & _ & Ht & _).
  destruct (buffer_reads_keeps_flags c supply (allocate' c h [] s) w')
    as [Hw Hl]; [|exact H|].
  - unfold batch_flags. rewrite Ht, H0. repeat split; try lia.
  - split; [exact Hw|]. destruct Hw as (_ & Hle & _).
    rewrite Hl, H0, length_replicate in Hle. lia.
Qed.

(** *** The pointer to the secondary counts *)

(** In the output loop of pair 0, once a record has failed the filter the
    next loop test reads [nSecondaryResults[-1]]. *)
Lemma first_pair_removal_reads_before_array (fuel : nat) (c : Context)
  (w : Wk) (recs : list PairedAlignmentResult) (firstIsPrimary : bool)
  (i n : Z) (r0 r1 : Read) (u0 u1 : bool) (r last : PairedAlignmentResult) :
  rd "nSecondaryResults" (cells (nSecondaryResults w)) 0 = Done n ->
  i <= n ->
  rd "reads" (cells (reads w)) 0 = Done r0 ->
  rd "reads" (cells (reads w)) 1 = Done r1 ->
  rd "useful0" (cells (useful0 w)) 0 = Done u0 ->
  rd "useful1" (cells (useful1 w)) 0 = Done u1 ->
  rec_at "results[pairIdx][i]" recs i = Done r ->
  rec_at "results[pairIdx][nSecondaryResults[pairIdx]]" recs n = Done last ->
  paired_pass' c r0 r1 u0 u1 r (negb (i =? 0) || negb firstIsPrimary) = false ->
  filter_paired FilterBothMatesMatch passFilter (S (S fuel)) c w 0 recs 0
    firstIsPrimary i
  = Fault "nSecondaryResults".
Proof.
  intros Hn Hi Hr0 Hr1 Hu0 Hu1 Hr Hlast Hpass.
  cbn [filter_paired]. change (0 + 0) with 0. rewrite Hn, bind_Done.
  apply Z.leb_le in Hi. rewrite Hi.
  change (2 * 0) with 0. change (0 + 1) with 1.
  rewrite Hr0, bind_Done, Hr, bind_Done, Hu0, bind_Done, Hr1, bind_Done,
    Hu1, bind_Done.
  rewrite Hpass. cbn [negb]. rewrite Hlast, bind_Done.
  change (0 - 1 + 0) with (-1). reflexivity.
Qed.


(** C2: when [align_first_stage] reports the barcode finished, the thread
    returns on the spot: stages 2 and 3, the output loop and the clean-up are
    skipped.  The allocator, the supplier and every block allocated for the
    barcode are still there on return, and nothing was written after
    buffering. *)
Theorem stage1_finished_returns_early (fuel : nat) (c : Context)
  (supply : list (Read * Read)) (h : Heap) (s : Stats) (w1 : Wk) :
  buffer_reads' c supply (allocate' c h [] s) = Done w1 ->
  (align_first_stage w1).2 = true ->
  exists r,
    runIterationThread' fuel c (mkInput (Some supply) false true) h s = Done r
    /\ ret_allocator r = true
    /\ ret_supplier r = true
    /\ ret_heap r = heap (allocate' c h [] s)
    /\ length (heap_live (ret_heap r))
       = (length (heap_live h) + 12 + 2 * Z.to_nat (c_maxBarcodeSize c))%nat
    /\ ret_out r = out w1
    /\ Forall (unmapped_call InvalidGenomeLocation) (ret_out r).
Proof.
  intros Hbuf Hfin. unfold runIterationThread. cbn [i_supplier i_extension i_index negb].
  rewrite Hbuf, bind_Done. unfold stage_call.
  destruct (align_first_stage w1) as [w2 fin]. simpl in Hfin. subst fin.
  destruct (buffer_reads_resources c supply _ _ Hbuf) as (Hh & Ha & Hs).
  destruct (allocate_fields c h [] s) as (_ & _ & _ & _ & Ho & _ & Hal & Hsu & _).
  eexists. split; [reflexivity|]. simpl.
  rewrite Ha, Hs, Hh, Hal, Hsu. repeat split.
  - apply allocate_live.
  - pose proof (buffer_reads_written c supply (allocate' c h [] s)) as G.
    rewrite Hbuf in G. apply G. rewrite Ho. constructor.
Qed.

(** C5 (as amended): a pair that arrives while the batch is still empty is
    judged on its own reads; a read is useful iff it has at least
    [minReadLength] bases and at most [maxDist] Ns.  With a useful read the
    pair enters the batch.  With none it stays out; if it passes the read
    filter it is handed to the writer (when there is one) as a single
    unmapped result and two reads are added to [uselessReads]; if it fails the
    filter nothing is written and two reads are added to [filtered]. *)
Theorem empty_batch_pair_usefulness (c : Context) (w : Wk) (p : Read * Read) :
  totalPairsForBarcode w = 0 ->
  (2 <= length (cells (reads w)))%nat ->
  (1 <= length (cells (useful0 w)))%nat ->
  (1 <= length (cells (useful1 w)))%nat ->
  c_ignoreMismatchedIDs c = true \/ readIdsMatch p.1 p.2 = true ->
  (forall r, useful c r = true
             <-> c_minReadLength c <= getDataLength r
                 /\ countOfNs r <= c_maxDist c)
  /\ exists w',
      buffer_pair' c w p = Done w'
      /\ if useful c p.1 || useful c p.2 then
           totalPairsForBarcode w' = 1
           /\ cells (reads w') !! 0%nat = Some (Some p.1)
           /\ cells (reads w') !! 1%nat = Some (Some p.2)
           /\ out w' = out w
           /\ uselessReads (stats w') = uselessReads (stats w)
           /\ filtered (stats w') = filtered (stats w)
         else
           totalPairsForBarcode w' = 0
           /\ if unmapped_pass' c p.1 p.2 then
                out w'
                = out w
                  ++ (if c_readWriter c
                      then [writePairs p
                              [unmapped_result InvalidGenomeLocation
                                 indeterminate]
                              1 None (0, 0) true]
                      else [])
                /\ status (unmapped_result InvalidGenomeLocation indeterminate)
                   = (NotFound, NotFound)
                /\ location (unmapped_result InvalidGenomeLocation indeterminate)
                   = (InvalidGenomeLocation, InvalidGenomeLocation)
                /\ uselessReads (stats w') = uselessReads (stats w) + 2
                /\ filtered (stats w') = filtered (stats w)
              else
                out w' = out w
                /\ uselessReads (stats w') = uselessReads (stats w)
                /\ filtered (stats w') = filtered (stats w) + 2.
Proof.
  intros Ht Hr H0 H1 Hid. split; [apply useful_iff|].
  rewrite buffer_pair_empty_batch by assumption.
  rewrite <- negb_orb.
  destruct (useful c p.1 || useful c p.2); cbn [negb].
  - eexists. split; [reflexivity|]. simpl. rewrite Ht. simpl.
    repeat split.
    + rewrite list_lookup_insert_ne by lia.
      apply list_lookup_insert_eq. lia.
    + apply list_lookup_insert_eq. rewrite length_insert. lia.
  - destruct (unmapped_pass' c p.1 p.2).
    + destruct p as [r0 r1].
      destruct (c_readWriter c); (eexists; split; [reflexivity|]); simpl;
        rewrite ?app_nil_r; repeat split; exact Ht.
    + eexists. split; [reflexivity|]. simpl. repeat split; exact Ht.
Qed.

(** C7: in the path with an index the identifier check is applied to
    [reads[0]] and [reads[1]], the first pair of the batch.  Once a pair
    with matching identifiers has been admitted, a later pair whose
    identifiers do not match is admitted as well: no message, no exit.  The
    path without an index checks the pair itself and exits with code 1. *)
Theorem later_pair_ids_unchecked (c : Context) (p0 p1 : Read * Read)
  (h : Heap) (s : Stats) :
  2 <= c_maxBarcodeSize c ->
  c_ignoreMismatchedIDs c = false ->
  readIdsMatch p0.1 p0.2 = true ->
  readIdsMatch p1.1 p1.2 = false ->
  useful c p0.1 || useful c p0.2 = true ->
  (exists w',
      buffer_reads' c [p0; p1] (allocate' c h [] s) = Done w'
      /\ totalPairsForBarcode w' = 2
      /\ cells (reads w') !! 2%nat = Some (Some p1.1)
      /\ cells (reads w') !! 3%nat = Some (Some p1.2)
      /\ out w' = [])
  /\ exists o,
      fast_path' c [p0; p1] [] s
      = Exited 1 (o ++ [WriteErrorMessage (unmatched_message p1.1 p1.2)]).
Proof.
  intros HN Hig H0 H1 Hu. split.
  - rewrite buffer_two_pairs by auto.
    destruct (allocate_fields c h [] s) as (Hr & Hu0 & Hu1 & Ht & Ho & _).
    eexists. split; [reflexivity|]. simpl. rewrite Ht, Ho, Hr. simpl.
    repeat split.
    + rewrite list_lookup_insert_ne by lia.
      apply list_lookup_insert_eq.
      rewrite !length_insert, length_replicate. lia.
    + apply list_lookup_insert_eq.
      rewrite !length_insert, length_replicate. lia.
  - destruct p0 as [a0 b0], p1 as [a1 b1]. simpl in *.
    rewrite Hig, H0, H1. simpl.
    destruct (fast_pass' c a0 b0); [destruct (c_readWriter c)|]; simpl;
      first [ exists []; reflexivity | eexists [_]; reflexivity ].
Qed.

(** C9: the flags [useful0[i]], [useful1[i]] of a pair admitted after the
    first are those of the first pair of the batch, so a pair without a
    useful read is admitted next to one that has a useful read; and nothing
    stops the loop at [maxBarcodeSize]: the pair after the last slot is
    stored past the end of [reads]. *)
Theorem batch_invariant_not_kept (c : Context) (p0 p1 : Read * Read)
  (h : Heap) (s : Stats) :
  c_ignoreMismatchedIDs c = true \/ readIdsMatch p0.1 p0.2 = true ->
  useful c p0.1 || useful c p0.2 = true ->
  (2 <= c_maxBarcodeSize c ->
   useful c p1.1 = false ->
   useful c p1.2 = false ->
   exists w',
     buffer_reads' c [p0; p1] (allocate' c h [] s) = Done w'
     /\ totalPairsForBarcode w' = 2
     /\ cells (reads w') !! 2%nat = Some (Some p1.1)
     /\ cells (reads w') !! 3%nat = Some (Some p1.2)
     /\ cells (useful0 w') !! 1%nat = Some (Some (useful c p0.1))
     /\ cells (useful1 w') !! 1%nat = Some (Some (useful c p0.2)))
  /\ (c_maxBarcodeSize c = 1 ->
      buffer_reads' c [p0; p1] (allocate' c h [] s) = Fault "reads").
Proof.
  intros Hid Hu. split.
  - intros HN _ _. rewrite buffer_two_pairs by auto.
    destruct (allocate_fields c h [] s) as (Hr & Hu0 & Hu1 & Ht & Ho & _).
    eexists. split; [reflexivity|]. simpl. rewrite Ht, Hr, Hu0, Hu1. simpl.
    repeat split.
    + rewrite list_lookup_insert_ne by lia.
      apply list_lookup_insert_eq.
      rewrite !length_insert, length_replicate. lia.
    + apply list_lookup_insert_eq.
      rewrite !length_insert, length_replicate. lia.
    + apply list_lookup_insert_eq.
      rewrite !length_insert, length_replicate. lia.
    + apply list_lookup_insert_eq.
      rewrite !length_insert, length_replicate. lia.
  - intros HN. apply buffer_two_pairs_overflow; assumption.
Qed.

(** C10: every call of the writer made by the path without an index and by
    the buffering loop hands over exactly one paired result with both
    statuses [NotFound] and both locations invalid, no single-end results
    (a NULL array and the counts 0 and 0), and [firstIsPrimary] true. *)
Theorem unmapped_pairs_are_written_alike (c : Context)
  (supply : list (Read * Read)) (h : Heap) (s : Stats) :
  Forall (unmapped_call InvalidGenomeLocation)
    (written fst (fast_path' c supply [] s))
  /\ Forall (unmapped_call InvalidGenomeLocation)
       (written out (buffer_reads' c supply (allocate' c h [] s))).
Proof.
  split.
  - apply fast_path_written. constructor.
  - apply buffer_reads_written.
    destruct (allocate_fields c h [] s) as (_ & _ & _ & _ & Ho & _).
    rewrite Ho. constructor.
Qed.

(** *** The spacing policy inside the output loop *)

(** The filter loop looks at the context for the filter flags only, and at
    the worker for the counts, the reads and the usefulness flags only. *)
Lemma filter_paired_same (c c' : Context) (w w' : Wk) (pairIdx : Z) :
  c_filterFlags c' = c_filterFlags c ->
  cells (nSecondaryResults w') = cells (nSecondaryResults w) ->
  cells (reads w') = cells (reads w) ->
  cells (useful0 w') = cells (useful0 w) ->
  cells (useful1 w') = cells (useful1 w) ->
  forall (fuel : nat) (recs : list PairedAlignmentResult) (off : Z)
         (firstIsPrimary : bool) (i : Z),
    filter_paired FilterBothMatesMatch passFilter fuel c' w' pairIdx recs off
      firstIsPrimary i
    = filter_paired FilterBothMatesMatch passFilter fuel c w pairIdx recs off
        firstIsPrimary i.
Proof.
  intros Hc Hn Hr H0 H1. induction fuel as [|fuel IH]; intros recs off fip i;
    [reflexivity|].
  cbn [filter_paired]. rewrite Hn, Hr, H0, H1.
  unfold paired_pass, pairPass. rewrite Hc.
  destruct (rd "nSecondaryResults" _ _) as [n| | |]; try reflexivity.
  rewrite !bind_Done. destruct (i <=? n); [|reflexivity].
  destruct (rd "reads" _ (2 * pairIdx)) as [r0| | |]; try reflexivity.
  rewrite !bind_Done.
  destruct (rec_at _ recs i) as [r| | |]; try reflexivity.
  rewrite !bind_Done.
  destruct (rd "useful0" _ _) as [u0| | |]; try reflexivity.
  rewrite !bind_Done.
  destruct (rd "reads" _ (2 * pairIdx + 1)) as [r1| | |]; try reflexivity.
  rewrite !bind_Done.
  destruct (rd "useful1" _ _) as [u1| | |]; try reflexivity.
  rewrite !bind_Done. cbv zeta.
  destruct (negb _).
  - destruct (rec_at _ recs n) as [last| | |]; try reflexivity.
    rewrite !bind_Done. apply IH.
  - apply IH.
Qed.

(** Once [firstIsPrimary] is cleared it stays cleared. *)
Lemma filter_paired_not_primary (c : Context) (w : Wk) (pairIdx : Z)
  (fuel : nat) :
  forall (recs recs' : list PairedAlignmentResult) (off off' i : Z)
         (fip' : bool),
    filter_paired FilterBothMatesMatch passFilter fuel c w pairIdx recs off
      false i = Done (recs', off', fip') ->
    fip' = false.
Proof.
  induction fuel as [|fuel IH]; intros recs recs' off off' i fip' H;
    [discriminate|].
  cbn [filter_paired] in H. apply bind_Done_inv in H as (n & _ & H).
  destruct (i <=? n); [|injection H as _ _ <-; reflexivity].
  apply bind_Done_inv in H as (r0 & _ & H).
  apply bind_Done_inv in H as (r & _ & H).
  apply bind_Done_inv in H as (u0 & _ & H).
  apply bind_Done_inv in H as (r1 & _ & H).
  apply bind_Done_inv in H as (u1 & _ & H). cbv zeta in H.
  destruct (negb _).
  - apply bind_Done_inv in H as (last & _ & H).
    destruct (i =? 0); apply IH in H; exact H.
  - apply IH in H. exact H.
Qed.

(** Behind the primary the loop leaves the primary alone. *)
Lemma filter_paired_behind_primary (c : Context) (w : Wk) (pairIdx : Z)
  (fuel : nat) :
  forall (recs recs' : list PairedAlignmentResult) (off off' i : Z)
         (fip fip' : bool),
    1 <= i ->
    filter_paired FilterBothMatesMatch passFilter fuel c w pairIdx recs off
      fip i = Done (recs', off', fip') ->
    recs' !! 0%nat = recs !! 0%nat.
Proof.
  induction fuel as [|fuel IH]; intros recs recs' off off' i fip fip' Hi H;
    [discriminate|].
  cbn [filter_paired] in H. apply bind_Done_inv in H as (n & _ & H).
  destruct (i <=? n); [|injection H as <- _ _; reflexivity].
  apply bind_Done_inv in H as (r0 & _ & H).
  apply bind_Done_inv in H as (r & _ & H).
  apply bind_Done_inv in H as (u0 & _ & H).
  apply bind_Done_inv in H as (r1 & _ & H).
  apply bind_Done_inv in H as (u1 & _ & H). cbv zeta in H.
  destruct (negb _).
  - apply bind_Done_inv in H as (last & _ & H).
    apply IH in H; [|lia]. rewrite H.
    apply list_lookup_insert_ne. lia.
  - apply IH in H; [exact H|lia].
Qed.

(** A primary result that is still the primary after the loop is the one
    the loop started with. *)
Lemma filter_paired_keeps_primary (c : Context) (w : Wk) (pairIdx : Z)
  (fuel : nat) (recs recs' : list PairedAlignmentResult) (off off' : Z) :
  filter_paired FilterBothMatesMatch passFilter fuel c w pairIdx recs off
    true 0 = Done (recs', off', true) ->
  recs' !! 0%nat = recs !! 0%nat.
Proof.
  destruct fuel as [|fuel]; [discriminate|]. intros H.
  cbn [filter_paired] in H. apply bind_Done_inv in H as (n & _ & H).
  destruct (0 <=? n); [|injection H as <- _; reflexivity].
  apply bind_Done_inv in H as (r0 & _ & H).
  apply bind_Done_inv in H as (r & _ & H).
  apply bind_Done_inv in H as (u0 & _ & H).
  apply bind_Done_inv in H as (r1 & _ & H).
  apply bind_Done_inv in H as (u1 & _ & H). cbv zeta in H.
  destruct (negb _).
  - apply bind_Done_inv in H as (last & _ & H).
    change (0 =? 0) with true in H. cbv iota in H.
    apply filter_paired_not_primary in H. discriminate.
  - apply filter_paired_behind_primary in H; [exact H|lia].
Qed.

Lemma apply_forceSpacing_spaced (c : Context) (r : PairedAlignmentResult)
  (rest : list PairedAlignmentResult) :
  apply_forceSpacing InvalidGenomeLocation c (r :: rest)
  = Done (spaced InvalidGenomeLocation c r :: rest).
Proof.
  unfold apply_forceSpacing, spaced. destruct (c_forceSpacing c); [|reflexivity].
  destruct r as [[s0 s1] l d sc m cl f a].
  destruct s0, s1; reflexivity.
Qed.

(** The call of the writer in the body of the output loop, and what the body
    leaves of the buffers of the other pairs. *)
Lemma emit_pair_event (fuel : nat) (c : Context) (w w' : Wk) (pairIdx : Z) :
  emit_pair InvalidGenomeLocation FilterBothMatesMatch passFilter fuel c w
    pairIdx = Done w' ->
  c_readWriter c = true ->
  exists rs recs n singles nSingle firstIsPrimary,
    out w' = out w ++ [writePairs rs recs n singles nSingle firstIsPrimary]
    /\ (forall buf r rest,
          rd "results" (cells (results w)) pairIdx = Done buf ->
          b_recs buf = r :: rest ->
          firstIsPrimary = true ->
          recs !! 0%nat = Some (spaced InvalidGenomeLocation c r))
    /\ (forall i, i <> pairIdx ->
          rd "results" (cells (results w')) i
          = rd "results" (cells (results w)) i).
Proof.
  intros H Hwriter. unfold emit_pair in H.
  apply bind_Done_inv in H as (buf0 & Hbuf0 & H).
  apply bind_Done_inv in H as (recs1 & Hfs & H).
  apply bind_Done_inv in H as ([[recs2 off] fip] & Hfp & H).
  apply bind_Done_inv in H as (rs & Hwr & H). cbv zeta in H.
  apply bind_Done_inv in H as (sbuf & _ & H).
  apply bind_Done_inv in H as (base1 & _ & H).
  apply bind_Done_inv in H as ([srecs1 n0] & _ & H).
  apply bind_Done_inv in H as (n1 & _ & H).
  apply bind_Done_inv in H as ([srecs2 n1'] & _ & H).
  apply bind_Done_inv in H as (ns1 & _ & H).
  apply bind_Done_inv in H as (ns2 & _ & H).
  apply bind_Done_inv in H as (ss & _ & H).
  apply bind_Done_inv in H as (n & _ & H).
  apply bind_Done_inv in H as (w3 & Hw3 & H).
  rewrite Hwriter in Hw3.
  apply bind_Done_inv in Hw3 as (r0 & _ & Hw3).
  apply bind_Done_inv in Hw3 as (r1 & _ & Hw3).
  injection Hw3 as <-.
  apply wr_Done in Hwr as [Hidx ->].
  assert (Hw' : out w'
                = out w ++ [writePairs (r0, r1) recs2 (n + 1)
                              (Some (srecs2, base1)) (n0, n1') fip]
                /\ cells (results w')
                   = <[Z.to_nat pairIdx :=
                         Some (mkBuf (b_blk buf0) (b_nbytes buf0) recs2)]>
                       (cells (results w))).
  { destruct fip.
    - apply bind_Done_inv in H as (primary & _ & H).
      apply bind_Done_inv in H as (u0 & _ & H).
      apply bind_Done_inv in H as (u1 & _ & H).
      injection H as <-. split; reflexivity.
    - injection H as <-. split; reflexivity. }
  destruct Hw' as [Hout Hres].
  exists (r0, r1), recs2, (n + 1), (Some (srecs2, base1)), (n0, n1'), fip.
  split; [exact Hout|]. split.
  - intros buf r rest Hbuf Hrecs ->.
    rewrite Hbuf in Hbuf0. injection Hbuf0 as <-.
    rewrite Hrecs, apply_forceSpacing_spaced in Hfs. injection Hfs as <-.
    apply filter_paired_keeps_primary in Hfp. exact Hfp.
  - intros i Hi. rewrite Hres. unfold rd.
    destruct (i <? 0) eqn:E; [reflexivity|]. apply Z.ltb_ge in E.
    rewrite list_lookup_insert_ne by lia. reflexivity.
Qed.

(** The output loop over distinct pairs: one call of the writer for each,
    in order, and a result handed over as the primary is the policy's
    result on the primary the pair had when the loop began. *)
Lemma for_each_emit_pair_spaced (fuel : nat) (c : Context) (idxs : list Z) :
  NoDup idxs ->
  c_readWriter c = true ->
  forall w w' : Wk,
    for_each (emit_pair InvalidGenomeLocation FilterBothMatesMatch passFilter
                fuel c) idxs w = Done w' ->
    exists events,
      out w' = out w ++ events
      /\ Forall2
           (fun i e =>
              exists rs recs n singles nSingle firstIsPrimary,
                e = writePairs rs recs n singles nSingle firstIsPrimary
                /\ forall buf r rest,
                     rd "results" (cells (results w)) i = Done buf ->
                     b_recs buf = r :: rest ->
                     firstIsPrimary = true ->
                     recs !! 0%nat
                     = Some (spaced InvalidGenomeLocation c r))
           idxs events
      /\ (forall i, i ∉ idxs ->
            rd "results" (cells (results w')) i
            = rd "results" (cells (results w)) i).
Proof.
  intros Hnd Hwriter. induction idxs as [|j rest IH]; intros w w' H.
  - injection H as <-. exists []. rewrite app_nil_r.
    split; [reflexivity|]. split; [constructor|]. reflexivity.
  - apply NoDup_cons in Hnd as [Hj Hnd].
    cbn [for_each] in H. apply bind_Done_inv in H as (w1 & E1 & H).
    destruct (emit_pair_event fuel c w w1 j E1 Hwriter)
      as (rs & recs & n & singles & nSingle & fip & Hout1 & Hprim & Hother).
    destruct (IH Hnd w1 w' H) as (events & Hout & Hall & Hrest).
    exists (writePairs rs recs n singles nSingle fip :: events).
    split; [rewrite Hout, Hout1, <- app_assoc; reflexivity|]. split.
    + constructor.
      * exists rs, recs, n, singles, nSingle, fip. split; [reflexivity|].
        exact Hprim.
      * clear -Hall Hother Hj.
        induction Hall
          as [|i e more es (rs & recs & n & si & ns & fip & -> & Hp) Hall IHall];
          constructor.
        -- exists rs, recs, n, si, ns, fip. split; [reflexivity|].
           intros buf r rest Hbuf. apply Hp. rewrite Hother; [exact Hbuf|].
           intros ->. apply Hj. left.
        -- apply IHall. intros Hin. apply Hj. right. exact Hin.
    + intros i Hi. apply not_elem_of_cons in Hi as [Hij Hi].
      rewrite (Hrest i Hi). apply Hother. exact Hij.
Qed.

(** C6: the spacing policy on the primary result of every pair.  The body
    of the output loop, run for any pair whose buffer holds a primary
    result, does what it does with [forceSpacing] off on the state in which
    that primary has been replaced by the policy's result: the policy is
    applied once, to the primary, before the filter, the writer and the
    statistics see the pair.  The policy demotes the primary (both statuses
    [NotFound], both locations invalid) when [forceSpacing] is on and
    exactly one mate is a [SingleHit], and leaves it as it is otherwise.
    In the body, and in a run of the whole output loop for every pair of the
    batch, a result that reaches the writer as the primary is the policy's
    result on the primary the pair had after stage 3. *)
Theorem forceSpacing_policy (c : Context) (r : PairedAlignmentResult)
  (rest : list PairedAlignmentResult) :
  (apply_forceSpacing InvalidGenomeLocation c (r :: rest)
   = Done ((if c_forceSpacing c
               && xorb (isOneLocation (fst (status r)))
                       (isOneLocation (snd (status r)))
            then demote InvalidGenomeLocation r else r) :: rest)
   /\ status (demote InvalidGenomeLocation r) = (NotFound, NotFound)
   /\ location (demote InvalidGenomeLocation r)
      = (InvalidGenomeLocation, InvalidGenomeLocation)
   /\ (forall st, isOneLocation st = true <-> st = SingleHit))
  /\ (forall (fuel : nat) (w : Wk) (pairIdx : Z)
             (buf : Buf PairedAlignmentResult),
        rd "results" (cells (results w)) pairIdx = Done buf ->
        b_recs buf = r :: rest ->
        emit_pair InvalidGenomeLocation FilterBothMatesMatch passFilter fuel
          c w pairIdx
        = emit_pair InvalidGenomeLocation FilterBothMatesMatch passFilter
            fuel (without_forceSpacing c)
            (with_results w pairIdx buf
               (spaced InvalidGenomeLocation c r :: rest))
            pairIdx)
  /\ (forall (fuel : nat) (w w' : Wk) (pairIdx : Z)
             (buf : Buf PairedAlignmentResult),
        rd "results" (cells (results w)) pairIdx = Done buf ->
        b_recs buf = r :: rest ->
        emit_pair InvalidGenomeLocation FilterBothMatesMatch passFilter fuel
          c w pairIdx = Done w' ->
        c_readWriter c = true ->
        exists rs recs n singles nSingle firstIsPrimary,
          out w'
          = out w ++ [writePairs rs recs n singles nSingle firstIsPrimary]
          /\ (firstIsPrimary = true ->
              recs !! 0%nat = Some (spaced InvalidGenomeLocation c r)))
  /\ (forall (fuel : nat) (w w' : Wk),
        emit_all InvalidGenomeLocation FilterBothMatesMatch passFilter fuel
          c w = Done w' ->
        c_readWriter c = true ->
        exists events,
          out w' = out w ++ events
          /\ Forall2
               (fun pairIdx e =>
                  exists rs recs n singles nSingle firstIsPrimary,
                    e = writePairs rs recs n singles nSingle firstIsPrimary
                    /\ forall buf primary others,
                         rd "results" (cells (results w)) pairIdx = Done buf ->
                         b_recs buf = primary :: others ->
                         firstIsPrimary = true ->
                         recs !! 0%nat
                         = Some (spaced InvalidGenomeLocation c primary))
               (upto (totalPairsForBarcode w)) events).
Proof.
  split; [|split; [|split]].
  - split; [|split; [reflexivity|split; [reflexivity|]]].
    + apply apply_forceSpacing_spaced.
    + apply isOneLocation_SingleHit.
  - intros fuel w pairIdx buf Hbuf Hrecs.
    apply rd_Done in Hbuf as Hbuf'. destruct Hbuf' as [Hidx Hcell].
    apply lookup_lt_Some in Hcell as Hlen.
    assert (Hbuf2 : rd "results"
                      (cells (results
                         (with_results w pairIdx buf
                            (spaced InvalidGenomeLocation c r :: rest))))
                      pairIdx
                    = Done (mkBuf (b_blk buf) (b_nbytes buf)
                              (spaced InvalidGenomeLocation c r :: rest))).
    { apply rd_ok; [exact Hidx|]. unfold with_results. cbn [set_results results cells].
      apply list_lookup_insert_eq. exact Hlen. }
    unfold emit_pair. rewrite Hbuf, Hbuf2, !bind_Done. rewrite Hrecs.
    cbn [b_recs b_blk b_nbytes].
    rewrite apply_forceSpacing_spaced, bind_Done.
    assert (Hoff : apply_forceSpacing InvalidGenomeLocation
                     (without_forceSpacing c)
                     (spaced InvalidGenomeLocation c r :: rest)
                   = Done (spaced InvalidGenomeLocation c r :: rest))
      by reflexivity.
    rewrite Hoff, bind_Done.
    rewrite (filter_paired_same c (without_forceSpacing c) w
               (with_results w pairIdx buf
                  (spaced InvalidGenomeLocation c r :: rest)) pairIdx)
      by reflexivity.
    change (nSecondaryResults_off
              (with_results w pairIdx buf
                 (spaced InvalidGenomeLocation c r :: rest)))
      with (nSecondaryResults_off w).
    destruct (filter_paired _ _ _ _ _ _ _ _ _ _) as [[[recs2 off] fip]| | |];
      try reflexivity.
    rewrite !bind_Done. cbv beta iota.
    rewrite (wr_ok "results" (cells (results w))) by lia.
    rewrite (wr_ok "results"
               (cells (results
                  (with_results w pairIdx buf
                     (spaced InvalidGenomeLocation c r :: rest)))))
      by (unfold with_results; cbn [set_results results cells];
          rewrite length_insert; lia).
    rewrite !bind_Done.
    unfold with_results. cbn [set_results results cells blk].
    rewrite list_insert_insert_eq.
    reflexivity.
  - intros fuel w w' pairIdx buf Hbuf Hrecs H Hwriter.
    unfold emit_pair in H. rewrite Hbuf, bind_Done, Hrecs in H.
    rewrite apply_forceSpacing_spaced, bind_Done in H.
    apply bind_Done_inv in H as ([[recs2 off] fip] & Hfp & H).
    apply bind_Done_inv in H as (rs & _ & H). cbv zeta in H.
    apply bind_Done_inv in H as (sbuf & _ & H).
    apply bind_Done_inv in H as (base1 & _ & H).
    apply bind_Done_inv in H as ([srecs1 n0] & _ & H).
    apply bind_Done_inv in H as (n1 & _ & H).
    apply bind_Done_inv in H as ([srecs2 n1'] & _ & H).
    apply bind_Done_inv in H as (ns1 & _ & H).
    apply bind_Done_inv in H as (ns2 & _ & H).
    apply bind_Done_inv in H as (ss & _ & H).
    apply bind_Done_inv in H as (n & _ & H).
    apply bind_Done_inv in H as (w3 & Hw3 & H).
    rewrite Hwriter in Hw3.
    apply bind_Done_inv in Hw3 as (r0 & _ & Hw3).
    apply bind_Done_inv in Hw3 as (r1 & _ & Hw3).
    injection Hw3 as <-.
    exists (r0, r1), recs2, (n + 1), (Some (srecs2, base1)), (n0, n1'), fip.
    split.
    + destruct fip.
      * apply bind_Done_inv in H as (primary & _ & H).
        apply bind_Done_inv in H as (u0 & _ & H).
        apply bind_Done_inv in H as (u1 & _ & H).
        injection H as <-. reflexivity.
      * injection H as <-. reflexivity.
    + intros ->. apply filter_paired_keeps_primary in Hfp. exact Hfp.
  - intros fuel w w' H Hwriter. unfold emit_all in H.
    destruct (for_each_emit_pair_spaced fuel c _ (NoDup_seqZ _ _) Hwriter
                w w' H) as (events & Hout & Hall & _).
    exists events. split; [exact Hout|exact Hall].
Qed.

End ThreadFacts.

(** ** The filter policy, from the command line to the three decisions *)

Section FilterPolicy.

Variable InvalidGenomeLocation : Z.
Variable FilterBothMatesMatch : Z.
Variable DEFAULT_INTERSECTING_ALIGNER_MAX_HITS : Z.
Variable DEFAULT_MAX_CANDIDATE_POOL_SIZE : Z.
Variable AlignerOptions_parse :
  TenXAlignerOptions -> list string -> Z -> option Parsed.
Variable passFilter : Read -> AlignmentResult -> bool -> bool -> bool.
Variable indeterminate : PairedAlignmentResult.


End FilterPolicy.

(** ** Runs on concrete inputs *)

(** C1: a barcode of two pairs, read filter "aligned only".  The primary of
    pair 1 fails the filter and its one secondary survives.  The array of
    secondary counts is as it was ([1; 1]); the pointer to it has moved back
    by one element; the writer is handed pair 1 with a count of 2, the
    surviving record twice; and the clean-up frees a pointer [BigAlloc]
    never returned.  Without secondary alignments, when pair 1 is simply
    not aligned, the loop test ends up reading in front of the array. *)
Theorem filtered_record_moves_count_pointer :
  (exists w' e0,
      emit_all (-1) 8 filter_aligned 10 emission_context after_stage3 = Done w'
      /\ cells (nSecondaryResults w') = [Some 1; Some 1]
      /\ nSecondaryResults_off w' = -1
      /\ out w'
         = [e0;
            writePairs (read_abc_1, read_abc_2)
              [aligned SingleHit SingleHit 2000 2300;
               aligned SingleHit SingleHit 2000 2300]
              2 (Some ([], 0)) (0, 0) false]
      /\ cleanup emission_context w' = Fault "BigDealloc(nSecondaryResults)")
  /\ emit_all (-1) 8 filter_aligned 10 (context_with 0 true false 2)
       after_stage3_plain
     = Fault "nSecondaryResults".
Proof.
  split.
  - eexists. eexists. split; [vm_compute; reflexivity|].
    vm_compute. repeat split.
  - vm_compute. reflexivity.
Qed.

(** ** The statements above at concrete inputs *)

Example atoi_5000 : atoi "5000" = 5000.
Proof. reflexivity. Qed.

Example atoi_signed : atoi "  -12x" = -12.
Proof. reflexivity. Qed.

(** Without an index a pair that passes the filter is written as one
    unmapped result. *)
Example fast_path_writes_unmapped :
  fast_path (-1) 8 filter_off ids_match_by_stem (context_with 0 true false 2)
    [(read_abc_1, read_abc_2)] [] stats0
  = Done ([writePairs (read_abc_1, read_abc_2) [fast_result (-1)] 1 None
             (0, 0) true],
          mkStats 2 0 0 1 0 0 0 0 0).
Proof. reflexivity. Qed.

(** With an index a pair of two short reads is written as unmapped by the
    buffering loop; what the automatic result held in its other members goes
    out with it. *)
Example buffering_writes_unmapped :
  written out
    (buffer_reads (-1) 8 filter_off ids_match_by_stem stack_garbage
       (context_with 0 true false 2) [(read_short_1, read_short_2)]
       (fresh_worker (context_with 0 true false 2)))
  = [writePairs (read_short_1, read_short_2)
       [mkPaired (NotFound, NotFound) (-1, -1) (1, 0) (3, 5) (60, 2) (0, 0)
          true true]
       1 None (0, 0) true].
Proof. reflexivity. Qed.

(** [forceSpacing] on, one mate placed uniquely and the other not at all. *)
Example forceSpacing_demotes :
  apply_forceSpacing (-1) (context_with 0 true true 2)
    [aligned SingleHit NotFound 1000 (-1)]
  = Done [aligned NotFound NotFound (-1) (-1)].
Proof. reflexivity. Qed.

(** Pair 0 has 200 candidates, pair 1 has 20, both start with room for 32:
    the stage is run four times and pair 0 ends with room for 256. *)
Example retry_until_it_fits :
  exists w',
    retry_loop (stage_needing [200; 20]) (grow_paired 120) 4 after_stage3
    = Done w'
    /\ cells (maxPairedSecondaryHits w') = [Some 256; Some 32]
    /\ cells (results w') !! 1%nat = cells (results after_stage3) !! 1%nat
    /\ retry_loop (stage_needing [200; 20]) (grow_paired 120) 3 after_stage3
       = OutOfFuel.
Proof. eexists. split; [vm_compute; reflexivity|]. repeat split. Qed.

(** The byte count of a resized buffer is computed in [size_t]: from a
    capacity of 2^60 and records of 80 bytes the request is for 80 bytes. *)
Example resized_byte_count_wraps :
  exists w',
    grow_paired 80
      (set_maxPairedSecondaryHits (mkArr 10%nat [Some (2 ^ 60); Some 32])
         overflowed) 0 = Done w'
    /\ cells (maxPairedSecondaryHits w') !! 0%nat = Some (Some (2 ^ 61))
    /\ cells (results w') !! 0%nat = Some (Some (mkBuf 16%nat 80 [])).
Proof. eexists. split; [vm_compute; reflexivity|]. split; reflexivity. Qed.

(** [atoi] gives an [int]: digits beyond the range of [int] are not kept. *)
Example atoi_out_of_range :
  atoi "4294967297" = 1 /\ atoi "2147483648" = - 2 ^ 31.
Proof. split; reflexivity. Qed.

(** The whole thread on a barcode of one aligned pair: the pair is written
    and everything but the tracker array is released. *)
Example thread_runs_to_the_end :
  exists r,
    runIterationThread (-1) 8 8 120 40 filter_off ids_match_by_stem
      stack_garbage (fun _ => tt) first_stage_idle
      (fun w =>
         (mkWorker (heap w) (allocator w) (supplier w) (out w) (stats w)
            (aligner w) (tenXSingleTrackerArray w) (reads w)
            (mkArr (blk (results w))
               [Some (mkBuf 4%nat 8 [aligned SingleHit SingleHit 1000 1300])])
            (singleSecondaryResults w) (mkArr (blk (nSecondaryResults w)) [Some 0])
            (nSecondaryResults_off w)
            (mkArr (blk (nSingleSecondaryResults w)) [Some 0; Some 0])
            (maxPairedSecondaryHits w) (maxSingleSecondaryHits w)
            (popularSeedsSkipped w)
            (mkArr (blk (pairNotFinished w)) [Some false])
            (useful0 w) (useful1 w) (totalPairsForBarcode w),
          true))
      stage_done 10 (context_with 0 true false 1)
      (mkInput (Some [(read_abc_1, read_abc_2)]) false true)
      empty_heap stats0 = Done r
    /\ ret_out r
       = [writePairs (read_abc_1, read_abc_2)
            [aligned SingleHit SingleHit 1000 1300] 1 (Some ([], 0)) (0, 0)
            true]
    /\ ret_allocator r = false
    /\ ret_supplier r = false
    /\ heap_live (ret_heap r) = [0%nat].
Proof. eexists. split; [vm_compute; reflexivity|]. repeat split. Qed.

(** [-maxClusterSpan 5000] on the default options: [minPairsPerCluster]
    becomes 5000, [maxClusterSpan] stays 100000. *)
Lemma maxClusterSpan_option_run :
  arg ["-maxClusterSpan"; "5000"]%string 0 = Some "-maxClusterSpan"%string
  /\ arg ["-maxClusterSpan"; "5000"]%string (0 + 1) = Some "5000"%string
  /\ exists p,
      parse 8 (fun _ _ _ => None) (TenXAlignerOptions_new 300 1000000)
        ["-maxClusterSpan"; "5000"]%string 0 = Some p
      /\ p_ok p = true
      /\ p_n p = 1
      /\ minPairsPerCluster (p_options p) = 5000
      /\ maxClusterSpan (p_options p) = 100000.
Proof.
  split; [reflexivity|]. split; [reflexivity|].
  exact (maxClusterSpan_option_sets_minPairsPerCluster 8 (fun _ _ _ => None)
           (TenXAlignerOptions_new 300 1000000)
           ["-maxClusterSpan"; "5000"]%string 0 "5000"%string
           eq_refl eq_refl).
Defined.

(** Stage 1 finds an empty batch finished: the thread returns with the
    allocator, the supplier and all sixteen blocks of a barcode of size 2. *)
Lemma stage1_finished_run :
  buffer_reads (-1) 8 filter_off ids_match_by_stem stack_garbage
    (context_with 0 true false 2) [] (fresh_worker (context_with 0 true false 2))
  = Done (fresh_worker (context_with 0 true false 2))
  /\ (first_stage_idle (fresh_worker (context_with 0 true false 2))).2 = true
  /\ exists r,
      runIterationThread (-1) 8 8 120 40 filter_off ids_match_by_stem
        stack_garbage (fun _ => tt) first_stage_idle stage_done stage_done
        10 (context_with 0 true false 2) (mkInput (Some []) false true)
        empty_heap stats0 = Done r
      /\ ret_allocator r = true
      /\ ret_supplier r = true
      /\ length (heap_live (ret_heap r)) = 16%nat
      /\ ret_out r = [].
Proof.
  split; [reflexivity|]. split; [reflexivity|].
  destruct (stage1_finished_returns_early (-1) 8 8 120 40 filter_off
              ids_match_by_stem stack_garbage (fun _ => tt) first_stage_idle
              stage_done stage_done 10 (context_with 0 true false 2) []
              empty_heap stats0 (fresh_worker (context_with 0 true false 2))
              eq_refl eq_refl)
    as (r & E & Ha & Hs & _ & Hl & Ho & _).
  exists r. repeat split; assumption.
Defined.


(** [forceSpacing] on, pair 0 with one mate placed once and the other not:
    the output loop hands the writer the demoted primary. *)
Lemma forceSpacing_policy_run :
  exists w',
    emit_pair (-1) 8 filter_off 3 (context_with 0 true true 2)
      one_mate_placed 0 = Done w'
    /\ spaced (-1) (context_with 0 true true 2)
         (aligned SingleHit NotFound 1000 (-1))
       = aligned NotFound NotFound (-1) (-1)
    /\ out w'
       = [writePairs (read_abc_1, read_abc_2)
            [aligned NotFound NotFound (-1) (-1)] 1 (Some ([], 0)) (0, 0)
            true]
    /\ exists rs recs n singles nSingle firstIsPrimary,
         out w'
         = out one_mate_placed
           ++ [writePairs rs recs n singles nSingle firstIsPrimary]
         /\ (firstIsPrimary = true ->
             recs !! 0%nat
             = Some (spaced (-1) (context_with 0 true true 2)
                       (aligned SingleHit NotFound 1000 (-1)))).
Proof.
  eassert (E : emit_pair (-1) 8 filter_off 3 (context_with 0 true true 2)
                 one_mate_placed 0 = Done _) by (vm_compute; reflexivity).
  destruct (forceSpacing_policy (TenXClusterAligner := unit) (-1) 8
              filter_off (context_with 0 true true 2)
              (aligned SingleHit NotFound 1000 (-1)) [])
    as (_ & _ & Hevent & _).
  eexists. split; [exact E|]. split; [reflexivity|]. split; [reflexivity|].
  exact (Hevent 3%nat one_mate_placed _ 0
           (mkBuf 4%nat 8 [aligned SingleHit NotFound 1000 (-1)])
           eq_refl eq_refl E eq_refl).
Defined.

(** A pair of two short reads arrives first; the filter lets it through.  It
    is written as unmapped and stays out of the batch. *)
Lemma empty_batch_pair_run :
  totalPairsForBarcode (fresh_worker (context_with 0 true false 2)) = 0
  /\ exists w',
      buffer_pair (-1) 8 filter_off ids_match_by_stem stack_garbage
        (context_with 0 true false 2)
        (fresh_worker (context_with 0 true false 2))
        (read_short_1, read_short_2) = Done w'
      /\ totalPairsForBarcode w' = 0
      /\ uselessReads (stats w') = 2.
Proof.
  split; [reflexivity|].
  destruct (empty_batch_pair_usefulness (-1) 8 filter_off ids_match_by_stem
              stack_garbage (context_with 0 true false 2)
              (fresh_worker (context_with 0 true false 2))
              (read_short_1, read_short_2))
    as (_ & w' & E & H).
  - reflexivity.
  - vm_compute. lia.
  - vm_compute. lia.
  - vm_compute. lia.
  - left. reflexivity.
  - exists w'. split; [exact E|].
    vm_compute in E. inversion E. split; reflexivity.
Defined.

(** C5, as the design document words it, at a pair of two short reads and
    the read filter "aligned only": the pair has no useful read, nothing is
    written for it, and its reads are counted in [filtered], not in
    [uselessReads]. *)
Lemma useless_pair_filtered_out :
  useful (context_with 0 true false 2) read_short_1 = false
  /\ useful (context_with 0 true false 2) read_short_2 = false
  /\ (exists w',
        buffer_pair (-1) 8 filter_aligned ids_match_by_stem stack_garbage
          (context_with 0 true false 2)
          (fresh_worker (context_with 0 true false 2))
          (read_short_1, read_short_2) = Done w'
        /\ out w' = []
        /\ uselessReads (stats w') = 0
        /\ filtered (stats w') = 2)
  /\ ~ useless_pair_unmapped (-1) 8 filter_aligned ids_match_by_stem
         stack_garbage (context_with 0 true false 2)
         (fresh_worker (context_with 0 true false 2))
         (read_short_1, read_short_2).
Proof.
  split; [reflexivity|]. split; [reflexivity|]. split.
  - eexists. split; [vm_compute; reflexivity|]. repeat split.
  - intros H. destruct (H eq_refl eq_refl) as (w' & E & _ & (r & Ho & _) & _).
    vm_compute in E. inversion E; subst w'. simpl in Ho. discriminate Ho.
Qed.

(** [abc/1, abc/2] is admitted; [abc/1, xyz/2] follows and is admitted as
    well, although identifiers are to be compared. *)
Lemma later_pair_ids_run :
  2 <= c_maxBarcodeSize (context_with 0 false false 2)
  /\ ids_match_by_stem read_abc_1 read_abc_2 = true
  /\ ids_match_by_stem read_abc_1 read_xyz_2 = false
  /\ (exists w',
        buffer_reads (-1) 8 filter_off ids_match_by_stem stack_garbage
          (context_with 0 false false 2)
          [(read_abc_1, read_abc_2); (read_abc_1, read_xyz_2)]
          (fresh_worker (context_with 0 false false 2)) = Done w'
        /\ totalPairsForBarcode w' = 2
        /\ out w' = [])
  /\ exists o,
      fast_path (-1) 8 filter_off ids_match_by_stem
        (context_with 0 false false 2)
        [(read_abc_1, read_abc_2); (read_abc_1, read_xyz_2)] [] stats0
      = Exited 1
          (o ++ [WriteErrorMessage (unmatched_message read_abc_1 read_xyz_2)]).
Proof.
  split; [vm_compute; discriminate|]. split; [reflexivity|].
  split; [reflexivity|].
  destruct (later_pair_ids_unchecked (-1) 8 8 filter_off ids_match_by_stem
              stack_garbage (fun _ => tt) (context_with 0 false false 2)
              (read_abc_1, read_abc_2) (read_abc_1, read_xyz_2)
              empty_heap stats0)
    as ((w' & E & Ht & _ & _ & Ho) & Hfast).
  - vm_compute. discriminate.
  - reflexivity.
  - reflexivity.
  - reflexivity.
  - reflexivity.
  - split; [|exact Hfast]. exists w'. repeat split; assumption.
Defined.

(** With room for two pairs, two short reads are admitted behind
    [abc/1, abc/2] and flagged useful; with room for one pair, the second
    pair is stored past the end of [reads]. *)
Lemma batch_invariant_run :
  useful (context_with 0 true false 2) read_short_1 = false
  /\ useful (context_with 0 true false 2) read_short_2 = false
  /\ (exists w',
        buffer_reads (-1) 8 filter_off ids_match_by_stem stack_garbage
          (context_with 0 true false 2)
          [(read_abc_1, read_abc_2); (read_short_1, read_short_2)]
          (fresh_worker (context_with 0 true false 2)) = Done w'
        /\ totalPairsForBarcode w' = 2
        /\ cells (reads w') !! 2%nat = Some (Some read_short_1)
        /\ cells (reads w') !! 3%nat = Some (Some read_short_2)
        /\ cells (useful0 w') !! 1%nat = Some (Some true)
        /\ cells (useful1 w') !! 1%nat = Some (Some true))
  /\ buffer_reads (-1) 8 filter_off ids_match_by_stem stack_garbage
       (context_with 0 true false 1)
       [(read_abc_1, read_abc_2); (read_abc_1, read_abc_2)]
       (fresh_worker (context_with 0 true false 1)) = Fault "reads".
Proof.
  split; [reflexivity|]. split; [reflexivity|]. split.
  - destruct (batch_invariant_not_kept (-1) 8 8 filter_off ids_match_by_stem
                stack_garbage (fun _ => tt) (context_with 0 true false 2)
                (read_abc_1, read_abc_2) (read_short_1, read_short_2)
                empty_heap stats0 (or_introl eq_refl) eq_refl) as [H _].
    apply H; [vm_compute; discriminate | reflexivity | reflexivity].
  - destruct (batch_invariant_not_kept (-1) 8 8 filter_off ids_match_by_stem
                stack_garbage (fun _ => tt) (context_with 0 true false 1)
                (read_abc_1, read_abc_2) (read_abc_1, read_abc_2)
                empty_heap stats0 (or_introl eq_refl) eq_refl) as [_ H].
    apply H. reflexivity.
Defined.


(** ** The histograms *)

Lemma bump_ok (what : string) (a : list Z) (i k : Z) :
  0 <= i < Z.of_nat (length a) ->
  exists v,
    a !! Z.to_nat i = Some v
    /\ bump what a i k = Done (<[Z.to_nat i := v + k]> a).
Proof.
  intros [H1 H2]. unfold bump.
  apply Z.leb_le in H1 as E1. apply Z.ltb_lt in H2 as E2. rewrite E1, E2.
  destruct (lookup_lt_is_Some_2 a (Z.to_nat i)) as [v Hv]; [lia|].
  exists v. rewrite Hv. auto.
Qed.

Lemma total_app (a b : list Z) : total (a ++ b) = total a + total b.
Proof.
  unfold total. induction a as [|x a IH]; simpl; lia.
Qed.

Lemma total_insert (a : list Z) (i : nat) (v w : Z) :
  a !! i = Some v -> total (<[i := w]> a) = total a - v + w.
Proof.
  unfold total. revert i.
  induction a as [|x a IH]; intros [|i] H; try discriminate.
  - inversion H. subst. simpl. lia.
  - simpl in *. rewrite (IH i H). lia.
Qed.

Lemma total_zip_add (a b : list Z) :
  length a = length b -> total (zip_with Z.add a b) = total a + total b.
Proof.
  unfold total. revert b.
  induction a as [|x a IH]; intros [|y b] H; try discriminate.
  - reflexivity.
  - simpl. rewrite IH by (simpl in H; lia). lia.
Qed.

Lemma total_replicate_0 (n : nat) : total (replicate n 0) = 0.
Proof. induction n as [|n IH]; [reflexivity|]. cbn. exact IH. Qed.

Lemma distance_cell_range (d : Z) : 0 <= distance_cell d <= MAX_DISTANCE.
Proof. unfold distance_cell, MAX_DISTANCE. lia. Qed.

Lemma score_cell_range (s0 s1 : Z) :
  0 <= score_cell s0 s1 < (MAX_SCORE + 1) * (MAX_SCORE + 1).
Proof.
  unfold score_cell, MAX_SCORE. cbv zeta.
  assert (H0 : 0 <= Z.max 0 (Z.min 15 s0) <= 15) by lia.
  assert (H1 : 0 <= Z.max 0 (Z.min 15 s1) <= 15) by lia.
  destruct (Z.max 0 (Z.min 15 s1) <? Z.max 0 (Z.min 15 s0)); lia.
Qed.

Lemma score_cell_sym (s0 s1 : Z) : score_cell s0 s1 = score_cell s1 s0.
Proof.
  unfold score_cell.
  destruct (Z.ltb_spec (Z.max 0 (Z.min MAX_SCORE s1))
                       (Z.max 0 (Z.min MAX_SCORE s0)));
    destruct (Z.ltb_spec (Z.max 0 (Z.min MAX_SCORE s0))
                         (Z.max 0 (Z.min MAX_SCORE s1)));
    try lia.
  replace (Z.max 0 (Z.min MAX_SCORE s1)) with (Z.max 0 (Z.min MAX_SCORE s0))
    by lia.
  reflexivity.
Qed.

Lemma histograms_new_sized : histograms_sized TenXAlignerStats_new.
Proof. repeat split. Qed.

(** X1: [incrementDistance] never writes outside [distanceCounts]: whatever
    the distance, it adds one to the count of the distance clamped to
    [0 .. MAX_DISTANCE] (the distance itself when it is in that range) and
    leaves every other count of the structure as it was. *)
Theorem incrementDistance_clamps (s : TenXAlignerStats) (distance : Z) :
  length (distanceCounts s) = Z.to_nat (MAX_DISTANCE + 1) ->
  exists s' v,
    incrementDistance s distance = Done s'
    /\ 0 <= distance_cell distance <= MAX_DISTANCE
    /\ (0 <= distance <= MAX_DISTANCE -> distance_cell distance = distance)
    /\ (distance < 0 -> distance_cell distance = 0)
    /\ (MAX_DISTANCE < distance -> distance_cell distance = MAX_DISTANCE)
    /\ distanceCounts s !! Z.to_nat (distance_cell distance) = Some v
    /\ distanceCounts s'
       = <[Z.to_nat (distance_cell distance) := v + 1]> (distanceCounts s)
    /\ total (distanceCounts s') = total (distanceCounts s) + 1
    /\ scoreCounts s' = scoreCounts s
    /\ alignTogetherByMapqHistogram s' = alignTogetherByMapqHistogram s
    /\ totalTimeByMapqHistogram s' = totalTimeByMapqHistogram s.
Proof.
  intros Hlen. pose proof (distance_cell_range distance) as Hr.
  destruct (bump_ok "distanceCounts" (distanceCounts s)
              (distance_cell distance) 1) as (v & Hv & Hb).
  { rewrite Hlen. unfold MAX_DISTANCE in *. lia. }
  unfold incrementDistance. rewrite Hb, bind_Done.
  eexists. exists v. split; [reflexivity|]. cbn.
  repeat split; try tauto; try (unfold distance_cell, MAX_DISTANCE; lia).
  rewrite (total_insert _ _ v) by exact Hv. lia.
Qed.

(** X2: [incrementScore] never writes outside [scoreCounts] and does not
    depend on the order of the two scores: each is clamped to
    [0 .. MAX_SCORE], the smaller one selects the row and the larger one the
    column, so only cells on or above the diagonal are counted. *)
Theorem incrementScore_symmetric (s : TenXAlignerStats) (s0 s1 : Z) :
  length (scoreCounts s) = Z.to_nat ((MAX_SCORE + 1) * (MAX_SCORE + 1)) ->
  exists s' v,
    incrementScore s s0 s1 = Done s'
    /\ incrementScore s s1 s0 = Done s'
    /\ score_cell s0 s1
       = Z.min (Z.max 0 (Z.min MAX_SCORE s0)) (Z.max 0 (Z.min MAX_SCORE s1))
         * (MAX_SCORE + 1)
         + Z.max (Z.max 0 (Z.min MAX_SCORE s0)) (Z.max 0 (Z.min MAX_SCORE s1))
    /\ scoreCounts s !! Z.to_nat (score_cell s0 s1) = Some v
    /\ scoreCounts s'
       = <[Z.to_nat (score_cell s0 s1) := v + 1]> (scoreCounts s)
    /\ total (scoreCounts s') = total (scoreCounts s) + 1
    /\ distanceCounts s' = distanceCounts s.
Proof.
  intros Hlen. pose proof (score_cell_range s0 s1) as Hr.
  destruct (bump_ok "scoreCounts" (scoreCounts s) (score_cell s0 s1) 1)
    as (v & Hv & Hb).
  { rewrite Hlen. unfold MAX_SCORE in *. lia. }
  unfold incrementScore. rewrite <- (score_cell_sym s0 s1).
  rewrite Hb, bind_Done.
  eexists. exists v. split; [reflexivity|]. split; [reflexivity|]. cbn.
  repeat split; try assumption.
  - unfold score_cell, MAX_SCORE. cbv zeta.
    destruct (Z.ltb_spec (Z.max 0 (Z.min 15 s1)) (Z.max 0 (Z.min 15 s0)));
      lia.
  - rewrite (total_insert _ _ v) by exact Hv. lia.
Qed.

Lemma halvings_0 (limit : nat) : halvings limit 0 = 0.
Proof. destruct limit; reflexivity. Qed.

Lemma halvings_opp (limit : nat) (v : Z) :
  halvings limit (- v) = halvings limit v.
Proof.
  revert v. induction limit as [|n IH]; intros v; [reflexivity|].
  cbn [halvings].
  replace (- v =? 0) with (v =? 0)
    by (destruct (Z.eqb_spec v 0), (Z.eqb_spec (- v) 0); lia).
  rewrite Z.quot_opp_l by lia. rewrite IH. reflexivity.
Qed.

Lemma halvings_pos (limit : nat) (v : Z) :
  0 < v -> halvings limit v = Z.min (Z.of_nat limit) (Z.log2 v + 1).
Proof.
  revert v. induction limit as [|n IH]; intros v Hv.
  - cbn [halvings]. pose proof (Z.log2_nonneg v). lia.
  - cbn [halvings]. destruct (Z.eqb_spec v 0) as [->|_]; [lia|].
    rewrite Z.quot_div_nonneg by lia.
    destruct (Z.eq_dec v 1) as [->|Hne].
    + change (1 / 2) with 0. rewrite halvings_0. 
      change (Z.log2 1) with 0. lia.
    + assert (0 < v / 2) by (apply Z.div_str_pos; lia).
      rewrite IH by assumption.
      assert (0 < Z.log2 v) by (apply Z.log2_pos; lia).
      replace (v / 2) with (Z.shiftr v 1)
        by (rewrite Z.shiftr_div_pow2 by lia; reflexivity).
      rewrite Z.log2_shiftr by lia. lia.
Qed.

(** The three loops of [recordAlignTogetherMapqAndTime] count the binary
    digits of the magnitude of their argument, up to the limit. *)
Lemma halvings_bucket (limit : nat) (v : Z) :
  halvings limit v
  = if v =? 0 then 0 else Z.min (Z.of_nat limit) (Z.log2 (Z.abs v) + 1).
Proof.
  destruct (Z.eqb_spec v 0) as [->|Hne]; [apply halvings_0|].
  destruct (Z.abs_spec v) as [[H ->]|[H ->]].
  - apply halvings_pos. lia.
  - rewrite <- (halvings_opp limit v). apply halvings_pos. lia.
Qed.

Lemma halvings_range (limit : nat) (v : Z) :
  0 <= halvings limit v <= Z.of_nat limit.
Proof.
  rewrite halvings_bucket. destruct (v =? 0); [lia|].
  pose proof (Z.log2_nonneg (Z.abs v)). lia.
Qed.

Lemma halvings_full (limit : nat) (v : Z) :
  halvings limit v = Z.of_nat limit <->
  (limit = 0%nat \/ 2 ^ (Z.of_nat limit - 1) <= Z.abs v).
Proof.
  rewrite halvings_bucket. destruct (Z.eqb_spec v 0) as [->|Hne].
  - change (Z.abs 0) with 0. split.
    + intros H. left. lia.
    + intros [->|H]; [reflexivity|]. destruct limit as [|n]; [reflexivity|].
      assert (0 < 2 ^ (Z.of_nat (S n) - 1)) by (apply Z.pow_pos_nonneg; lia).
      lia.
  - destruct limit as [|n]; [split; [auto | intros _]|].
    + pose proof (Z.log2_nonneg (Z.abs v)). lia.
    + replace (Z.of_nat (S n) - 1) with (Z.of_nat n) by lia.
      assert (Habs : 0 < Z.abs v) by lia.
      pose proof (Z.log2_le_pow2 (Z.abs v) (Z.of_nat n) Habs) as Hlog.
      split.
      * intros H. right. apply Hlog. lia.
      * intros [H|H]; [discriminate|]. apply Hlog in H. lia.
Qed.

Lemma int_of_unsigned_abs (u : Z) :
  0 <= u < 2 ^ 32 ->
  Z.abs (int_of_unsigned u) <= 2 ^ 31
  /\ (2 ^ 31 <= Z.abs (int_of_unsigned u) <-> u = 2 ^ 31).
Proof.
  intros H. unfold int_of_unsigned.
  change (2 ^ 31) with 2147483648 in *. change (2 ^ 32) with 4294967296 in *.
  destruct (Z.ltb_spec u 2147483648); lia.
Qed.

(** The bucket of a count held in an [unsigned] is within the 32 rows of its
    histogram, [2^31] apart. *)
Lemma count_bucket_range (u : Z) :
  0 <= u < 2 ^ 32 ->
  0 <= halvings (Z.to_nat 32) (int_of_unsigned u) <= 32
  /\ (halvings (Z.to_nat 32) (int_of_unsigned u) < 32 <-> u <> 2 ^ 31).
Proof.
  intros H. pose proof (halvings_range (Z.to_nat 32) (int_of_unsigned u)) as Hr.
  pose proof (halvings_full (Z.to_nat 32) (int_of_unsigned u)) as Hf.
  pose proof (int_of_unsigned_abs u H) as [_ Ha].
  change (Z.of_nat (Z.to_nat 32)) with 32 in *.
  change (2 ^ (32 - 1)) with (2 ^ 31) in *.
  split; [lia|]. split.
  - intros Hlt Hu. apply Ha in Hu.
    assert (halvings (Z.to_nat 32) (int_of_unsigned u) = 32)
      by (apply Hf; right; exact Hu). lia.
  - intros Hu. destruct (Z.eq_dec (halvings (Z.to_nat 32) (int_of_unsigned u)) 32)
      as [E|E]; [|lia].
    apply Hf in E. destruct E as [E|E]; [discriminate|]. apply Ha in E. lia.
Qed.

Lemma bump_Done (what : string) (a a' : list Z) (i k : Z) :
  bump what a i k = Done a' ->
  0 <= i < Z.of_nat (length a)
  /\ exists v, a !! Z.to_nat i = Some v /\ a' = <[Z.to_nat i := v + k]> a.
Proof.
  unfold bump. destruct (Z.leb_spec 0 i), (Z.ltb_spec i (Z.of_nat (length a)));
    try discriminate.
  destruct (a !! Z.to_nat i) as [v|] eqn:E; [|discriminate].
  intros [= <-]. split; [lia|]. exists v. auto.
Qed.

Lemma bump2_Done (what : string) (rows cols : Z) (a a' : list Z) (i j k : Z) :
  bump2 what rows cols a i j k = Done a' ->
  0 <= i < rows /\ 0 <= j < cols
  /\ exists v, a !! Z.to_nat (i * cols + j) = Some v
               /\ a' = <[Z.to_nat (i * cols + j) := v + k]> a.
Proof.
  unfold bump2.
  destruct (Z.leb_spec 0 i), (Z.ltb_spec i rows), (Z.leb_spec 0 j),
    (Z.ltb_spec j cols); try discriminate.
  cbn [andb]. intros Hb. apply bump_Done in Hb as [_ Hb].
  repeat split; try lia. exact Hb.
Qed.

Lemma bump2_ok (what : string) (rows cols : Z) (a : list Z) (i j k : Z) :
  length a = Z.to_nat (rows * cols) ->
  0 <= i < rows -> 0 <= j < cols ->
  exists v, a !! Z.to_nat (i * cols + j) = Some v
            /\ bump2 what rows cols a i j k
               = Done (<[Z.to_nat (i * cols + j) := v + k]> a).
Proof.
  intros Hlen Hi Hj. unfold bump2.
  destruct (Z.leb_spec 0 i), (Z.ltb_spec i rows), (Z.leb_spec 0 j),
    (Z.ltb_spec j cols); try lia.
  cbn [andb]. apply bump_ok. rewrite Hlen. nia.
Qed.

Lemma bump2_total (what : string) (rows cols : Z) (a a' : list Z) (i j k : Z) :
  bump2 what rows cols a i j k = Done a' ->
  length a' = length a /\ total a' = total a + k.
Proof.
  intros H. apply bump2_Done in H as (_ & _ & v & Hv & ->).
  rewrite length_insert, (total_insert _ _ v) by exact Hv. split; lia.
Qed.

Ltac bind_inv H :=
  let a := fresh "a" in
  let Ha := fresh "Ha" in
  apply bind_Done_inv in H as (a & Ha & H).

Ltac fields :=
  cbn [distanceCounts scoreCounts alignTogetherByMapqHistogram
       totalTimeByMapqHistogram nSmallHitsByTimeHistogram
       nLVCallsByTimeHistogram mapqByNLVCallsHistogram
       mapqByNSmallHitsHistogram].

(** X3: when the arrays have the sizes the constructor gives them,
    [recordAlignTogetherMapqAndTime] stays inside all six histograms exactly
    when [mapq] is at most [maxMapq] and neither [nSmallHits] nor [nLVCalls]
    is [2^31]: stored in an [int] that value is [INT_MIN], which takes 32
    halvings to reach zero and selects row 32 of a histogram of 32 rows.
    The time bucket is capped at [nTimeBuckets - 1] and is always in range. *)
Theorem recordAlignTogetherMapqAndTime_safe (s : TenXAlignerStats)
  (mapq timeInNanos nSmallHits nLVCalls : Z) :
  histograms_sized s ->
  0 <= mapq < 2 ^ 32 ->
  0 <= nSmallHits < 2 ^ 32 ->
  0 <= nLVCalls < 2 ^ 32 ->
  (exists s',
     recordAlignTogetherMapqAndTime s mapq timeInNanos nSmallHits nLVCalls
     = Done s')
  <-> (mapq <= maxMapq /\ nSmallHits <> 2 ^ 31 /\ nLVCalls <> 2 ^ 31).
Proof.
  intros (_ & _ & L1 & L2 & L3 & L4 & L5 & L6) Hm Hu Hl.
  pose proof (halvings_range (Z.to_nat (nTimeBuckets - 1)) timeInNanos) as Ht.
  change (Z.of_nat (Z.to_nat (nTimeBuckets - 1))) with 31 in Ht.
  destruct (count_bucket_range nSmallHits Hu) as [Hu1 Hu2].
  destruct (count_bucket_range nLVCalls Hl) as [Hl1 Hl2].
  unfold recordAlignTogetherMapqAndTime. cbv zeta.
  change nHitsBuckets with 32 in *. change nLVCallsBuckets with 32 in *.
  change nTimeBuckets with 32 in *. 
  set (tb := halvings (Z.to_nat (32 - 1)) timeInNanos) in *.
  set (hb := halvings (Z.to_nat 32) (int_of_unsigned nSmallHits)) in *.
  set (lb := halvings (Z.to_nat 32) (int_of_unsigned nLVCalls)) in *.
  split.
  - intros [s' H].
    bind_inv H. bind_inv H. bind_inv H. bind_inv H.
    apply bump2_Done in Ha as (Hr & _).
    apply bump2_Done in Ha1 as (Hr1 & _).
    apply bump2_Done in Ha2 as (Hr2 & _).
    unfold maxMapq in *. repeat split; [lia| apply Hu2; lia | apply Hl2; lia].
  - intros (H1 & H2 & H3). apply Hu2 in H2. apply Hl2 in H3.
    unfold maxMapq in *.
    destruct (bump2_ok "alignTogetherByMapqHistogram" (70 + 1) 32
                (alignTogetherByMapqHistogram s) mapq tb 1)
      as (v1 & _ & ->); [assumption|lia|lia|].
    rewrite bind_Done.
    destruct (bump2_ok "totalTimeByMapqHistogram" (70 + 1) 32
                (totalTimeByMapqHistogram s) mapq tb timeInNanos)
      as (v2 & _ & ->); [assumption|lia|lia|].
    rewrite bind_Done.
    destruct (bump2_ok "nSmallHitsByTimeHistogram" 32 32
                (nSmallHitsByTimeHistogram s) hb tb 1)
      as (v3 & _ & ->); [assumption|lia|lia|].
    rewrite bind_Done.
    destruct (bump2_ok "nLVCallsByTimeHistogram" 32 32
                (nLVCallsByTimeHistogram s) lb tb 1)
      as (v4 & _ & ->); [assumption|lia|lia|].
    rewrite bind_Done.
    destruct (bump2_ok "mapqByNLVCallsHistogram" (70 + 1) 32
                (mapqByNLVCallsHistogram s) mapq lb 1)
      as (v5 & _ & ->); [assumption|lia|lia|].
    rewrite bind_Done.
    destruct (bump2_ok "mapqByNSmallHitsHistogram" (70 + 1) 32
                (mapqByNSmallHitsHistogram s) mapq hb 1)
      as (v6 & _ & ->); [assumption|lia|lia|].
    rewrite bind_Done. eexists. reflexivity.
Qed.

(** X4: a call of [recordAlignTogetherMapqAndTime] that stays inside the
    arrays adds one observation to each of the five counting histograms and
    [timeInNanos] to the time histogram, keeps the sizes, and leaves the
    distance and score counts alone; the column it counts in is the number
    of binary digits of the time, at most 31. *)
Theorem recordAlignTogetherMapqAndTime_counts (s s' : TenXAlignerStats)
  (mapq timeInNanos nSmallHits nLVCalls : Z) :
  histograms_sized s ->
  recordAlignTogetherMapqAndTime s mapq timeInNanos nSmallHits nLVCalls
  = Done s' ->
  histograms_sized s'
  /\ (exists v,
        let timeBucket :=
          if timeInNanos =? 0 then 0
          else Z.min 31 (Z.log2 (Z.abs timeInNanos) + 1) in
        let cell := Z.to_nat (mapq * nTimeBuckets + timeBucket) in
        alignTogetherByMapqHistogram s !! cell = Some v
        /\ alignTogetherByMapqHistogram s'
           = <[cell := v + 1]> (alignTogetherByMapqHistogram s))
  /\ total (alignTogetherByMapqHistogram s')
     = total (alignTogetherByMapqHistogram s) + 1
  /\ total (totalTimeByMapqHistogram s')
     = total (totalTimeByMapqHistogram s) + timeInNanos
  /\ total (nSmallHitsByTimeHistogram s')
     = total (nSmallHitsByTimeHistogram s) + 1
  /\ total (nLVCallsByTimeHistogram s')
     = total (nLVCallsByTimeHistogram s) + 1
  /\ total (mapqByNLVCallsHistogram s')
     = total (mapqByNLVCallsHistogram s) + 1
  /\ total (mapqByNSmallHitsHistogram s')
     = total (mapqByNSmallHitsHistogram s) + 1
  /\ distanceCounts s' = distanceCounts s
  /\ scoreCounts s' = scoreCounts s.
Proof.
  intros (L1 & L2 & L3 & L4 & L5 & L6 & L7 & L8) H.
  unfold recordAlignTogetherMapqAndTime in H. cbv zeta in H.
  bind_inv H. bind_inv H. bind_inv H. bind_inv H. bind_inv H. bind_inv H.
  injection H as <-. unfold histograms_sized. fields.
  pose proof (bump2_Done _ _ _ _ _ _ _ _ Ha) as (_ & _ & v & Hv & Hcell).
  apply bump2_total in Ha as [Hl1 Ht1].
  apply bump2_total in Ha0 as [Hl2 Ht2].
  apply bump2_total in Ha1 as [Hl3 Ht3].
  apply bump2_total in Ha2 as [Hl4 Ht4].
  apply bump2_total in Ha3 as [Hl5 Ht5].
  apply bump2_total in Ha4 as [Hl6 Ht6].
  split; [repeat split; congruence|].
  split.
  { exists v. cbv zeta. rewrite halvings_bucket in Hv, Hcell.
    change (Z.of_nat (Z.to_nat (nTimeBuckets - 1))) with 31 in *.
    split; assumption. }
  repeat split; assumption.
Qed.

Lemma add_counts_full (what : string) (n : Z) (a b : list Z) :
  length a = Z.to_nat n -> length b = Z.to_nat n -> 0 <= n ->
  add_counts what n a b = Done (zip_with Z.add a b).
Proof.
  intros Ha Hb Hn. unfold add_counts.
  destruct (Z.leb_spec n (Z.of_nat (length a))); [|lia].
  destruct (Z.leb_spec n (Z.of_nat (length b))); [|lia].
  cbn [andb]. rewrite !take_ge, drop_ge, app_nil_r by lia. reflexivity.
Qed.

Lemma zip_add_comm (a b : list Z) : zip_with Z.add a b = zip_with Z.add b a.
Proof.
  revert b. induction a as [|x a IH]; intros [|y b]; cbn; try reflexivity.
  rewrite IH. f_equal. lia.
Qed.

Lemma zip_add_assoc (a b c : list Z) :
  zip_with Z.add (zip_with Z.add a b) c = zip_with Z.add a (zip_with Z.add b c).
Proof.
  revert b c. induction a as [|x a IH]; intros [|y b] [|z c]; cbn;
    try reflexivity.
  rewrite IH. f_equal. lia.
Qed.

Lemma zip_add_zeros (a : list Z) (n : nat) :
  length a = n -> zip_with Z.add a (replicate n 0) = a.
Proof.
  revert n. induction a as [|x a IH]; intros [|n] H; try discriminate;
    [reflexivity|].
  cbn. rewrite IH by (simpl in H; lia). f_equal. lia.
Qed.

Lemma length_zip_add (a b : list Z) :
  length a = length b -> length (zip_with Z.add a b) = length a.
Proof. intros H. rewrite length_zip_with. lia. Qed.

(** With arrays of the constructor's sizes the eight loops run over every
    cell and [add] is the cell-wise sum. *)
Lemma TenXAlignerStats_add_sized (s other : TenXAlignerStats) :
  histograms_sized s -> histograms_sized other ->
  TenXAlignerStats_add s other
  = Done (mkTenXAlignerStats
            (zip_with Z.add (distanceCounts s) (distanceCounts other))
            (zip_with Z.add (scoreCounts s) (scoreCounts other))
            (zip_with Z.add (alignTogetherByMapqHistogram s)
               (alignTogetherByMapqHistogram other))
            (zip_with Z.add (totalTimeByMapqHistogram s)
               (totalTimeByMapqHistogram other))
            (zip_with Z.add (nSmallHitsByTimeHistogram s)
               (nSmallHitsByTimeHistogram other))
            (zip_with Z.add (nLVCallsByTimeHistogram s)
               (nLVCallsByTimeHistogram other))
            (zip_with Z.add (mapqByNLVCallsHistogram s)
               (mapqByNLVCallsHistogram other))
            (zip_with Z.add (mapqByNSmallHitsHistogram s)
               (mapqByNSmallHitsHistogram other))).
Proof.
  intros (L1 & L2 & L3 & L4 & L5 & L6 & L7 & L8)
         (M1 & M2 & M3 & M4 & M5 & M6 & M7 & M8).
  unfold TenXAlignerStats_add.
  rewrite (add_counts_full _ _ _ _ L1 M1), bind_Done by (vm_compute; discriminate).
  rewrite (add_counts_full _ _ _ _ L2 M2), bind_Done by (vm_compute; discriminate).
  rewrite (add_counts_full _ _ _ _ L3 M3), bind_Done by (vm_compute; discriminate).
  rewrite (add_counts_full _ _ _ _ L4 M4), bind_Done by (vm_compute; discriminate).
  rewrite (add_counts_full _ _ _ _ L8 M8), bind_Done by (vm_compute; discriminate).
  rewrite (add_counts_full _ _ _ _ L7 M7), bind_Done by (vm_compute; discriminate).
  rewrite (add_counts_full _ _ _ _ L5 M5), bind_Done by (vm_compute; discriminate).
  rewrite (add_counts_full _ _ _ _ L6 M6), bind_Done by (vm_compute; discriminate).
  reflexivity.
Qed.

Lemma histograms_sized_zip (s other : TenXAlignerStats) :
  histograms_sized s -> histograms_sized other ->
  histograms_sized
    (mkTenXAlignerStats
       (zip_with Z.add (distanceCounts s) (distanceCounts other))
       (zip_with Z.add (scoreCounts s) (scoreCounts other))
       (zip_with Z.add (alignTogetherByMapqHistogram s)
          (alignTogetherByMapqHistogram other))
       (zip_with Z.add (totalTimeByMapqHistogram s)
          (totalTimeByMapqHistogram other))
       (zip_with Z.add (nSmallHitsByTimeHistogram s)
          (nSmallHitsByTimeHistogram other))
       (zip_with Z.add (nLVCallsByTimeHistogram s)
          (nLVCallsByTimeHistogram other))
       (zip_with Z.add (mapqByNLVCallsHistogram s)
          (mapqByNLVCallsHistogram other))
       (zip_with Z.add (mapqByNSmallHitsHistogram s)
          (mapqByNSmallHitsHistogram other))).
Proof.
  intros (L1 & L2 & L3 & L4 & L5 & L6 & L7 & L8)
         (M1 & M2 & M3 & M4 & M5 & M6 & M7 & M8).
  unfold histograms_sized. fields.
  rewrite !length_zip_add by congruence. repeat split; assumption.
Qed.

(** X5: [TenXAlignerStats::add] on two structures of the constructor's
    sizes stays inside every array, adds the histograms cell by cell and so
    adds their totals, and keeps the sizes. *)
Theorem TenXAlignerStats_add_totals (s other : TenXAlignerStats) :
  histograms_sized s -> histograms_sized other ->
  exists s',
    TenXAlignerStats_add s other = Done s'
    /\ histograms_sized s'
    /\ (forall i a b,
          distanceCounts s !! i = Some a ->
          distanceCounts other !! i = Some b ->
          distanceCounts s' !! i = Some (a + b))
    /\ (forall i a b,
          scoreCounts s !! i = Some a ->
          scoreCounts other !! i = Some b ->
          scoreCounts s' !! i = Some (a + b))
    /\ total (distanceCounts s')
       = total (distanceCounts s) + total (distanceCounts other)
    /\ total (scoreCounts s')
       = total (scoreCounts s) + total (scoreCounts other)
    /\ total (alignTogetherByMapqHistogram s')
       = total (alignTogetherByMapqHistogram s)
         + total (alignTogetherByMapqHistogram other)
    /\ total (totalTimeByMapqHistogram s')
       = total (totalTimeByMapqHistogram s)
         + total (totalTimeByMapqHistogram other)
    /\ total (nSmallHitsByTimeHistogram s')
       = total (nSmallHitsByTimeHistogram s)
         + total (nSmallHitsByTimeHistogram other)
    /\ total (nLVCallsByTimeHistogram s')
       = total (nLVCallsByTimeHistogram s)
         + total (nLVCallsByTimeHistogram other)
    /\ total (mapqByNLVCallsHistogram s')
       = total (mapqByNLVCallsHistogram s)
         + total (mapqByNLVCallsHistogram other)
    /\ total (mapqByNSmallHitsHistogram s')
       = total (mapqByNSmallHitsHistogram s)
         + total (mapqByNSmallHitsHistogram other).
Proof.
  intros Hs Ho. eexists. split; [apply TenXAlignerStats_add_sized; assumption|].
  split; [apply histograms_sized_zip; assumption|].
  destruct Hs as (L1 & L2 & L3 & L4 & L5 & L6 & L7 & L8).
  destruct Ho as (M1 & M2 & M3 & M4 & M5 & M6 & M7 & M8).
  fields.
  split; [intros i a b Ha Hb; rewrite lookup_zip_with, Ha, Hb; reflexivity|].
  split; [intros i a b Ha Hb; rewrite lookup_zip_with, Ha, Hb; reflexivity|].
  rewrite !total_zip_add by congruence. repeat split; reflexivity.
Qed.

(** X6: merging per-thread statistics does not depend on the order or the
    grouping of the merges, and a freshly constructed structure is neutral. *)
Theorem TenXAlignerStats_add_order (s a b : TenXAlignerStats) :
  histograms_sized s -> histograms_sized a -> histograms_sized b ->
  TenXAlignerStats_add s a = TenXAlignerStats_add a s
  /\ (m ← TenXAlignerStats_add s a; TenXAlignerStats_add m b)
     = (m ← TenXAlignerStats_add a b; TenXAlignerStats_add s m)
  /\ (m ← TenXAlignerStats_add s a; TenXAlignerStats_add m b)
     = (m ← TenXAlignerStats_add s b; TenXAlignerStats_add m a)
  /\ TenXAlignerStats_add s TenXAlignerStats_new = Done s.
Proof.
  intros Hs Ha Hb.
  pose proof (histograms_sized_zip s a Hs Ha) as Hsa.
  pose proof (histograms_sized_zip a b Ha Hb) as Hab.
  pose proof (histograms_sized_zip s b Hs Hb) as Hsb.
  rewrite !(TenXAlignerStats_add_sized s a), !(TenXAlignerStats_add_sized a s),
    !(TenXAlignerStats_add_sized a b), !(TenXAlignerStats_add_sized s b),
    !bind_Done by assumption.
  rewrite !TenXAlignerStats_add_sized by (assumption || apply histograms_new_sized).
  fields. repeat split.
  - f_equal. f_equal; apply zip_add_comm.
  - f_equal. f_equal; apply zip_add_assoc.
  - f_equal. 
    f_equal; rewrite !zip_add_assoc; f_equal; apply zip_add_comm.
  - destruct Hs as (L1 & L2 & L3 & L4 & L5 & L6 & L7 & L8).
    unfold TenXAlignerStats_new. fields.
    rewrite !zip_add_zeros by assumption. destruct s; reflexivity.
Qed.

Lemma bump_zip (what : string) (a b : list Z) (i k : Z) :
  length a = length b ->
  bump what (zip_with Z.add a b) i k
  = (a' ← bump what a i k; Done (zip_with Z.add a' b)).
Proof.
  intros Hlen. unfold bump. rewrite length_zip_add by assumption.
  destruct (Z.leb_spec 0 i), (Z.ltb_spec i (Z.of_nat (length a)));
    try reflexivity.
  cbn [andb].
  destruct (lookup_lt_is_Some_2 a (Z.to_nat i)) as [x Hx]; [lia|].
  destruct (lookup_lt_is_Some_2 b (Z.to_nat i)) as [y Hy]; [lia|].
  rewrite lookup_zip_with, Hx, Hy. cbn [mbind option_bind].
  rewrite bind_Done. f_equal.
  replace (x + y + k) with (x + k + y) by lia.
  rewrite insert_zip_with. f_equal. apply list_insert_id. exact Hy.
Qed.

Lemma bump2_zip (what : string) (rows cols : Z) (a b : list Z) (i j k : Z) :
  length a = length b ->
  bump2 what rows cols (zip_with Z.add a b) i j k
  = (a' ← bump2 what rows cols a i j k; Done (zip_with Z.add a' b)).
Proof.
  intros Hlen. unfold bump2.
  destruct ((0 <=? i) && (i <? rows) && (0 <=? j) && (j <? cols));
    [apply bump_zip; assumption | reflexivity].
Qed.

Lemma bump_length (what : string) (a a' : list Z) (i k : Z) :
  bump what a i k = Done a' -> length a' = length a.
Proof.
  intros H. apply bump_Done in H as (_ & v & _ & ->). apply length_insert.
Qed.

(** X7: recording an observation in a thread's statistics and then merging
    them gives the same as merging first and recording in the merged
    statistics, for each of the three recording functions, also when the
    recording runs outside an array. *)
Theorem recording_commutes_with_add (s other : TenXAlignerStats)
  (distance s0 s1 mapq timeInNanos nSmallHits nLVCalls : Z) :
  histograms_sized s -> histograms_sized other ->
  (r ← incrementDistance s distance; TenXAlignerStats_add r other)
  = (m ← TenXAlignerStats_add s other; incrementDistance m distance)
  /\ (r ← incrementScore s s0 s1; TenXAlignerStats_add r other)
     = (m ← TenXAlignerStats_add s other; incrementScore m s0 s1)
  /\ (r ← recordAlignTogetherMapqAndTime s mapq timeInNanos nSmallHits nLVCalls;
      TenXAlignerStats_add r other)
     = (m ← TenXAlignerStats_add s other;
        recordAlignTogetherMapqAndTime m mapq timeInNanos nSmallHits nLVCalls).
Proof.
  intros Hs Ho. rewrite (TenXAlignerStats_add_sized s other Hs Ho), !bind_Done.
  pose proof Hs as (L1 & L2 & L3 & L4 & L5 & L6 & L7 & L8).
  pose proof Ho as (M1 & M2 & M3 & M4 & M5 & M6 & M7 & M8).
  split; [|split].
  - unfold incrementDistance. fields. rewrite bump_zip by congruence.
    destruct (bump "distanceCounts" (distanceCounts s) (distance_cell distance) 1)
      as [d| | |] eqn:E; try reflexivity.
    rewrite !bind_Done. apply bump_length in E.
    rewrite TenXAlignerStats_add_sized; [reflexivity| |assumption].
    unfold histograms_sized. fields. repeat split; congruence.
  - unfold incrementScore. fields. rewrite bump_zip by congruence.
    destruct (bump "scoreCounts" (scoreCounts s) (score_cell s0 s1) 1)
      as [d| | |] eqn:E; try reflexivity.
    rewrite !bind_Done. apply bump_length in E.
    rewrite TenXAlignerStats_add_sized; [reflexivity| |assumption].
    unfold histograms_sized. fields. repeat split; congruence.
  - unfold recordAlignTogetherMapqAndTime. cbv zeta. fields.
    rewrite !bump2_zip by congruence.
    destruct (bump2 "alignTogetherByMapqHistogram" _ _ _ _ _ _)
      as [a1| | |] eqn:E1; try reflexivity.
    rewrite !bind_Done.
    destruct (bump2 "totalTimeByMapqHistogram" _ _ _ _ _ _)
      as [a2| | |] eqn:E2; try reflexivity.
    rewrite !bind_Done.
    destruct (bump2 "nSmallHitsByTimeHistogram" _ _ _ _ _ _)
      as [a3| | |] eqn:E3; try reflexivity.
    rewrite !bind_Done.
    destruct (bump2 "nLVCallsByTimeHistogram" _ _ _ _ _ _)
      as [a4| | |] eqn:E4; try reflexivity.
    rewrite !bind_Done.
    destruct (bump2 "mapqByNLVCallsHistogram" _ _ _ _ _ _)
      as [a5| | |] eqn:E5; try reflexivity.
    rewrite !bind_Done.
    destruct (bump2 "mapqByNSmallHitsHistogram" _ _ _ _ _ _)
      as [a6| | |] eqn:E6; try reflexivity.
    rewrite !bind_Done.
    apply bump2_total in E1 as [E1 _], E2 as [E2 _], E3 as [E3 _],
      E4 as [E4 _], E5 as [E5 _], E6 as [E6 _].
    rewrite TenXAlignerStats_add_sized; [reflexivity| |assumption].
    unfold histograms_sized. fields. repeat split; congruence.
Qed.

(** *** Runs of the histogram functions *)

(** A distance of 5000 is counted in the last cell, 1000. *)
Lemma incrementDistance_clamps_run :
  exists s' v,
    incrementDistance TenXAlignerStats_new 5000 = Done s'
    /\ distance_cell 5000 = MAX_DISTANCE
    /\ distanceCounts TenXAlignerStats_new !! Z.to_nat 1000 = Some v
    /\ total (distanceCounts s') = 1.
Proof.
  destruct (incrementDistance_clamps TenXAlignerStats_new 5000 eq_refl)
    as (s' & v & E & _ & _ & _ & Hhi & Hv & _ & Ht & _).
  exists s', v. split; [exact E|]. split; [apply Hhi; reflexivity|].
  split; [exact Hv|]. exact Ht.
Defined.

(** Scores 20 and 3, in either order, are counted in row 3, column 15. *)
Lemma incrementScore_symmetric_run :
  exists s',
    incrementScore TenXAlignerStats_new 20 3 = Done s'
    /\ incrementScore TenXAlignerStats_new 3 20 = Done s'
    /\ score_cell 20 3 = 3 * 16 + 15.
Proof.
  destruct (incrementScore_symmetric TenXAlignerStats_new 20 3 eq_refl)
    as (s' & v & E1 & E2 & Hc & _).
  exists s'. split; [exact E1|]. split; [exact E2|]. exact Hc.
Defined.

(** Five small hits are recorded; [2^31] of them are not. *)
Lemma recordAlignTogetherMapqAndTime_safe_run :
  histograms_sized TenXAlignerStats_new
  /\ (exists s',
        recordAlignTogetherMapqAndTime TenXAlignerStats_new 60 1000 5 7
        = Done s')
  /\ recordAlignTogetherMapqAndTime TenXAlignerStats_new 60 1000 (2 ^ 31) 7
     = Fault "nSmallHitsByTimeHistogram".
Proof.
  assert (Hsized : histograms_sized TenXAlignerStats_new) by (repeat split).
  split; [exact Hsized|]. split; [|vm_compute; reflexivity].
  apply (recordAlignTogetherMapqAndTime_safe TenXAlignerStats_new 60 1000 5 7
           Hsized); [lia|lia|lia|].
  unfold maxMapq. repeat split; lia.
Defined.

(** 1000 ns at mapq 60: ten binary digits, column 10 of row 60. *)
Lemma recordAlignTogetherMapqAndTime_counts_run :
  exists s',
    recordAlignTogetherMapqAndTime TenXAlignerStats_new 60 1000 5 7 = Done s'
    /\ histograms_sized s'
    /\ alignTogetherByMapqHistogram s' !! Z.to_nat (60 * 32 + 10) = Some 1
    /\ total (alignTogetherByMapqHistogram s') = 1
    /\ total (totalTimeByMapqHistogram s') = 1000.
Proof.
  assert (Hsized : histograms_sized TenXAlignerStats_new) by (repeat split).
  destruct (recordAlignTogetherMapqAndTime TenXAlignerStats_new 60 1000 5 7)
    as [s'| | |] eqn:E; try (vm_compute in E; discriminate).
  destruct (recordAlignTogetherMapqAndTime_counts TenXAlignerStats_new s'
              60 1000 5 7 Hsized E)
    as (Hs' & _ & Ht1 & Ht2 & _).
  exists s'. split; [reflexivity|]. split; [exact Hs'|].
  split; [vm_compute in E; injection E as <-; reflexivity|].
  split; [exact Ht1 | exact Ht2].
Defined.

(** Two threads that each saw one distance. *)
Lemma TenXAlignerStats_add_totals_run :
  exists a b s',
    incrementDistance TenXAlignerStats_new 100 = Done a
    /\ incrementDistance TenXAlignerStats_new 2000 = Done b
    /\ TenXAlignerStats_add a b = Done s'
    /\ histograms_sized s'
    /\ total (distanceCounts s') = 2.
Proof.
  destruct (incrementDistance TenXAlignerStats_new 100) as [a| | |] eqn:Ea;
    try (vm_compute in Ea; discriminate).
  destruct (incrementDistance TenXAlignerStats_new 2000) as [b| | |] eqn:Eb;
    try (vm_compute in Eb; discriminate).
  assert (Ha : histograms_sized a)
    by (vm_compute in Ea; injection Ea as <-; repeat split).
  assert (Hb : histograms_sized b)
    by (vm_compute in Eb; injection Eb as <-; repeat split).
  destruct (TenXAlignerStats_add_totals a b Ha Hb)
    as (s' & E & Hs' & _ & _ & Ht & _).
  exists a, b, s'. split; [reflexivity|]. split; [reflexivity|].
  split; [exact E|]. split; [exact Hs'|].
  rewrite Ht. vm_compute in Ea, Eb. injection Ea as <-. injection Eb as <-.
  reflexivity.
Defined.

(** Three fresh structures merge to a fresh one, in any order. *)
Lemma TenXAlignerStats_add_order_run :
  histograms_sized TenXAlignerStats_new
  /\ TenXAlignerStats_add TenXAlignerStats_new TenXAlignerStats_new
     = Done TenXAlignerStats_new.
Proof.
  assert (Hsized : histograms_sized TenXAlignerStats_new) by (repeat split).
  split; [exact Hsized|].
  exact (proj2 (proj2 (proj2
           (TenXAlignerStats_add_order TenXAlignerStats_new
              TenXAlignerStats_new TenXAlignerStats_new
              Hsized Hsized Hsized)))).
Defined.

(** A distance recorded before or after merging with a fresh structure. *)
Lemma recording_commutes_with_add_run :
  histograms_sized TenXAlignerStats_new
  /\ (r ← incrementDistance TenXAlignerStats_new 7;
      TenXAlignerStats_add r TenXAlignerStats_new)
     = (m ← TenXAlignerStats_add TenXAlignerStats_new TenXAlignerStats_new;
        incrementDistance m 7).
Proof.
  assert (Hsized : histograms_sized TenXAlignerStats_new) by (repeat split).
  split; [exact Hsized|].
  exact (proj1 (recording_commutes_with_add TenXAlignerStats_new
                  TenXAlignerStats_new 7 0 0 0 0 0 0 Hsized Hsized)).
Defined.

(** ** More on the option parser *)

Lemma arg_in_range (argv : list string) (k : Z) :
  0 <= k < argc argv -> is_Some (arg argv k).
Proof.
  intros H. unfold arg, argc in *. destruct (Z.leb_spec 0 k); [|lia].
  apply lookup_lt_is_Some_2. lia.
Qed.

Section ParserFacts.

Variable FilterBothMatesMatch : Z.
Variable AlignerOptions_parse :
  TenXAlignerOptions -> list string -> Z -> option Parsed.

(** X8: at an option this class handles itself [parse] never reads outside
    the argument vector and never sets [*done]; when it accepts, the cursor
    has moved by at most two and still points into the vector; when it
    rejects, the options and the cursor are as they were. *)
Theorem parse_own_option_cursor (o : TenXAlignerOptions)
  (argv : list string) (n : Z) :
  own_option argv n = true ->
  exists p,
    parse FilterBothMatesMatch AlignerOptions_parse o argv n = Some p
    /\ p_done p = false
    /\ if p_ok p
       then n <= p_n p <= n + 2 /\ 0 <= p_n p < argc argv
       else p_options p = o /\ p_n p = n.
Proof.
  unfold own_option, parse.
  destruct (arg argv n) as [a|] eqn:Ha; [|discriminate].
  apply arg_Some_lt in Ha as Hn. simpl.
  by_option_name a;
    repeat match goal with
      | |- context [?x <? ?y] => destruct (Z.ltb_spec x y); simpl
      | |- context [arg argv ?k] =>
          let H := fresh "H" in
          destruct (arg_in_range argv k) as [? H]; [lia|]; rewrite H; simpl
      | |- context [streq ?x ?y] => destruct (streq x y); simpl
      end;
    unfold accepted, rejected; intros; try discriminate;
    eexists; (split; [reflexivity|]); simpl; repeat split; lia.
Qed.

(** X9: an option that takes a value is rejected, with the options and the
    cursor unchanged, when the argument vector ends before the value ([-s]
    needs an argument after its two values); [-F] not followed by [b] is left
    to the base class. *)
Theorem parse_rejects_missing_value (o : TenXAlignerOptions)
  (argv : list string) (n : Z) :
  (arg argv n = Some "-s"%string -> argc argv <= n + 2 ->
   parse FilterBothMatesMatch AlignerOptions_parse o argv n
   = Some (mkParsed o n false false))
  /\ (forall a,
        In a ["-H"; "-mcp"; "-maxBar"; "-minCluster"; "-maxClusterSpan"]%string ->
        arg argv n = Some a -> argc argv <= n + 1 ->
        parse FilterBothMatesMatch AlignerOptions_parse o argv n
        = Some (mkParsed o n false false))
  /\ (arg argv n = Some "-F"%string ->
      arg argv (n + 1) <> Some "b"%string ->
      parse FilterBothMatesMatch AlignerOptions_parse o argv n
      = AlignerOptions_parse o argv n).
Proof.
  split; [|split].
  - intros Ha Hc. unfold parse. rewrite Ha. simpl.
    destruct (Z.ltb_spec (n + 2) (argc argv)); [lia|]. reflexivity.
  - intros a Hin Ha Hc. unfold parse. rewrite Ha.
    destruct (Z.ltb_spec (n + 1) (argc argv)) as [|_]; [lia|].
    simpl in Hin.
    destruct Hin as [<-|[<-|[<-|[<-|[<-|[]]]]]]; simpl;
      rewrite ?andb_false_r; try reflexivity.
  - intros Ha Hb. unfold parse. rewrite Ha. simpl.
    destruct (n + 1 <? argc argv); simpl; [|reflexivity].
    destruct (arg argv (n + 1)) as [a1|] eqn:E; simpl; [|reflexivity].
    destruct (streq a1 "b") eqn:Eb; [|reflexivity].
    apply streq_true in Eb. subst a1. congruence.
Qed.

End ParserFacts.


(** ** Accounting of the reads *)

Lemma pairs_written_app (o1 o2 : list Event) :
  pairs_written (o1 ++ o2) = pairs_written o1 + pairs_written o2.
Proof.
  unfold pairs_written. rewrite List.filter_app, length_app. lia.
Qed.

#[local] Arguments pairs_written : simpl never.

Section ThreadAccounting.

Context {TenXClusterAligner : Type}.
Variable InvalidGenomeLocation : Z.
Variable FilterBothMatesMatch : Z.
Variable sizeof_pointer : Z.
Variable sizeof_PairedAlignmentResult : Z.
Variable sizeof_SingleAlignmentResult : Z.
Variable passFilter : Read -> AlignmentResult -> bool -> bool -> bool.
Variable readIdsMatch : Read -> Read -> bool.
Variable indeterminate : PairedAlignmentResult.
Variable TenXClusterAligner_new : Context -> TenXClusterAligner.
Variable align_first_stage :
  Worker TenXClusterAligner -> Worker TenXClusterAligner * bool.
Variable align_second_stage :
  Worker TenXClusterAligner -> Worker TenXClusterAligner * bool.
Variable align_third_stage :
  Worker TenXClusterAligner -> Worker TenXClusterAligner * bool.

#[local] Abbreviation Wk := (Worker TenXClusterAligner).
#[local] Abbreviation fast_pass' :=
  (fast_pass InvalidGenomeLocation FilterBothMatesMatch passFilter).
#[local] Abbreviation fast_path' :=
  (fast_path InvalidGenomeLocation FilterBothMatesMatch passFilter
     readIdsMatch).
#[local] Abbreviation buffer_pair' :=
  (buffer_pair (TenXClusterAligner := TenXClusterAligner)
     InvalidGenomeLocation FilterBothMatesMatch passFilter readIdsMatch
     indeterminate).
#[local] Abbreviation buffer_reads' :=
  (buffer_reads (TenXClusterAligner := TenXClusterAligner)
     InvalidGenomeLocation FilterBothMatesMatch passFilter readIdsMatch
     indeterminate).
#[local] Abbreviation allocate' :=
  (allocate sizeof_pointer TenXClusterAligner_new).
#[local] Abbreviation runIterationThread' :=
  (runIterationThread InvalidGenomeLocation FilterBothMatesMatch
     sizeof_pointer sizeof_PairedAlignmentResult sizeof_SingleAlignmentResult
     passFilter readIdsMatch indeterminate TenXClusterAligner_new
     align_first_stage align_second_stage align_third_stage).

(** X10: a run of the path without an index that reaches the end of the
    input has added two to [totalReads] for every pair but only one to
    [notFound] (the pair passed the filter) or to [uselessReads] (it did
    not); it has called the writer once for each pair counted in [notFound];
    no other class of reads is touched. *)
Theorem fast_path_counts_pairs (c : Context) (supply : list (Read * Read)) :
  forall (o o' : list Event) (s s' : Stats),
    fast_path' c supply o s = Done (o', s') ->
    totalReads s' = totalReads s + 2 * Z.of_nat (length supply)
    /\ notFound s' + uselessReads s'
       = notFound s + uselessReads s + Z.of_nat (length supply)
    /\ notFound s' - notFound s
       = Z.of_nat (length (List.filter (fun p => fast_pass' c p.1 p.2) supply))
    /\ pairs_written o'
       = pairs_written o
         + (if c_readWriter c then notFound s' - notFound s else 0)
    /\ filtered s' = filtered s
    /\ singleHits s' = singleHits s
    /\ multiHits s' = multiHits s.
Proof.
  induction supply as [|[r0 r1] rest IH]; intros o o' s s' H.
  - injection H as <- <-. cbn. destruct (c_readWriter c); repeat split; lia.
  - cbn [fast_path] in H.
    destruct (negb (c_ignoreMismatchedIDs c) && negb (readIdsMatch r0 r1));
      [discriminate|].
    cbv zeta in H. cbn [List.filter length fst snd].
    destruct (fast_pass' c r0 r1) eqn:Ep;
      apply IH in H as (H1 & H2 & H3 & H4 & H5 & H6 & H7);
      cbn [add_notFound add_uselessReads add_totalReads totalReads notFound
           uselessReads filtered singleHits multiHits length] in *;
      rewrite ?Nat2Z.inj_succ;
      destruct (c_readWriter c);
      rewrite ?pairs_written_app in H4;
      change (pairs_written
                [writePairs (r0, r1) [fast_result InvalidGenomeLocation] 1
                   None (0, 0) true])
        with 1 in *;
      repeat split; lia.
Qed.

(** X11: without [ignoreMismatchedIDs] the path without an index stops at the
    first pair whose identifiers do not match: the pairs before it have been
    processed and written, the message naming both identifiers is the last
    thing printed, the exit code is 1, and nothing after that pair is read. *)
Theorem fast_path_stops_at_first_mismatch (c : Context)
  (pre post : list (Read * Read)) (r0 r1 : Read) :
  forall (o : list Event) (s : Stats),
    c_ignoreMismatchedIDs c = false ->
    Forall (fun p => readIdsMatch p.1 p.2 = true) pre ->
    readIdsMatch r0 r1 = false ->
    exists o1 s1,
      fast_path' c pre o s = Done (o1, s1)
      /\ fast_path' c (pre ++ (r0, r1) :: post) o s
         = Exited 1 (o1 ++ [WriteErrorMessage (unmatched_message r0 r1)]).
Proof.
  induction pre as [|[a b] pre IH]; intros o s Hi Hpre Hbad.
  - exists o, s. split; [reflexivity|]. cbn [app fast_path].
    rewrite Hi, Hbad. reflexivity.
  - inversion Hpre as [|? ? Hab Hrest]; subst. cbn in Hab.
    cbn [app fast_path]. rewrite Hab, andb_false_r. cbv zeta.
    destruct (fast_pass' c a b); apply IH; assumption.
Qed.

(** X12: the path without an index runs to the end of the input, without
    exit or fault, when [ignoreMismatchedIDs] is set or every pair has
    matching identifiers. *)
Theorem fast_path_completes (c : Context) (supply : list (Read * Read)) :
  forall (o : list Event) (s : Stats),
    c_ignoreMismatchedIDs c = true
    \/ Forall (fun p => readIdsMatch p.1 p.2 = true) supply ->
    exists o' s', fast_path' c supply o s = Done (o', s').
Proof.
  induction supply as [|[a b] rest IH]; intros o s H.
  - exists o, s. reflexivity.
  - cbn [fast_path].
    assert (E : negb (c_ignoreMismatchedIDs c) && negb (readIdsMatch a b)
                = false).
    { destruct H as [->|H]; [reflexivity|].
      inversion H as [|? ? Hab _]; subst. cbn in Hab. rewrite Hab.
      apply andb_false_r. }
    rewrite E. cbv zeta.
    assert (Hrest : c_ignoreMismatchedIDs c = true
                    \/ Forall (fun p => readIdsMatch p.1 p.2 = true) rest).
    { destruct H as [H|H]; [left; exact H|].
      right. inversion H; assumption. }
    destruct (fast_pass' c a b); apply IH; exact Hrest.
Qed.

Lemma buffer_pair_counts (c : Context) (w w' : Wk) (p : Read * Read) :
  buffer_pair' c w p = Done w' ->
  totalReads (stats w') = totalReads (stats w) + 2
  /\ 2 * totalPairsForBarcode w' + uselessReads (stats w')
     + filtered (stats w')
     = 2 * totalPairsForBarcode w + uselessReads (stats w)
       + filtered (stats w) + 2
  /\ totalPairsForBarcode w <= totalPairsForBarcode w'
  /\ uselessReads (stats w) <= uselessReads (stats w')
  /\ filtered (stats w) <= filtered (stats w')
  /\ 2 * pairs_written (out w')
     = 2 * pairs_written (out w)
       + (if c_readWriter c
          then uselessReads (stats w') - uselessReads (stats w) else 0)
  /\ singleHits (stats w') = singleHits (stats w)
  /\ multiHits (stats w') = multiHits (stats w)
  /\ notFound (stats w') = notFound (stats w).
Proof.
  unfold buffer_pair, checkIdMatch.
  repeat (bind_step; try discriminate).
  all: repeat match goal with
         | |- context [if ?b then _ else _] => destruct b; simpl
         end.
  all: intros H; inversion H; subst; clear H; simpl.
  all: rewrite ?pairs_written_app.
  all: repeat match goal with
         | |- context [pairs_written [?e]] =>
             change (pairs_written [e]) with 1
         end.
  all: repeat split; lia.
Qed.

(** The buffering loop, on a run that reaches the end of the input: every
    pair adds two reads to [totalReads] and either enters the batch, or adds
    two reads to [uselessReads] (and is written), or two to [filtered]. *)
Lemma buffer_reads_counts_reads (c : Context) (supply : list (Read * Read)) :
  forall w w' : Wk,
    buffer_reads' c supply w = Done w' ->
    totalReads (stats w')
    = totalReads (stats w) + 2 * Z.of_nat (length supply)
    /\ 2 * (totalPairsForBarcode w' - totalPairsForBarcode w)
       + (uselessReads (stats w') - uselessReads (stats w))
       + (filtered (stats w') - filtered (stats w))
       = 2 * Z.of_nat (length supply)
    /\ totalPairsForBarcode w <= totalPairsForBarcode w'
    /\ uselessReads (stats w) <= uselessReads (stats w')
    /\ filtered (stats w) <= filtered (stats w')
    /\ 2 * pairs_written (out w')
       = 2 * pairs_written (out w)
         + (if c_readWriter c
            then uselessReads (stats w') - uselessReads (stats w) else 0)
    /\ singleHits (stats w') = singleHits (stats w)
    /\ multiHits (stats w') = multiHits (stats w)
    /\ notFound (stats w') = notFound (stats w).
Proof.
  induction supply as [|p rest IH]; intros w w' H.
  - injection H as <-. cbn [length]. destruct (c_readWriter c);
      repeat split; lia.
  - cbn [buffer_reads] in H.
    destruct (buffer_pair' c w p) as [w1| | |] eqn:E; try discriminate.
    rewrite bind_Done in H.
    apply buffer_pair_counts in E. apply IH in H.
    cbn [length]. rewrite Nat2Z.inj_succ.
    destruct (c_readWriter c); repeat split; lia.
Qed.

(** *** The output loop *)

Lemma updateStats_classified (s : Stats) (r : PairedAlignmentResult)
  (u0 u1 : bool) :
  classified (updateStats s r u0 u1) = classified s + 2
  /\ totalReads (updateStats s r u0 u1) = totalReads s
  /\ filtered (updateStats s r u0 u1) = filtered s
  /\ extraAlignments (updateStats s r u0 u1) = extraAlignments s.
Proof.
  unfold updateStats, updateStats_read, classified.
  destruct u0, u1, (isOneLocation (status r).1), (isOneLocation (status r).2),
    (AlignmentResult_eqb (status r).1 MultipleHits),
    (AlignmentResult_eqb (status r).2 MultipleHits),
    ((direction r).1 =? (direction r).2), (alignedAsPair r);
    cbn; repeat split; lia.
Qed.

Lemma emit_pair_counts (fuel : nat) (c : Context) (w w' : Wk) (pairIdx : Z) :
  emit_pair InvalidGenomeLocation FilterBothMatesMatch passFilter fuel c w
    pairIdx = Done w' ->
  classified (stats w') = classified (stats w) + 2
  /\ totalReads (stats w') = totalReads (stats w)
  /\ totalPairsForBarcode w' = totalPairsForBarcode w
  /\ pairs_written (out w')
     = pairs_written (out w) + (if c_readWriter c then 1 else 0).
Proof.
  intros H. unfold emit_pair in H.
  apply bind_Done_inv in H as (buf & _ & H).
  apply bind_Done_inv in H as (recs1 & _ & H).
  apply bind_Done_inv in H as ([[recs2 off] fip] & _ & H).
  apply bind_Done_inv in H as (rs & _ & H). cbv zeta in H.
  apply bind_Done_inv in H as (sbuf & _ & H).
  apply bind_Done_inv in H as (base1 & _ & H).
  apply bind_Done_inv in H as ([srecs1 n0] & _ & H).
  apply bind_Done_inv in H as (n1 & _ & H).
  apply bind_Done_inv in H as ([srecs2 n1'] & _ & H).
  apply bind_Done_inv in H as (ns1 & _ & H).
  apply bind_Done_inv in H as (ns2 & _ & H).
  apply bind_Done_inv in H as (ss & _ & H).
  apply bind_Done_inv in H as (n & _ & H).
  apply bind_Done_inv in H as (w3 & Hw3 & H).
  assert (G : stats w3 = stats w /\ totalPairsForBarcode w3 = totalPairsForBarcode w
              /\ pairs_written (out w3)
                 = pairs_written (out w) + (if c_readWriter c then 1 else 0)).
  { destruct (c_readWriter c).
    - apply bind_Done_inv in Hw3 as (r0 & _ & Hw3).
      apply bind_Done_inv in Hw3 as (r1 & _ & Hw3).
      injection Hw3 as <-. cbn [emit set_out stats totalPairsForBarcode out
        set_nSingleSecondaryResults set_singleSecondaryResults
        set_nSecondaryResults_off set_results].
      rewrite pairs_written_app. repeat split.
    - injection Hw3 as <-. cbn. repeat split. lia. }
  destruct G as (Gs & Gt & Go).
  destruct fip.
  - apply bind_Done_inv in H as (primary & _ & H).
    apply bind_Done_inv in H as (u0 & _ & H).
    apply bind_Done_inv in H as (u1 & _ & H).
    injection H as <-. cbn [set_stats stats totalPairsForBarcode out].
    destruct (updateStats_classified
                (add_extraAlignments (n + 0) (stats w3)) primary u0 u1)
      as (U1 & U2 & _).
    rewrite U1, U2, Gs. repeat split; try assumption.
  - injection H as <-. cbn [set_stats stats totalPairsForBarcode out].
    rewrite Gs. repeat split; try assumption.
    unfold classified. cbn. lia.
Qed.

Lemma for_each_emit_pair_counts (fuel : nat) (c : Context) (idxs : list Z) :
  forall w w' : Wk,
    for_each (emit_pair InvalidGenomeLocation FilterBothMatesMatch passFilter
                fuel c) idxs w = Done w' ->
    classified (stats w')
    = classified (stats w) + 2 * Z.of_nat (length idxs)
    /\ totalReads (stats w') = totalReads (stats w)
    /\ totalPairsForBarcode w' = totalPairsForBarcode w
    /\ pairs_written (out w')
       = pairs_written (out w)
         + (if c_readWriter c then Z.of_nat (length idxs) else 0).
Proof.
  induction idxs as [|i rest IH]; intros w w' H.
  - injection H as <-. cbn [length]. destruct (c_readWriter c);
      repeat split; lia.
  - cbn [for_each] in H. apply bind_Done_inv in H as (w1 & E & H).
    apply emit_pair_counts in E. apply IH in H.
    cbn [length]. rewrite Nat2Z.inj_succ.
    destruct (c_readWriter c); repeat split; lia.
Qed.

Lemma length_upto (n : Z) : Z.of_nat (length (upto n)) = Z.max 0 n.
Proof. unfold upto. rewrite length_seqZ. lia. Qed.

(** The output loop classifies two reads for every pair of the batch and
    calls the writer once for each. *)
Lemma emit_all_counts_reads (fuel : nat) (c : Context) (w w' : Wk) :
  0 <= totalPairsForBarcode w ->
  emit_all InvalidGenomeLocation FilterBothMatesMatch passFilter fuel c w
  = Done w' ->
  classified (stats w')
  = classified (stats w) + 2 * totalPairsForBarcode w
  /\ totalReads (stats w') = totalReads (stats w)
  /\ pairs_written (out w')
     = pairs_written (out w)
       + (if c_readWriter c then totalPairsForBarcode w else 0).
Proof.
  intros Ht H. unfold emit_all in H.
  apply for_each_emit_pair_counts in H as (H1 & H2 & _ & H4).
  rewrite length_upto in H1, H4.
  replace (Z.max 0 (totalPairsForBarcode w)) with (totalPairsForBarcode w)
    in * by lia.
  repeat split; assumption.
Qed.

(** *** From the first read to the return *)

Lemma for_each_keeps {S A : Type} (get : S -> A) (body : S -> Z -> Outcome S)
  (idxs : list Z) :
  (forall s i s', body s i = Done s' -> get s' = get s) ->
  forall s s', for_each body idxs s = Done s' -> get s' = get s.
Proof.
  intros Hbody. induction idxs as [|i rest IH]; intros s s' H.
  - injection H as <-. reflexivity.
  - cbn [for_each] in H. apply bind_Done_inv in H as (s1 & E & H).
    apply IH in H. apply Hbody in E. congruence.
Qed.

Lemma grow_paired_keeps (w w' : Wk) (i : Z) :
  grow_paired sizeof_PairedAlignmentResult w i = Done w' ->
  (stats w', out w', totalPairsForBarcode w')
  = (stats w, out w, totalPairsForBarcode w).
Proof.
  unfold grow_paired. cbv beta iota zeta delta [BigAlloc].
  repeat (bind_step; try discriminate).
  all: repeat match goal with
         | |- context [if ?b then _ else _] => destruct b; simpl
         end.
  all: repeat (bind_step; try discriminate).
  all: intros H; inversion H; subst; reflexivity.
Qed.

Lemma grow_single_keeps (w w' : Wk) (i : Z) :
  grow_single sizeof_SingleAlignmentResult w i = Done w' ->
  (stats w', out w', totalPairsForBarcode w')
  = (stats w, out w, totalPairsForBarcode w).
Proof.
  unfold grow_single. cbv beta iota zeta delta [BigAlloc].
  repeat (bind_step; try discriminate).
  all: repeat match goal with
         | |- context [if ?b then _ else _] => destruct b; simpl
         end.
  all: repeat (bind_step; try discriminate).
  all: intros H; inversion H; subst; reflexivity.
Qed.

Lemma stage_call_keeps (stage : Wk -> Wk * bool) (w : Wk) :
  (forall v, totalPairsForBarcode (stage v).1 = totalPairsForBarcode v) ->
  (stats (stage_call stage w).1, out (stage_call stage w).1,
   totalPairsForBarcode (stage_call stage w).1)
  = (stats w, out w, totalPairsForBarcode w)
  /\ (stage_call stage w).2 = (stage w).2.
Proof.
  intros Hstage. unfold stage_call. specialize (Hstage w).
  destruct (stage w) as [v b]. cbn in *. rewrite Hstage. split; reflexivity.
Qed.

Lemma retry_loop_keeps (stage : Wk -> Wk * bool)
  (grow : Wk -> Z -> Outcome Wk) (fuel : nat) :
  (forall v, totalPairsForBarcode (stage v).1 = totalPairsForBarcode v) ->
  (forall v i v', grow v i = Done v' ->
     (stats v', out v', totalPairsForBarcode v')
     = (stats v, out v, totalPairsForBarcode v)) ->
  forall w w',
    retry_loop stage grow fuel w = Done w' ->
    (stats w', out w', totalPairsForBarcode w')
    = (stats w, out w, totalPairsForBarcode w).
Proof.
  intros Hstage Hgrow.
  induction fuel as [|fuel IH]; intros w w' H; [discriminate|].
  cbn [retry_loop] in H.
  destruct (stage_call_keeps stage w Hstage) as [Hk _].
  destruct (stage_call stage w) as [w1 finished]. cbn [fst snd] in Hk.
  destruct finished.
  - injection H as <-. exact Hk.
  - apply bind_Done_inv in H as (w2 & E & H).
    apply (for_each_keeps
             (fun v : Wk => (stats v, out v, totalPairsForBarcode v))
             grow _ Hgrow) in E.
    apply IH in H. congruence.
Qed.

Lemma free_pair_buffers_keeps (w w' : Wk) (i : Z) :
  free_pair_buffers w i = Done w' -> (stats w', out w') = (stats w, out w).
Proof.
  unfold free_pair_buffers.
  repeat (bind_step; try discriminate).
  intros H; inversion H; subst; reflexivity.
Qed.

Lemma cleanup_keeps (c : Context) (w w' : Wk) :
  cleanup c w = Done w' -> (stats w', out w') = (stats w, out w).
Proof.
  unfold cleanup. cbv zeta. intros H.
  apply bind_Done_inv in H as (w2 & E & H).
  apply (for_each_keeps (fun v : Wk => (stats v, out v)) _ _
           (fun v i v' => free_pair_buffers_keeps v v' i)) in E.
  destruct (nSecondaryResults_off w2 =? 0); [|discriminate].
  injection H as <-. cbn in *. exact E.
Qed.

(** X13: on a run with an index that returns, every pair of the input has
    added two reads to [totalReads]; when stage 1 does not report the
    barcode finished every read is also put in exactly one class (filtered,
    single hit, multiple hits, not found or useless) and every pair that
    was not filtered while buffering is written exactly once; when stage 1
    reports it finished the reads of the batch are counted in [totalReads]
    but in no class, and no pair of the batch is written.  The stage calls
    are assumed not to change the number of pairs, which they receive by
    value. *)
Theorem every_read_is_classified_once (fuel : nat) (c : Context)
  (supply : list (Read * Read)) (h0 : Heap) (s0 : Stats) (w1 : Wk)
  (r : Returned) :
  (forall w, totalPairsForBarcode (align_first_stage w).1
             = totalPairsForBarcode w) ->
  (forall w, totalPairsForBarcode (align_second_stage w).1
             = totalPairsForBarcode w) ->
  (forall w, totalPairsForBarcode (align_third_stage w).1
             = totalPairsForBarcode w) ->
  buffer_reads' c supply (allocate' c h0 [] s0) = Done w1 ->
  runIterationThread' fuel c (mkInput (Some supply) false true) h0 s0
  = Done r ->
  let batch := if (align_first_stage w1).2 then 0 else totalPairsForBarcode w1 in
  totalReads (ret_stats r) = totalReads s0 + 2 * Z.of_nat (length supply)
  /\ classified (ret_stats r)
     = classified s0 + 2 * Z.of_nat (length supply)
       - 2 * (totalPairsForBarcode w1 - batch)
  /\ 2 * pairs_written (ret_out r)
     = if c_readWriter c
       then uselessReads (stats w1) - uselessReads s0 + 2 * batch
       else 0.
Proof.
  intros H1 H2 H3 Hbuf Hrun.
  unfold runIterationThread in Hrun.
  cbn [i_supplier i_extension i_index negb] in Hrun. cbv zeta in Hrun.
  rewrite Hbuf, bind_Done in Hrun.
  pose proof (allocate_fields sizeof_pointer TenXClusterAligner_new c h0 [] s0)
    as (_ & _ & _ & Ht0 & Ho0 & Hs0 & _).
  apply buffer_reads_counts_reads in Hbuf
    as (B1 & B2 & B3 & B4 & B5 & B6 & B7 & B8 & B9).
  rewrite Ht0, Ho0, Hs0 in *. change (pairs_written []) with 0 in B6.
  destruct (stage_call_keeps align_first_stage w1 H1) as [K1 K2].
  destruct (stage_call align_first_stage w1) as [w2 finished].
  cbn [fst snd] in K1, K2. rewrite <- K2. cbv zeta.
  injection K1 as K1s K1o K1t.
  destruct finished.
  - injection Hrun as <-. cbn [returned ret_stats ret_out].
    rewrite K1s, K1o.
    unfold classified in *. destruct (c_readWriter c); repeat split; lia.
  - apply bind_Done_inv in Hrun as (w3 & E3 & Hrun).
    apply bind_Done_inv in Hrun as (w4 & E4 & Hrun).
    apply bind_Done_inv in Hrun as (w5 & E5 & Hrun).
    apply bind_Done_inv in Hrun as (w6 & E6 & Hrun).
    injection Hrun as <-.
    apply (retry_loop_keeps _ _ _ H2
             (fun v i v' => grow_paired_keeps v v' i)) in E3.
    apply (retry_loop_keeps _ _ _ H3
             (fun v i v' => grow_single_keeps v v' i)) in E4.
    apply cleanup_keeps in E6.
    injection E3 as E3s E3o E3t. injection E4 as E4s E4o E4t.
    injection E6 as E6s E6o.
    apply emit_all_counts_reads in E5 as (F1 & F2 & F3); [|lia].
    cbn [returned ret_stats ret_out].
    rewrite E6s, E6o, F1, F2, F3, E4s, E4o, E4t, E3s, E3o, E3t, K1s, K1o, K1t.
    unfold classified in *. destruct (c_readWriter c); repeat split; lia.
Qed.

(** *** A barcode that fits *)

(** What a turn of the buffering loop needs and keeps: room for the next
    pair, and, once the batch is not empty, a first pair whose identifiers
    pass the check. *)
Lemma buffer_pair_fits (c : Context) (w : Wk) (p : Read * Read) :
  let t := totalPairsForBarcode w in
  0 <= t ->
  t * 2 + 1 < Z.of_nat (length (cells (reads w))) ->
  t < Z.of_nat (length (cells (useful0 w))) ->
  t < Z.of_nat (length (cells (useful1 w))) ->
  (0 < t -> exists a b,
     cells (reads w) !! 0%nat = Some (Some a)
     /\ cells (reads w) !! 1%nat = Some (Some b)
     /\ (c_ignoreMismatchedIDs c = true \/ readIdsMatch a b = true)) ->
  c_ignoreMismatchedIDs c = true \/ readIdsMatch p.1 p.2 = true ->
  exists w',
    buffer_pair' c w p = Done w'
    /\ length (cells (reads w')) = length (cells (reads w))
    /\ length (cells (useful0 w')) = length (cells (useful0 w))
    /\ length (cells (useful1 w')) = length (cells (useful1 w))
    /\ t <= totalPairsForBarcode w' <= t + 1
    /\ (0 < totalPairsForBarcode w' -> exists a b,
          cells (reads w') !! 0%nat = Some (Some a)
          /\ cells (reads w') !! 1%nat = Some (Some b)
          /\ (c_ignoreMismatchedIDs c = true \/ readIdsMatch a b = true)).
Proof.
  intros t Ht Hr H0 H1 Hfirst Hid.
  assert (Hab : exists a b,
             cells (reads (stored c w p a b)) !! 0%nat = Some (Some a)
             /\ cells (reads (stored c w p a b)) !! 1%nat = Some (Some b)
             /\ (c_ignoreMismatchedIDs c = true \/ readIdsMatch a b = true)).
  { destruct (Z.eq_dec t 0) as [E|E].
    - exists p.1, p.2. unfold stored. fold t. rewrite E. cbn.
      split; [|split; [|exact Hid]].
      + rewrite list_lookup_insert_ne by lia.
        apply list_lookup_insert_eq. lia.
      + apply list_lookup_insert_eq. rewrite length_insert. lia.
    - destruct Hfirst as (a & b & Ha & Hb & Hm); [lia|].
      exists a, b. unfold stored. fold t. cbn.
      rewrite !list_lookup_insert_ne by lia. auto. }
  destruct Hab as (a & b & Ha & Hb & Hm).
  rewrite (buffer_pair_in_bounds InvalidGenomeLocation FilterBothMatesMatch
             passFilter readIdsMatch indeterminate c w p a b);
    fold t; try assumption.
  rewrite (id_check_passes readIdsMatch c a b Hm).
  assert (Hlen : length (cells (reads (stored c w p a b)))
                 = length (cells (reads w))
                 /\ length (cells (useful0 (stored c w p a b)))
                    = length (cells (useful0 w))
                 /\ length (cells (useful1 (stored c w p a b)))
                    = length (cells (useful1 w))
                 /\ totalPairsForBarcode (stored c w p a b) = t).
  { unfold stored. cbn. rewrite !length_insert. auto. }
  destruct Hlen as (L1 & L2 & L3 & L4).
  destruct (negb (useful c a) && negb (useful c b)).
  - destruct (unmapped_pass _ _ _ _ c a b); cbv zeta;
      [destruct (c_readWriter c)|]; eexists; (split; [reflexivity|]);
      cbn [set_stats emit set_out reads useful0 useful1 totalPairsForBarcode];
      rewrite L1, L2, L3, L4;
      (repeat split; try lia); intros _; exists a, b; auto.
  - eexists. split; [reflexivity|].
    cbn [set_totalPairsForBarcode reads useful0 useful1 totalPairsForBarcode].
    rewrite L1, L2, L3.
    repeat split; try lia. intros _. exists a, b. auto.
Qed.

(** X14: buffering is safe when the input fits: with at most
    [maxBarcodeSize] pairs, and identifiers that match or are not compared,
    the loop runs to the end of the input inside all its arrays, and the
    batch holds at most as many pairs as were read. *)
Theorem buffer_reads_fits (c : Context) (supply : list (Read * Read))
  (h : Heap) (o : list Event) (s : Stats) :
  Z.of_nat (length supply) <= c_maxBarcodeSize c ->
  c_ignoreMismatchedIDs c = true
  \/ Forall (fun p => readIdsMatch p.1 p.2 = true) supply ->
  exists w',
    buffer_reads' c supply (allocate' c h o s) = Done w'
    /\ 0 <= totalPairsForBarcode w' <= Z.of_nat (length supply).
Proof.
  intros Hfit Hids.
  pose proof (allocate_fields sizeof_pointer TenXClusterAligner_new c h o s)
    as (Lr & L0 & L1 & Lt & _).
  assert (Hgen : forall (supply : list (Read * Read)) (w : Wk),
             0 <= totalPairsForBarcode w ->
             (totalPairsForBarcode w + Z.of_nat (length supply)) * 2
             <= Z.of_nat (length (cells (reads w))) ->
             totalPairsForBarcode w + Z.of_nat (length supply)
             <= Z.of_nat (length (cells (useful0 w))) ->
             totalPairsForBarcode w + Z.of_nat (length supply)
             <= Z.of_nat (length (cells (useful1 w))) ->
             (0 < totalPairsForBarcode w -> exists a b,
                cells (reads w) !! 0%nat = Some (Some a)
                /\ cells (reads w) !! 1%nat = Some (Some b)
                /\ (c_ignoreMismatchedIDs c = true \/ readIdsMatch a b = true)) ->
             c_ignoreMismatchedIDs c = true
             \/ Forall (fun p => readIdsMatch p.1 p.2 = true) supply ->
             exists w',
               buffer_reads' c supply w = Done w'
               /\ totalPairsForBarcode w <= totalPairsForBarcode w'
                  <= totalPairsForBarcode w + Z.of_nat (length supply)).
  { clear. induction supply as [|p rest IH]; intros w Ht Hr H0 H1 Hfirst Hids.
    - exists w. split; [reflexivity|]. cbn [length]. lia.
    - cbn [length] in *. rewrite Nat2Z.inj_succ in *.
      destruct (buffer_pair_fits c w p) as (w1 & E & G1 & G2 & G3 & G4 & G5);
        try lia; try assumption.
      { destruct Hids as [Hi|Hall]; [left; exact Hi|].
        right. inversion Hall; assumption. }
      destruct (IH w1) as (w' & E' & G'); try lia; try assumption.
      { destruct Hids as [Hi|Hall]; [left; exact Hi|].
        right. inversion Hall; assumption. }
      exists w'. cbn [buffer_reads]. rewrite E, bind_Done.
      split; [exact E'|lia]. }
  destruct (Hgen supply (allocate' c h o s)) as (w' & E & G);
    rewrite ?Lr, ?L0, ?L1, ?Lt, ?length_replicate; try lia; try assumption.
  exists w'. split; [exact E|]. rewrite Lt in G. lia.
Qed.

End ThreadAccounting.

(** *** The filter over the single-end results *)

Lemma rec_at_middle {A : Type} (what : string) (l1 l2 : list A) (x : A) (i : Z) :
  i = Z.of_nat (length l1) -> rec_at what (l1 ++ x :: l2) i = Done x.
Proof.
  intros ->. unfold rec_at. destruct (Z.ltb_spec (Z.of_nat (length l1)) 0); [lia|].
  rewrite Nat2Z.id, list_lookup_middle by reflexivity. reflexivity.
Qed.

Lemma insert_middle {A : Type} (l1 l2 : list A) (x y : A) (i : nat) :
  i = length l1 -> <[i := y]> (l1 ++ x :: l2) = l1 ++ y :: l2.
Proof.
  intros ->. induction l1 as [|z l1 IH]; [reflexivity|].
  cbn. f_equal. exact IH.
Qed.

Section SingleFilter.

Context {TenXClusterAligner : Type}.
Variable passFilter : Read -> AlignmentResult -> bool -> bool -> bool.

(** The loop at a point where [done] has been kept and [cur] is still to be
    looked at. *)
Lemma filter_single_segment (w : Worker TenXClusterAligner) (g : Z) (r : Read) :
  rd "reads" (cells (reads w)) g = Done r ->
  forall (fuel : nat) (cur pre done post : list SingleAlignmentResult),
    (length cur < fuel)%nat ->
    exists kept junk,
      filter_single passFilter fuel w g (Z.of_nat (length pre))
        (pre ++ done ++ cur ++ post)
        (Z.of_nat (length done + length cur)) (Z.of_nat (length done))
      = Done (pre ++ done ++ kept ++ junk ++ post,
              Z.of_nat (length done + length kept))
      /\ kept ≡ₚ List.filter (fun a => passFilter r (s_status a) false true) cur
      /\ length (kept ++ junk) = length cur.
Proof.
  intros Hr. induction fuel as [|fuel IH]; intros cur pre done post Hfuel;
    [lia|].
  cbn [filter_single].
  destruct cur as [|a cur'].
  - destruct (Z.ltb_spec (Z.of_nat (length done))
                (Z.of_nat (length done + length (@nil SingleAlignmentResult))));
      [cbn [length] in *; lia|].
    exists [], []. cbn [length app]. split; [reflexivity|]. split; reflexivity.
  - destruct (Z.ltb_spec (Z.of_nat (length done))
                (Z.of_nat (length done + length (a :: cur'))));
      [|cbn [length] in *; lia].
    rewrite Hr, bind_Done.
    rewrite (app_assoc pre done).
    rewrite (rec_at_middle _ (pre ++ done) (cur' ++ post) a
               (Z.of_nat (length pre) + Z.of_nat (length done)))
      by (rewrite length_app; lia).
    rewrite bind_Done.
    destruct (passFilter r (s_status a) false true) eqn:Ep; cbn [negb].
    + destruct (IH cur' pre (done ++ [a]) post) as (kept & junk & E & Hp & Hl);
        [cbn [length] in Hfuel; lia|].
      exists (a :: kept), junk.
      replace (Z.of_nat (length done) + 1)
        with (Z.of_nat (length (done ++ [a])))
        by (rewrite length_app; cbn [length]; lia).
      replace (Z.of_nat (length done + length (a :: cur')))
        with (Z.of_nat (length (done ++ [a]) + length cur'))
        by (rewrite length_app; cbn [length]; lia).
      replace ((pre ++ done) ++ (a :: cur') ++ post)
        with (pre ++ (done ++ [a]) ++ cur' ++ post)
        by (rewrite <- !app_assoc; reflexivity).
      rewrite E. split; [|split].
      * f_equal. f_equal.
        -- rewrite <- !app_assoc. reflexivity.
        -- rewrite length_app. cbn [length]. f_equal. lia.
      * cbn [List.filter]. rewrite Ep. constructor. exact Hp.
      * cbn [length app] in *. lia.
    + replace (Z.of_nat (length done) - 1 + 1) with (Z.of_nat (length done))
        by lia.
      destruct (@exists_last _ (a :: cur')) as (init & l & Heq);
        [discriminate|].
      destruct init as [|a' init'].
      * (* the record is itself the last one *)
        cbn [app] in Heq. injection Heq as <- ->. cbn [app].
        rewrite (rec_at_middle _ (pre ++ done) post a)
          by (rewrite length_app; cbn [length]; lia).
        rewrite bind_Done.
        replace (Z.to_nat (Z.of_nat (length pre) + Z.of_nat (length done)))
          with (length (pre ++ done)) by (rewrite length_app; lia).
        rewrite insert_middle by reflexivity.
        destruct (IH [] pre done (a :: post)) as (kept & junk & E & Hp & Hl);
          [cbn [length] in *; lia|].
        apply Permutation_nil_r in Hp. subst kept.
        destruct junk; [|discriminate].
        exists [], [a].
        replace (Z.of_nat (length done + length [a]) - 1)
          with (Z.of_nat (length done + length (@nil SingleAlignmentResult)))
          by (cbn [length]; lia).
        rewrite <- app_assoc. cbn [app] in *. rewrite E.
        split; [reflexivity|]. cbn [List.filter]. rewrite Ep.
        split; reflexivity.
      * (* the last record [l] takes its place *)
        cbn [app] in Heq. injection Heq as <- ->.
        replace ((pre ++ done) ++ (a :: init' ++ [l]) ++ post)
          with ((pre ++ done ++ a :: init') ++ l :: post)
          by (rewrite <- !app_assoc; cbn [app]; rewrite <- !app_assoc;
              reflexivity).
        rewrite (rec_at_middle _ (pre ++ done ++ a :: init') post l)
          by (rewrite !length_app; cbn [length]; rewrite length_app;
              cbn [length]; lia).
        rewrite bind_Done.
        replace ((pre ++ done ++ a :: init') ++ l :: post)
          with ((pre ++ done) ++ a :: (init' ++ l :: post))
          by (rewrite <- !app_assoc; cbn [app]; reflexivity).
        replace (Z.to_nat (Z.of_nat (length pre) + Z.of_nat (length done)))
          with (length (pre ++ done)) by (rewrite length_app; lia).
        rewrite insert_middle by reflexivity.
        destruct (IH (l :: init') pre done (l :: post))
          as (kept & junk & E & Hp & Hl);
          [cbn [length] in *; rewrite length_app in Hfuel; cbn [length] in *;
           lia|].
        exists kept, (junk ++ [l]).
        replace (Z.of_nat (length done + length (a :: init' ++ [l])) - 1)
          with (Z.of_nat (length done + length (l :: init')))
          by (cbn [length]; rewrite length_app; cbn [length]; lia).
        replace ((pre ++ done) ++ l :: init' ++ l :: post)
          with (pre ++ done ++ (l :: init') ++ l :: post)
          by (rewrite <- !app_assoc; reflexivity).
        rewrite E. split; [|split].
        -- f_equal. f_equal. rewrite <- !app_assoc. reflexivity.
        -- rewrite Hp. cbn [List.filter]. rewrite Ep.
           rewrite List.filter_app. cbn [List.filter].
           destruct (passFilter r (s_status l) false true).
           ++ apply Permutation_cons_append.
           ++ rewrite app_nil_r. reflexivity.
        -- rewrite !length_app in *. cbn [length] in *.
           rewrite length_app. cbn [length]. lia.
Qed.

(** X15: the filter loop over the single-end secondary results of one read
    keeps exactly the results that pass the filter: with enough fuel it
    ends, the new count is the number of passing results, the first
    [n'] results from [base] are the passing ones in some order, and nothing
    outside the [n] results of this read is touched. *)
Theorem filter_single_keeps_what_passes (fuel : nat)
  (w : Worker TenXClusterAligner) (globalIdx base n : Z)
  (srecs : list SingleAlignmentResult) (r : Read) :
  rd "reads" (cells (reads w)) globalIdx = Done r ->
  0 <= base -> 0 <= n -> base + n <= Z.of_nat (length srecs) ->
  n < Z.of_nat fuel ->
  exists srecs' n',
    filter_single passFilter fuel w globalIdx base srecs n 0
    = Done (srecs', n')
    /\ 0 <= n' <= n
    /\ take (Z.to_nat n') (drop (Z.to_nat base) srecs')
       ≡ₚ List.filter (fun a => passFilter r (s_status a) false true)
            (take (Z.to_nat n) (drop (Z.to_nat base) srecs))
    /\ take (Z.to_nat base) srecs' = take (Z.to_nat base) srecs
    /\ drop (Z.to_nat (base + n)) srecs' = drop (Z.to_nat (base + n)) srecs
    /\ length srecs' = length srecs.
Proof.
  intros Hr Hb Hn Hlen Hfuel.
  set (pre := take (Z.to_nat base) srecs).
  set (cur := take (Z.to_nat n) (drop (Z.to_nat base) srecs)).
  set (post := drop (Z.to_nat (base + n)) srecs).
  assert (Hpre : length pre = Z.to_nat base)
    by (unfold pre; rewrite length_take; lia).
  assert (Hcur : length cur = Z.to_nat n)
    by (unfold cur; rewrite length_take, length_drop; lia).
  assert (Hsplit : srecs = pre ++ [] ++ cur ++ post).
  { unfold pre, cur, post. cbn [app].
    replace (Z.to_nat (base + n)) with (Z.to_nat base + Z.to_nat n)%nat by lia.
    rewrite <- drop_drop, !take_drop. reflexivity. }
  destruct (filter_single_segment w globalIdx r Hr fuel cur pre [] post)
    as (kept & junk & E & Hp & Hl); [lia|].
  cbn [length] in E.
  replace (Z.of_nat (length pre)) with base in E by lia.
  replace (Z.of_nat (0 + length cur)) with n in E by lia.
  rewrite <- Hsplit in E. change (Z.of_nat 0) with 0 in E.
  exists (pre ++ [] ++ kept ++ junk ++ post), (Z.of_nat (0 + length kept)).
  split; [exact E|].
  rewrite length_app in Hl.
  cbn [app]. rewrite Nat.add_0_l, Nat2Z.id.
  split; [lia|]. split; [|split; [|split]].
  - rewrite drop_app_length' by (symmetry; exact Hpre).
    rewrite take_app_length. exact Hp.
  - rewrite take_app_length' by (symmetry; exact Hpre). reflexivity.
  - rewrite (app_assoc kept junk post), (app_assoc pre (kept ++ junk) post).
    rewrite drop_app_length'; [reflexivity|].
    rewrite !length_app. lia.
  - transitivity (length (pre ++ [] ++ cur ++ post));
      [|rewrite <- Hsplit; reflexivity].
    rewrite !length_app. cbn [length]. lia.
Qed.

End SingleFilter.

(** *** The filter over the paired results, when nothing is removed *)

Section PairedFilter.

Context {TenXClusterAligner : Type}.
Variable FilterBothMatesMatch : Z.
Variable passFilter : Read -> AlignmentResult -> bool -> bool -> bool.

Lemma filter_paired_from (c : Context) (w : Worker TenXClusterAligner)
  (pairIdx off n : Z) (recs : list PairedAlignmentResult)
  (r0 r1 : Read) (u0 u1 : bool) :
  rd "nSecondaryResults" (cells (nSecondaryResults w)) (off + pairIdx) = Done n ->
  rd "reads" (cells (reads w)) (2 * pairIdx) = Done r0 ->
  rd "reads" (cells (reads w)) (2 * pairIdx + 1) = Done r1 ->
  rd "useful0" (cells (useful0 w)) pairIdx = Done u0 ->
  rd "useful1" (cells (useful1 w)) pairIdx = Done u1 ->
  n < Z.of_nat (length recs) ->
  (forall i rec,
     0 <= i <= n -> recs !! Z.to_nat i = Some rec ->
     paired_pass FilterBothMatesMatch passFilter c r0 r1 u0 u1 rec
       (negb (i =? 0)) = true) ->
  forall (fuel : nat) (i : Z),
    0 <= i -> Z.max 0 (n + 1 - i) < Z.of_nat fuel ->
    filter_paired FilterBothMatesMatch passFilter fuel c w pairIdx recs off
      true i
    = Done (recs, off, true).
Proof.
  intros Hn Hr0 Hr1 Hu0 Hu1 Hlen Hpass.
  induction fuel as [|fuel IH]; intros i Hi Hfuel; [lia|].
  cbn [filter_paired]. rewrite Hn, bind_Done.
  destruct (Z.leb_spec i n) as [Hin|Hin]; [|reflexivity].
  rewrite Hr0, bind_Done.
  destruct (lookup_lt_is_Some_2 recs (Z.to_nat i)) as [rec Hrec]; [lia|].
  assert (Hat : rec_at "results[pairIdx][i]" recs i = Done rec).
  { unfold rec_at. destruct (Z.ltb_spec i 0); [lia|]. rewrite Hrec.
    reflexivity. }
  rewrite Hat, bind_Done, Hu0, bind_Done, Hr1, bind_Done, Hu1, bind_Done.
  cbv zeta. cbn [negb]. rewrite orb_false_r.
  rewrite (Hpass i rec) by (try lia; exact Hrec). cbn [negb].
  apply IH; lia.
Qed.

(** X16: when the primary and all secondary results of a pair pass the
    filter, the loop over the paired results ends with the buffer, the count
    pointer and [firstIsPrimary] as they were. *)
Theorem filter_paired_all_pass (fuel : nat) (c : Context)
  (w : Worker TenXClusterAligner) (pairIdx off n : Z)
  (recs : list PairedAlignmentResult) (r0 r1 : Read) (u0 u1 : bool) :
  rd "nSecondaryResults" (cells (nSecondaryResults w)) (off + pairIdx) = Done n ->
  rd "reads" (cells (reads w)) (2 * pairIdx) = Done r0 ->
  rd "reads" (cells (reads w)) (2 * pairIdx + 1) = Done r1 ->
  rd "useful0" (cells (useful0 w)) pairIdx = Done u0 ->
  rd "useful1" (cells (useful1 w)) pairIdx = Done u1 ->
  n < Z.of_nat (length recs) ->
  Z.max 0 (n + 1) < Z.of_nat fuel ->
  (forall i rec,
     0 <= i <= n -> recs !! Z.to_nat i = Some rec ->
     paired_pass FilterBothMatesMatch passFilter c r0 r1 u0 u1 rec
       (negb (i =? 0)) = true) ->
  filter_paired FilterBothMatesMatch passFilter fuel c w pairIdx recs off
    true 0
  = Done (recs, off, true).
Proof.
  intros Hn Hr0 Hr1 Hu0 Hu1 Hlen Hfuel Hpass.
  apply (filter_paired_from c w pairIdx off n recs r0 r1 u0 u1); try assumption;
    lia.
Qed.

End PairedFilter.

(** *** The output loop when the filter lets everything through *)

Ltac worker_fields :=
  cbn [set_heap set_allocator set_supplier set_out set_stats set_reads
       set_results set_singleSecondaryResults set_nSecondaryResults_off
       set_nSingleSecondaryResults set_maxPairedSecondaryHits
       set_maxSingleSecondaryHits set_useful0 set_useful1
       set_totalPairsForBarcode emit
       heap allocator supplier out stats aligner tenXSingleTrackerArray reads
       results singleSecondaryResults nSecondaryResults nSecondaryResults_off
       nSingleSecondaryResults maxPairedSecondaryHits maxSingleSecondaryHits
       popularSeedsSkipped pairNotFinished useful0 useful1
       totalPairsForBarcode cells blk].

Section Unfiltered.

Context {TenXClusterAligner : Type}.
Variable InvalidGenomeLocation : Z.
Variable FilterBothMatesMatch : Z.
Variable passFilter : Read -> AlignmentResult -> bool -> bool -> bool.

Hypothesis passFilter_true :
  forall (r : Read) (st : AlignmentResult) (tooShort secondary : bool),
    passFilter r st tooShort secondary = true.

Lemma filter_single_all_pass (w : Worker TenXClusterAligner)
  (globalIdx base n : Z) (srecs : list SingleAlignmentResult) (r : Read) :
  rd "reads" (cells (reads w)) globalIdx = Done r ->
  0 <= base -> base + n <= Z.of_nat (length srecs) ->
  forall (fuel : nat) (k : Z),
    0 <= k -> Z.max 0 (n - k) < Z.of_nat fuel ->
    filter_single passFilter fuel w globalIdx base srecs n k
    = Done (srecs, n).
Proof.
  intros Hr Hb Hlen. induction fuel as [|fuel IH]; intros k Hk Hfuel; [lia|].
  cbn [filter_single].
  destruct (Z.ltb_spec k n) as [Hkn|Hkn]; [|reflexivity].
  rewrite Hr, bind_Done.
  destruct (lookup_lt_is_Some_2 srecs (Z.to_nat (base + k))) as [a Ha]; [lia|].
  assert (Hat : rec_at "singleResults[whichRead][whichAlignment]" srecs
                  (base + k) = Done a).
  { unfold rec_at. destruct (Z.ltb_spec (base + k) 0); [lia|]. rewrite Ha.
    reflexivity. }
  rewrite Hat, bind_Done, passFilter_true. cbn [negb]. apply IH; lia.
Qed.

(** X17: with [forceSpacing] off and a filter that lets everything through,
    the body of the output loop hands the writer the pair with its [n + 1]
    paired results and its single-end results exactly as the stages left
    them, with [firstIsPrimary] set, changes no buffer and no count, and adds
    the pair's [n] secondary results and its primary result to the
    statistics. *)
Theorem emit_pair_unfiltered (fuel : nat) (c : Context)
  (w : Worker TenXClusterAligner) (pairIdx n m0 m1 : Z)
  (buf : Buf PairedAlignmentResult) (sbuf : Buf SingleAlignmentResult)
  (primary : PairedAlignmentResult) (r0 r1 : Read) (u0 u1 : bool) :
  c_forceSpacing c = false ->
  rd "results" (cells (results w)) pairIdx = Done buf ->
  rd "singleSecondaryResults" (cells (singleSecondaryResults w)) pairIdx
  = Done sbuf ->
  rd "nSecondaryResults" (cells (nSecondaryResults w))
    (nSecondaryResults_off w + pairIdx) = Done n ->
  rd "nSingleSecondaryResults" (cells (nSingleSecondaryResults w))
    (2 * pairIdx) = Done m0 ->
  rd "nSingleSecondaryResults" (cells (nSingleSecondaryResults w))
    (2 * pairIdx + 1) = Done m1 ->
  rd "reads" (cells (reads w)) (2 * pairIdx) = Done r0 ->
  rd "reads" (cells (reads w)) (2 * pairIdx + 1) = Done r1 ->
  rd "useful0" (cells (useful0 w)) pairIdx = Done u0 ->
  rd "useful1" (cells (useful1 w)) pairIdx = Done u1 ->
  b_recs buf !! 0%nat = Some primary ->
  0 <= n < Z.of_nat (length (b_recs buf)) ->
  0 <= m0 -> 0 <= m1 -> m0 + m1 <= Z.of_nat (length (b_recs sbuf)) ->
  n + 1 < Z.of_nat fuel -> m0 < Z.of_nat fuel -> m1 < Z.of_nat fuel ->
  exists w',
    emit_pair InvalidGenomeLocation FilterBothMatesMatch passFilter fuel c w
      pairIdx = Done w'
    /\ out w'
       = out w
         ++ (if c_readWriter c
             then [writePairs (r0, r1) (b_recs buf) (n + 1)
                     (Some (b_recs sbuf, m0)) (m0, m1) true]
             else [])
    /\ stats w'
       = updateStats (add_extraAlignments n (stats w)) primary u0 u1
    /\ cells (results w') = cells (results w)
    /\ cells (singleSecondaryResults w') = cells (singleSecondaryResults w)
    /\ cells (nSingleSecondaryResults w') = cells (nSingleSecondaryResults w)
    /\ nSecondaryResults_off w' = nSecondaryResults_off w
    /\ heap w' = heap w.
Proof.
  intros Hfs Hbuf Hsbuf Hn Hm0 Hm1 Hr0 Hr1 Hu0 Hu1 Hprim Hnr Hm0r Hm1r Hmr
         Hf1 Hf2 Hf3.
  unfold emit_pair. rewrite Hbuf, bind_Done.
  unfold apply_forceSpacing. rewrite Hfs, bind_Done.
  rewrite (filter_paired_from FilterBothMatesMatch passFilter c w
             pairIdx (nSecondaryResults_off w) n (b_recs buf) r0 r1 u0 u1);
    try assumption; try lia.
  2:{ intros i rec _ _. unfold paired_pass, pairPass. rewrite !passFilter_true.
      destruct (bothMatesMatch _ _); reflexivity. }
  rewrite bind_Done. cbv beta iota.
  apply rd_Done in Hbuf as Hbuf'. destruct Hbuf' as [Hp0 Hbuf'].
  apply rd_Done in Hsbuf as Hsbuf'. destruct Hsbuf' as [Hp1 Hsbuf'].
  apply rd_Done in Hm0 as Hm0'. destruct Hm0' as [Hp2 Hm0'].
  apply rd_Done in Hm1 as Hm1'. destruct Hm1' as [Hp3 Hm1'].
  apply lookup_lt_Some in Hbuf' as Lb. apply lookup_lt_Some in Hsbuf' as Ls.
  apply lookup_lt_Some in Hm0' as L0. apply lookup_lt_Some in Hm1' as L1.
  rewrite (wr_ok "results") by lia. rewrite bind_Done. cbv zeta.
  worker_fields.
  rewrite Hsbuf, bind_Done, Hm0, bind_Done.
  rewrite (filter_single_all_pass _ (2 * pairIdx) 0 m0 (b_recs sbuf) r0);
    try assumption; try lia.
  rewrite bind_Done. cbv beta iota. rewrite Hm1, bind_Done.
  rewrite (filter_single_all_pass _ (2 * pairIdx + 1) m0 m1 (b_recs sbuf) r1);
    try assumption; try lia.
  rewrite bind_Done. cbv beta iota.
  rewrite (wr_ok "nSingleSecondaryResults") by lia. rewrite bind_Done.
  rewrite (wr_ok "nSingleSecondaryResults") by (rewrite length_insert; lia).
  rewrite bind_Done.
  rewrite (wr_ok "singleSecondaryResults") by lia. rewrite bind_Done.
  worker_fields.
  rewrite Hn, bind_Done.
  assert (Hat : rec_at "results[pairIdx]" (b_recs buf) 0 = Done primary).
  { unfold rec_at. change (0 <? 0) with false. cbv iota.
    change (Z.to_nat 0) with 0%nat. rewrite Hprim. reflexivity. }
  destruct buf as [bb bn brecs], sbuf as [sb sn srecs]. cbn [b_blk b_nbytes b_recs] in *.
  destruct (c_readWriter c).
  - rewrite Hr0, bind_Done, Hr1, !bind_Done. cbv iota.
    rewrite Hat, bind_Done.
    worker_fields. rewrite Hu0, bind_Done, Hu1, bind_Done.
    eexists. split; [reflexivity|].
    worker_fields. rewrite Z.add_0_r.
    rewrite (list_insert_id (cells (nSingleSecondaryResults w)) _ _ Hm0').
    rewrite !list_insert_id by assumption.
    repeat split.
  - rewrite !bind_Done. cbv iota. rewrite Hat, bind_Done.
    worker_fields. rewrite Hu0, bind_Done, Hu1, bind_Done.
    eexists. split; [reflexivity|].
    worker_fields. rewrite Z.add_0_r, app_nil_r.
    rewrite (list_insert_id (cells (nSingleSecondaryResults w)) _ _ Hm0').
    rewrite !list_insert_id by assumption.
    repeat split.
Qed.

End Unfiltered.

(** *** The slots of the barcode right after allocation *)

Section Allocation.

Context {TenXClusterAligner : Type}.
Variable sizeof_pointer : Z.
Variable sizeof_PairedAlignmentResult : Z.
Variable TenXClusterAligner_new : Context -> TenXClusterAligner.

Lemma alloc_pair_buffers_slots (n : nat) (ref : Z) :
  forall (h : Heap) (i : nat),
    (i < n)%nat ->
    (alloc_pair_buffers sizeof_pointer n ref h).1.1 !! i
    = Some (Some (mkBuf (heap_next h + 2 * i)%nat
                    ((1 + ref) * sizeof_pointer) []))
    /\ (alloc_pair_buffers sizeof_pointer n ref h).1.2 !! i
       = Some (Some (mkBuf (heap_next h + 2 * i + 1)%nat
                       (ref * sizeof_pointer) [])).
Proof.
  induction n as [|n IH]; intros h i Hi; [lia|].
  cbn [alloc_pair_buffers]. cbv beta iota zeta delta [BigAlloc].
  cbn [heap_next heap_live].
  set (h2 := mkHeap (S (S (heap_next h)))
               (S (heap_next h) :: heap_next h :: heap_live h)).
  destruct i as [|i].
  - destruct (alloc_pair_buffers sizeof_pointer n ref h2) as [[rs ss] h3].
    cbn. split; do 3 f_equal; lia.
  - destruct (IH h2 i) as (H1 & H2); [lia|].
    destruct (alloc_pair_buffers sizeof_pointer n ref h2) as [[rs ss] h3].
    cbn [fst snd heap_next] in *.
    split; (etrans; [first [exact H1 | exact H2]|]); do 3 f_equal;
      subst h2; cbn [heap_next]; lia.
Qed.

(** X18: what every slot of the barcode holds when buffering starts: the
    capacity 32 (0 when secondary alignments are off) for paired and single
    results, the overflow flag set, two empty result buffers, and count and
    usefulness cells that are not initialised.  The buffers are requested
    with the size of a pointer per result: where a [PairedAlignmentResult]
    is larger than a pointer, the paired buffer is smaller than its
    advertised capacity requires. *)
Theorem allocate_slots (c : Context) (h : Heap) (o : list Event) (s : Stats)
  (pairIdx : Z) :
  0 <= pairIdx < c_maxBarcodeSize c ->
  let w := allocate sizeof_pointer TenXClusterAligner_new c h o s in
  let ref := maxSecondaryHits_ref c in
  cells (maxPairedSecondaryHits w) !! Z.to_nat pairIdx = Some (Some ref)
  /\ cells (maxSingleSecondaryHits w) !! Z.to_nat pairIdx = Some (Some ref)
  /\ cells (pairNotFinished w) !! Z.to_nat pairIdx = Some (Some true)
  /\ (exists b,
        cells (results w) !! Z.to_nat pairIdx
        = Some (Some (mkBuf b ((1 + ref) * sizeof_pointer) [])))
  /\ (exists b,
        cells (singleSecondaryResults w) !! Z.to_nat pairIdx
        = Some (Some (mkBuf b (ref * sizeof_pointer) [])))
  /\ cells (nSecondaryResults w) !! Z.to_nat pairIdx = Some None
  /\ cells (useful0 w) !! Z.to_nat pairIdx = Some None
  /\ cells (useful1 w) !! Z.to_nat pairIdx = Some None
  /\ (0 < sizeof_pointer < sizeof_PairedAlignmentResult ->
      forall buf cap,
        cells (results w) !! Z.to_nat pairIdx = Some (Some buf) ->
        cells (maxPairedSecondaryHits w) !! Z.to_nat pairIdx = Some (Some cap) ->
        b_nbytes buf < (cap + 1) * sizeof_PairedAlignmentResult).
Proof.
  intros Hi w ref. subst w.
  unfold allocate. cbv beta iota zeta delta [alloc_arr BigAlloc].
  cbn [heap_next heap_live].
  match goal with
  | |- context [alloc_pair_buffers ?a ?b ?c ?d] =>
      destruct (alloc_pair_buffers_slots b c d (Z.to_nat pairIdx))
        as (H1 & H2); [lia|];
      destruct (alloc_pair_buffers a b c d) as [[rs ss] h5]
  end.
  cbn [fst snd] in H1, H2. fold ref in H1, H2. fold ref.
  cbn [cells maxPairedSecondaryHits maxSingleSecondaryHits pairNotFinished
       results singleSecondaryResults nSecondaryResults useful0 useful1].
  rewrite !lookup_replicate_2 by lia. rewrite H1, H2.
  repeat split; try (eexists; reflexivity).
  intros Hsz buf cap [= <-] [= <-]. cbn [b_nbytes].
  assert (0 <= ref) by (unfold ref, maxSecondaryHits_ref;
                        destruct (_ <? 0); lia).
  nia.
Qed.

End Allocation.

(** *** What allocation takes and clean-up gives back *)

Lemma BigDealloc_live (b x : nat) (h : Heap) :
  x ∈ heap_live (BigDealloc b h) <-> x ∈ heap_live h /\ x <> b.
Proof.
  unfold BigDealloc. cbn [heap_live]. rewrite list_elem_of_filter. tauto.
Qed.

Section Balance.

Context {TenXClusterAligner : Type}.
Variable sizeof_pointer : Z.
Variable TenXClusterAligner_new : Context -> TenXClusterAligner.

#[local] Abbreviation Wk := (Worker TenXClusterAligner).

Lemma alloc_pair_buffers_heap (n : nat) (ref : Z) :
  forall h : Heap,
    heap_next (alloc_pair_buffers sizeof_pointer n ref h).2
    = (heap_next h + 2 * n)%nat
    /\ forall x,
         x ∈ heap_live (alloc_pair_buffers sizeof_pointer n ref h).2
         <-> x ∈ heap_live h
             \/ (heap_next h <= x < heap_next h + 2 * n)%nat.
Proof.
  induction n as [|n IH]; intros h.
  - cbn. split; [lia|]. intros x. split; [auto|]. intros [H|H]; [exact H|lia].
  - cbn [alloc_pair_buffers]. cbv beta iota zeta delta [BigAlloc].
    cbn [heap_next heap_live].
    destruct (IH (mkHeap (S (S (heap_next h)))
                    (S (heap_next h) :: heap_next h :: heap_live h)))
      as [Hn Hl].
    destruct (alloc_pair_buffers sizeof_pointer n ref _) as [[rs ss] h3].
    cbn [fst snd heap_next heap_live] in *. split; [lia|].
    intros x. rewrite Hl, !elem_of_cons. clear. intuition lia.
Qed.

Lemma for_each_free_pair_buffers (pb sb : Z -> nat) (idxs : list Z) :
  forall w : Wk,
    (forall i, i ∈ idxs ->
       exists buf sbuf,
         rd "results" (cells (results w)) i = Done buf
         /\ rd "singleSecondaryResults" (cells (singleSecondaryResults w)) i
            = Done sbuf
         /\ b_blk buf = pb i /\ b_blk sbuf = sb i) ->
    exists h',
      for_each free_pair_buffers idxs w = Done (set_heap h' w)
      /\ heap_next h' = heap_next (heap w)
      /\ forall x,
           x ∈ heap_live h'
           <-> x ∈ heap_live (heap w)
               /\ forall i, i ∈ idxs -> x <> pb i /\ x <> sb i.
Proof.
  induction idxs as [|i rest IH]; intros w Hcells.
  - exists (heap w). split; [destruct w; reflexivity|]. split; [reflexivity|].
    intros x. split; [intros H; split; [exact H|]|tauto].
    intros i Hi. inversion Hi.
  - destruct (Hcells i) as (buf & sbuf & E1 & E2 & B1 & B2); [left|].
    assert (Estep : free_pair_buffers w i
                    = Done (free (b_blk sbuf) (free (b_blk buf) w))).
    { unfold free_pair_buffers. rewrite E1, bind_Done, E2, bind_Done.
      reflexivity. }
    cbn [for_each]. rewrite Estep, bind_Done.
    destruct (IH (free (b_blk sbuf) (free (b_blk buf) w)))
      as (h' & E & Hn & Hl).
    { intros j Hj. apply Hcells. right. exact Hj. }
    exists h'. split; [|split].
    + rewrite E. destruct w; reflexivity.
    + rewrite Hn. reflexivity.
    + intros x. rewrite Hl. unfold free. cbn [heap set_heap].
      rewrite !BigDealloc_live, B1, B2. split.
      * intros [[[Hx H1] H2] Hrest]. split; [exact Hx|].
        intros j Hj. apply elem_of_cons in Hj as [->|Hj]; auto.
      * intros [Hx Hall]. destruct (Hall i) as [H1 H2]; [left|].
        split; [split; [split; [exact Hx|exact H1]|exact H2]|].
        intros j Hj. apply Hall. right. exact Hj.
Qed.

(** X19: clean-up after allocation gives back every block the thread took,
    whatever [maxBarcodeSize] is, except the array of progress trackers:
    the blocks live afterwards are those live before, and
    [tenXSingleTrackerArray]. *)
Theorem cleanup_releases_all_but_the_tracker (c : Context) (h : Heap)
  (o : list Event) (s : Stats) :
  Forall (fun b => (b < heap_next h)%nat) (heap_live h) ->
  exists w',
    cleanup c (allocate sizeof_pointer TenXClusterAligner_new c h o s)
    = Done w'
    /\ allocator w' = false
    /\ supplier w' = false
    /\ tenXSingleTrackerArray w' = heap_next h
    /\ forall x,
         x ∈ heap_live (heap w')
         <-> x = tenXSingleTrackerArray w' \/ x ∈ heap_live h.
Proof.
  intros Hold. rewrite Forall_forall in Hold.
  set (N := Z.to_nat (c_maxBarcodeSize c)).
  set (n0 := heap_next h).
  unfold cleanup, allocate. cbv beta iota zeta delta [alloc_arr BigAlloc].
  cbn [heap_next heap_live]. fold n0.
  match goal with
  | |- context [alloc_pair_buffers ?a ?b ?c ?d] =>
      pose proof (alloc_pair_buffers_slots a b c d) as Hslots;
      destruct (alloc_pair_buffers_heap b c d) as [Hnext Hlive];
      destruct (alloc_pair_buffers a b c d) as [[rs ss] h5]
  end.
  cbn [fst snd heap_next heap_live] in Hslots, Hnext, Hlive.
  fold N in Hslots, Hnext, Hlive |- *.
  cbn [reads maxPairedSecondaryHits maxSingleSecondaryHits popularSeedsSkipped
       pairNotFinished useful0 useful1 blk].
  match goal with
  | |- context [for_each free_pair_buffers ?idxs ?w0] =>
      destruct (for_each_free_pair_buffers
                  (fun i => (n0 + 4 + 2 * Z.to_nat i)%nat)
                  (fun i => (n0 + 4 + 2 * Z.to_nat i + 1)%nat) idxs w0)
        as (h' & E & Hn' & Hl')
  end.
  { intros i Hi. unfold upto in Hi. apply elem_of_seqZ in Hi.
    destruct (Hslots (Z.to_nat i)) as [H1 H2]; [lia|].
    do 2 eexists. unfold free. cbn [results singleSecondaryResults set_heap cells].
    unfold rd. destruct (Z.ltb_spec i 0); [lia|]. rewrite H1, H2.
    repeat split; cbn [b_blk]; lia. }
  rewrite E, bind_Done.
  cbn [set_heap nSecondaryResults_off]. change (0 =? 0) with true. cbv iota.
  eexists. split; [reflexivity|].
  cbn [set_allocator set_supplier free set_heap allocator supplier heap
       tenXSingleTrackerArray singleSecondaryResults results
       nSingleSecondaryResults nSecondaryResults blk].
  split; [reflexivity|]. split; [reflexivity|]. split; [reflexivity|].
  intros x. rewrite !BigDealloc_live, Hl'.
  unfold free. cbn [heap set_heap]. rewrite !BigDealloc_live.
  cbn [heap_live]. rewrite !elem_of_cons, Hlive, !elem_of_cons.
  unfold upto.
  assert (Hbuf : (forall i : Z,
                    i ∈ seqZ 0 (c_maxBarcodeSize c) ->
                    x <> (n0 + 4 + 2 * Z.to_nat i)%nat
                    /\ x <> (n0 + 4 + 2 * Z.to_nat i + 1)%nat)
                 <-> ~ (n0 + 4 <= x < n0 + 4 + 2 * N)%nat).
  { split.
    - intros Hall Hrange.
      pose proof (Nat.div_mod_eq (x - (n0 + 4)) 2) as Hd.
      pose proof (Nat.mod_upper_bound (x - (n0 + 4)) 2) as Hm.
      assert (Hq : ((x - (n0 + 4)) / 2 < N)%nat)
        by (apply Nat.Div0.div_lt_upper_bound; lia).
      destruct (Hall (Z.of_nat ((x - (n0 + 4)) / 2))) as [H1 H2].
      { apply elem_of_seqZ. lia. }
      rewrite Nat2Z.id in H1, H2. lia.
    - intros Hout i Hi. apply elem_of_seqZ in Hi. lia. }
  rewrite Hbuf, Hnext. pose proof (Hold x) as Hx. fold n0 in Hx.
  clear -Hx. intuition lia.
Qed.

End Balance.

(** ** Runs of the properties above *)

(** Two pairs without an index and without a filter: four reads read, two
    pairs counted as not found, two calls of the writer. *)
Lemma fast_path_counts_pairs_run :
  exists o' s',
    fast_path (-1) 8 filter_off ids_match_by_stem (context_with 0 true false 2)
      [(read_abc_1, read_abc_2); (read_short_1, read_short_2)] [] stats0
    = Done (o', s')
    /\ totalReads s' = 4
    /\ notFound s' + uselessReads s' = 2
    /\ pairs_written o' = 2.
Proof.
  eassert (E : fast_path (-1) 8 filter_off ids_match_by_stem
                 (context_with 0 true false 2)
                 [(read_abc_1, read_abc_2); (read_short_1, read_short_2)]
                 [] stats0 = Done (_, _)) by (vm_compute; reflexivity).
  destruct (fast_path_counts_pairs (-1) 8 filter_off ids_match_by_stem
              _ _ _ _ _ _ E) as (H1 & H2 & _).
  do 2 eexists. split; [exact E|]. split; [exact H1|]. split; [exact H2|].
  reflexivity.
Defined.

(** The second pair is (abc/1, xyz/2): the first pair is written, then the
    message, then the program exits. *)
Lemma fast_path_stops_at_first_mismatch_run :
  c_ignoreMismatchedIDs (context_with 0 false false 2) = false
  /\ ids_match_by_stem read_abc_1 read_abc_2 = true
  /\ ids_match_by_stem read_abc_1 read_xyz_2 = false
  /\ fast_path (-1) 8 filter_off ids_match_by_stem
       (context_with 0 false false 2)
       [(read_abc_1, read_abc_2); (read_abc_1, read_xyz_2);
        (read_short_1, read_short_2)] [] stats0
     = Exited 1
         [writePairs (read_abc_1, read_abc_2) [fast_result (-1)] 1 None
            (0, 0) true;
          WriteErrorMessage (unmatched_message read_abc_1 read_xyz_2)].
Proof.
  split; [reflexivity|]. split; [reflexivity|]. split; [reflexivity|].
  destruct (fast_path_stops_at_first_mismatch (-1) 8 filter_off
              ids_match_by_stem (context_with 0 false false 2)
              [(read_abc_1, read_abc_2)] [(read_short_1, read_short_2)]
              read_abc_1 read_xyz_2 [] stats0 eq_refl)
    as (o1 & s1 & E1 & E2).
  - constructor; [reflexivity|constructor].
  - reflexivity.
  - cbn [app] in E2. rewrite E2. vm_compute in E1. injection E1 as <- _.
    reflexivity.
Defined.

(** Identifiers are not compared: the mismatched pair goes through. *)
Lemma fast_path_completes_run :
  exists o' s',
    fast_path (-1) 8 filter_off ids_match_by_stem (context_with 0 true false 2)
      [(read_abc_1, read_xyz_2)] [] stats0 = Done (o', s').
Proof.
  exact (fast_path_completes (-1) 8 filter_off ids_match_by_stem
           (context_with 0 true false 2) [(read_abc_1, read_xyz_2)] []
           stats0 (or_introl eq_refl)).
Defined.

(** Two pairs into a barcode of size two. *)
Lemma buffer_reads_fits_run :
  exists w',
    buffer_reads (-1) 8 filter_off ids_match_by_stem stack_garbage
      (context_with 0 true false 2)
      [(read_abc_1, read_abc_2); (read_abc_1, read_xyz_2)]
      (fresh_worker (context_with 0 true false 2)) = Done w'
    /\ 0 <= totalPairsForBarcode w' <= 2.
Proof.
  apply (buffer_reads_fits (-1) 8 8 filter_off ids_match_by_stem stack_garbage
           (fun _ => tt) (context_with 0 true false 2)
           [(read_abc_1, read_abc_2); (read_abc_1, read_xyz_2)]
           empty_heap [] stats0).
  - cbn. lia.
  - left. reflexivity.
Defined.

(** One aligned pair through the whole thread: two reads read, two reads
    classified, one call of the writer. *)
Lemma every_read_is_classified_once_run :
  exists r,
    runIterationThread (-1) 8 8 120 40 filter_off ids_match_by_stem
      stack_garbage (fun _ => tt) first_stage_idle second_stage_places_one
      stage_done 10 (context_with 0 true false 1)
      (mkInput (Some [(read_abc_1, read_abc_2)]) false true)
      empty_heap stats0 = Done r
    /\ totalReads (ret_stats r) = 2
    /\ classified (ret_stats r) = 2
    /\ pairs_written (ret_out r) = 1.
Proof.
  eassert (Hbuf : buffer_reads (-1) 8 filter_off ids_match_by_stem
                    stack_garbage (context_with 0 true false 1)
                    [(read_abc_1, read_abc_2)]
                    (allocate 8 (fun _ => tt) (context_with 0 true false 1)
                       empty_heap [] stats0) = Done _)
    by (vm_compute; reflexivity).
  eassert (Hrun : runIterationThread (-1) 8 8 120 40 filter_off
                    ids_match_by_stem stack_garbage (fun _ => tt)
                    first_stage_idle second_stage_places_one stage_done 10
                    (context_with 0 true false 1)
                    (mkInput (Some [(read_abc_1, read_abc_2)]) false true)
                    empty_heap stats0 = Done _)
    by (vm_compute; reflexivity).
  pose proof (every_read_is_classified_once (-1) 8 8 120 40 filter_off
                ids_match_by_stem stack_garbage (fun _ => tt)
                first_stage_idle second_stage_places_one stage_done 10
                (context_with 0 true false 1) [(read_abc_1, read_abc_2)]
                empty_heap stats0 _ _
                (fun w => eq_refl) (fun w => eq_refl) (fun w => eq_refl)
                Hbuf Hrun) as (H1 & H2 & H3).
  eexists. split; [exact Hrun|]. split; [exact H1|]. split; [exact H2|].
  reflexivity.
Defined.

(** Of three single-end results the one not placed is dropped: two stay, and
    they are the two that pass. *)
Lemma filter_single_keeps_what_passes_run :
  exists srecs' n',
    filter_single filter_aligned 4 after_stage3 0 0 three_singles 3 0
    = Done (srecs', n')
    /\ n' = 2
    /\ take 2 srecs' ≡ₚ [mkSingle SingleHit 10; mkSingle MultipleHits 5].
Proof.
  destruct (filter_single_keeps_what_passes filter_aligned 4 after_stage3
              0 0 3 three_singles read_abc_1)
    as (srecs' & n' & E & _ & Hp & _); try reflexivity; try (cbn; lia).
  exists srecs', n'. split; [exact E|].
  vm_compute in E. injection E as <- <-. split; [reflexivity|].
  exact Hp.
Defined.

(** Pair 0 of [after_stage3], no filter: both of its results stay. *)
Lemma filter_paired_all_pass_run :
  filter_paired 8 filter_off 3 emission_context after_stage3 0
    [aligned SingleHit SingleHit 1000 1300;
     aligned MultipleHits MultipleHits 5000 5300] 0 true 0
  = Done ([aligned SingleHit SingleHit 1000 1300;
           aligned MultipleHits MultipleHits 5000 5300], 0, true).
Proof.
  apply (filter_paired_all_pass 8 filter_off 3 emission_context after_stage3
           0 0 1 _ read_abc_1 read_abc_2 true true);
    try reflexivity; cbn; lia.
Defined.

(** Pair 0 of [after_stage3] goes to the writer with its two results. *)
Lemma emit_pair_unfiltered_run :
  exists w',
    emit_pair (-1) 8 filter_off 3 emission_context after_stage3 0 = Done w'
    /\ out w'
       = [writePairs (read_abc_1, read_abc_2)
            [aligned SingleHit SingleHit 1000 1300;
             aligned MultipleHits MultipleHits 5000 5300]
            2 (Some ([], 0)) (0, 0) true]
    /\ extraAlignments (stats w') = 1
    /\ singleHits (stats w') = 2.
Proof.
  destruct (emit_pair_unfiltered (-1) 8 filter_off (fun _ _ _ _ => eq_refl)
              3 emission_context after_stage3 0 1 0 0
              (mkBuf 4%nat 264
                 [aligned SingleHit SingleHit 1000 1300;
                  aligned MultipleHits MultipleHits 5000 5300])
              (mkBuf 5%nat 256 [])
              (aligned SingleHit SingleHit 1000 1300)
              read_abc_1 read_abc_2 true true)
    as (w' & E & Ho & Hs & _); try reflexivity; try (cbn; lia).
  exists w'. split; [exact E|]. split; [exact Ho|]. rewrite Hs.
  split; reflexivity.
Defined.

(** Slot 1 of a barcode of two, secondary alignments on, 8-byte pointers and
    120-byte paired results: room for 32 secondary results is advertised and
    264 bytes are there. *)
Lemma allocate_slots_run :
  cells (maxPairedSecondaryHits (fresh_worker emission_context)) !! 1%nat
  = Some (Some 32)
  /\ (exists b,
        cells (results (fresh_worker emission_context)) !! 1%nat
        = Some (Some (mkBuf b 264 [])))
  /\ cells (nSecondaryResults (fresh_worker emission_context)) !! 1%nat
     = Some None.
Proof.
  destruct (allocate_slots 8 120 (fun _ => tt) emission_context empty_heap
              [] stats0 1)
    as (H1 & _ & _ & H4 & _ & H6 & _); [cbn; lia|].
  split; [exact H1|]. split; [exact H4|]. exact H6.
Defined.

(** From an empty heap: after allocation and clean-up block 0, the tracker
    array, is the one block left. *)
Lemma cleanup_releases_all_but_the_tracker_run :
  exists w',
    cleanup (context_with 0 true false 2)
      (fresh_worker (context_with 0 true false 2)) = Done w'
    /\ allocator w' = false
    /\ supplier w' = false
    /\ tenXSingleTrackerArray w' = 0%nat
    /\ heap_live (heap w') = [0%nat].
Proof.
  destruct (cleanup_releases_all_but_the_tracker 8 (fun _ => tt)
              (context_with 0 true false 2) empty_heap [] stats0)
    as (w' & E & Ha & Hs & Ht & _); [constructor|].
  exists w'. split; [exact E|]. split; [exact Ha|]. split; [exact Hs|].
  split; [exact Ht|]. vm_compute in E. injection E as <-. reflexivity.
Defined.

(** [-s 50 1000] as the whole command line: accepted, the cursor on the
    second value. *)
Lemma parse_own_option_cursor_run :
  own_option ["-s"; "50"; "1000"]%string 0 = true
  /\ exists p,
      parse 8 (fun _ _ _ => None) (TenXAlignerOptions_new 300 1000000)
        ["-s"; "50"; "1000"]%string 0 = Some p
      /\ p_done p = false
      /\ p_ok p = true
      /\ p_n p = 2.
Proof.
  split; [reflexivity|].
  destruct (parse_own_option_cursor 8 (fun _ _ _ => None)
              (TenXAlignerOptions_new 300 1000000)
              ["-s"; "50"; "1000"]%string 0 eq_refl)
    as (p & E & Hd & _).
  exists p. split; [exact E|]. split; [exact Hd|].
  vm_compute in E. injection E as <-. split; reflexivity.
Defined.
